(** * pdf-scholar: conversation memory, retry wrapper and chat route

    A shallow embedding of [src/lib/memory.ts], [src/lib/utils/retry.ts],
    [src/lib/config/ollama.ts] and the chat route handler, with the
    properties of the specification stated over it; then of
    [src/lib/tokenCounter.ts], the health route and its client, the GPU
    settings and the embeddings client, with further properties.

    Conventions of the embedding:
    - a JavaScript string is the list of its UTF-16 code units ([list N]);
      [.length], [.slice], [.split], [.trim] and the regular expressions
      used by the sources work on code units;
    - a JavaScript number is an integer ([Z]); the two fractional
      constants of the token heuristic ([1.3] and [/ 4]) are exact
      rationals ([Q]);
    - arrays and message objects live in a store ([Heap]) and are passed
      by reference, so aliasing and in-place updates ([push], [unshift])
      are visible. *)

From Stdlib Require Import ZArith QArith Qround Qminmax.
From Stdlib Require Import String Ascii List Lia DecimalString.
From stdpp Require Import base option list gmap.

Close Scope Q_scope.
Local Open Scope Z_scope.

(** ** JavaScript strings *)

Module JS.

Abbreviation jsstring := (list N).

(** An ASCII literal as code units. *)
Fixpoint lit (s : string) : jsstring :=
  match s with
  | EmptyString => []
  | String a s' => N_of_ascii a :: lit s'
  end.

Definition LF : N := 10%N.
Definition HASH : N := 35%N.
Definition COMMA : N := 44%N.

(** The class [\s] of ECMAScript regular expressions, which is also the
    set stripped by [String.prototype.trim]: WhiteSpace and
    LineTerminator code points. *)
Definition isWhiteSpace (c : N) : bool :=
  ((9 <=? c) && (c <=? 13) || (c =? 32) || (c =? 160) || (c =? 5760)
   || (8192 <=? c) && (c <=? 8202) || (c =? 8232) || (c =? 8233)
   || (c =? 8239) || (c =? 8287) || (c =? 12288) || (c =? 65279))%N.

(** [s.split(/\s+/)]: the pieces between maximal runs of white space.
    [inSep] tells that the previous code unit belonged to a separator;
    [cur] is the piece being read, reversed. *)
Fixpoint splitWhitespaceFrom (inSep : bool) (cur : jsstring) (s : jsstring)
  : list jsstring :=
  match s with
  | [] => [rev cur]
  | c :: s' =>
      if isWhiteSpace c then
        if inSep then splitWhitespaceFrom true cur s'
        else rev cur :: splitWhitespaceFrom true [] s'
      else splitWhitespaceFrom false (c :: cur) s'
  end.

Definition splitWhitespace (s : jsstring) : list jsstring :=
  splitWhitespaceFrom false [] s.

(** [s.split(sep)] for a separator of one code unit. *)
Fixpoint splitOnFrom (sep : N) (cur : jsstring) (s : jsstring)
  : list jsstring :=
  match s with
  | [] => [rev cur]
  | c :: s' =>
      if (c =? sep)%N then rev cur :: splitOnFrom sep [] s'
      else splitOnFrom sep (c :: cur) s'
  end.

Definition splitOn (sep : N) (s : jsstring) : list jsstring :=
  splitOnFrom sep [] s.

Fixpoint dropWhiteSpace (s : jsstring) : jsstring :=
  match s with
  | [] => []
  | c :: s' => if isWhiteSpace c then dropWhiteSpace s' else s
  end.

(** [s.trim()]. *)
Definition trim (s : jsstring) : jsstring :=
  rev (dropWhiteSpace (rev (dropWhiteSpace s))).

(** Truthiness of a string: the empty string is the only falsy one. *)
Definition truthy (s : jsstring) : bool :=
  match s with [] => false | _ :: _ => true end.

(** [s.slice(0, n)] for a literal [n >= 0]. *)
Definition slice0 (n : nat) (s : jsstring) : jsstring := firstn n s.

(** [parts.join(sep)]. *)
Fixpoint join (sep : jsstring) (parts : list jsstring) : jsstring :=
  match parts with
  | [] => []
  | [p] => p
  | p :: rest => p ++ sep ++ join sep rest
  end.

Fixpoint startsWith (p s : jsstring) : bool :=
  match p, s with
  | [], _ => true
  | _ :: _, [] => false
  | a :: p', b :: s' => (a =? b)%N && startsWith p' s'
  end.

(** [s === t] on strings. *)
Fixpoint eqb (s t : jsstring) : bool :=
  match s, t with
  | [], [] => true
  | a :: s', b :: t' => (a =? b)%N && eqb s' t'
  | _, _ => false
  end.

(** [s.includes(p)]. *)
Fixpoint includes (p s : jsstring) : bool :=
  startsWith p s ||
  match s with
  | [] => false
  | _ :: s' => includes p s'
  end.

(** [String(n)] for an integer [n]. *)
Definition showInt (n : Z) : jsstring :=
  lit (NilZero.string_of_int (Z.to_int n)).

Fixpoint skipHashes (s : jsstring) : jsstring :=
  match s with
  | c :: s' => if (c =? HASH)%N then skipHashes s' else s
  | [] => []
  end.

(** The regular expression [/^#+\s/] applied to [s]: [Some rest] when it
    matches, [rest] being what follows the match.  [#] is not white
    space, so the greedy [#+] never has to give a [#] back. *)
Definition matchHeading (s : jsstring) : option jsstring :=
  match s with
  | c :: s' =>
      if (c =? HASH)%N then
        match skipHashes s' with
        | w :: rest => if isWhiteSpace w then Some rest else None
        | [] => None
        end
      else None
  | [] => None
  end.

(** [s.match(/^#+\s/)] as a condition. *)
Definition matchesHeading (s : jsstring) : bool :=
  match matchHeading s with
  | Some _ => true
  | None => false
  end.

(** [s.replace(/^#+\s/, '')]. *)
Definition stripHeading (s : jsstring) : jsstring :=
  match matchHeading s with
  | Some rest => rest
  | None => s
  end.

End JS.

Import JS.

(** ** Messages and token estimation ([src/lib/memory.ts]) *)

Module Memory.

Inductive Role := user | assistant | system.

(** [export interface ChatMessage] of [@/types], which the sources hold
    in [src/components/PDFViewer.tsx].  An optional field that is
    [undefined] is [None]; a [Date] is its time value.  The optional
    field [tokenCount] is left out: only the database path writes and
    reads it. *)
Record ChatMessage := mkChatMessage {
  id : jsstring;
  role : Role;
  content : jsstring;
  images : option (list jsstring);
  pageReferences : option (list Z);
  timestamp : Z
}.

(** A loaded tokenizer: [encode] gives the token ids, or throws
    ([None]). *)
Record Encoder := mkEncoder { encode : jsstring -> option (list N) }.

(** The module-level variables [tiktoken] and [jsTiktoken] ([null]
    until [initializeTokenCounter] has loaded one of them). *)
Record TokenCounter := mkTokenCounter {
  tiktoken : option Encoder;
  jsTiktoken : option Encoder
}.

(** Neither tokenizer is loaded: [encodingMethod = 'fallback']. *)
Definition fallback : TokenCounter := mkTokenCounter None None.

Definition wordBasedEstimate (text : jsstring) : Q :=
  let words := Z.of_nat (length (splitWhitespace text)) in
  (inject_Z words * (13 # 10))%Q.

Definition charBasedEstimate (text : jsstring) : Q :=
  let characters := Z.of_nat (length text) in
  (inject_Z characters / inject_Z 4)%Q.

(** The last three statements of [countTokens]. *)
Definition estimateTokens (text : jsstring) : Z :=
  Qceiling (Qmax (wordBasedEstimate text) (charBasedEstimate text)).

Definition tryEncode (tk : option Encoder) (text : jsstring) : option Z :=
  match tk with
  | Some e =>
      match encode e text with
      | Some tokens => Some (Z.of_nat (length tokens))
      | None => None
      end
  | None => None
  end.

Definition countTokens (tc : TokenCounter) (text : jsstring) : Z :=
  match tryEncode (tiktoken tc) text with
  | Some n => n
  | None =>
      match tryEncode (jsTiktoken tc) text with
      | Some n => n
      | None => estimateTokens text
      end
  end.

Definition countMessageTokens (tc : TokenCounter) (message : ChatMessage) : Z :=
  let tokens := countTokens tc (content message) in
  let tokens :=
    match images message with
    | Some imgs => tokens + Z.of_nat (length imgs) * 1000
    | None => tokens
    end in
  tokens + 4.

Definition getTotalTokenCount (tc : TokenCounter) (messages : list ChatMessage) : Z :=
  fold_left (fun total msg => total + countMessageTokens tc msg) messages 0.

Definition extractKeyPoints (content : jsstring) : jsstring :=
  let lines := List.filter (fun line => truthy (trim line)) (splitOn LF content) in
  let headings :=
    List.filter matchesHeading lines in
  if (0 <? length headings)%nat
  then join (lit ", ") (map stripHeading (firstn 3 headings))
  else slice0 150 content ++ lit "...".

(** One iteration of the [forEach] of [summarizeOldMessages]. *)
Definition summarizeStep (summary : jsstring) (msg : ChatMessage) : jsstring :=
  match role msg with
  | user =>
      let summary :=
        summary ++ lit "- User asked about: " ++ slice0 100 (content msg)
                ++ lit "..." ++ [LF] in
      match pageReferences msg with
      | Some refs =>
          summary ++ lit "  (Pages: " ++ join (lit ", ") (map showInt refs)
                  ++ lit ")" ++ [LF]
      | None => summary
      end
  | assistant =>
      let keyPoints := extractKeyPoints (content msg) in
      summary ++ lit "- Assistant explained: " ++ keyPoints ++ [LF]
  | system => summary
  end.

Definition summarizeOldMessages (messages : list ChatMessage) : jsstring :=
  let toSummarize := firstn (Nat.min 3 (length messages)) messages in
  fold_left summarizeStep toSummarize
            (lit "Previous conversation summary:" ++ [LF]).

(** *** The store *)

Abbreviation loc := positive.

(** Message objects and arrays of references to them. *)
Record Heap := mkHeap {
  objs : gmap loc ChatMessage;
  arrs : gmap loc (list loc)
}.

(** A computation on the store; [None] is an access through a reference
    that the store does not hold, which a JavaScript program cannot
    make. *)
Definition M (A : Type) : Type := Heap -> option (A * Heap).

#[global] Instance M_ret : MRet M := fun A a h => Some (a, h).
#[global] Instance M_bind : MBind M := fun A B f m h =>
  match m h with
  | Some (a, h') => f a h'
  | None => None
  end.

Definition newObject (m : ChatMessage) : M loc := fun h =>
  let l := fresh (dom (objs h)) in
  Some (l, mkHeap (<[l := m]> (objs h)) (arrs h)).

Definition newArray (elems : list loc) : M loc := fun h =>
  let l := fresh (dom (arrs h)) in
  Some (l, mkHeap (objs h) (<[l := elems]> (arrs h))).

Definition getObject (l : loc) : M ChatMessage := fun h =>
  match objs h !! l with
  | Some m => Some (m, h)
  | None => None
  end.

Definition getArray (a : loc) : M (list loc) := fun h =>
  match arrs h !! a with
  | Some elems => Some (elems, h)
  | None => None
  end.

(** [a.length]. *)
Definition arrayLength (a : loc) : M nat := fun h =>
  match arrs h !! a with
  | Some elems => Some (length elems, h)
  | None => None
  end.

(** [a[i]] for an index within the array. *)
Definition arrayGet (a : loc) (i : nat) : M loc := fun h =>
  match arrs h !! a with
  | Some elems =>
      match elems !! i with
      | Some x => Some (x, h)
      | None => None
      end
  | None => None
  end.

(** [a.unshift(x)]. *)
Definition unshift (a : loc) (x : loc) : M unit := fun h =>
  match arrs h !! a with
  | Some elems => Some (tt, mkHeap (objs h) (<[a := x :: elems]> (arrs h)))
  | None => None
  end.

(** [a.push(x)]. *)
Definition push (a : loc) (x : loc) : M unit := fun h =>
  match arrs h !! a with
  | Some elems => Some (tt, mkHeap (objs h) (<[a := elems ++ [x]]> (arrs h)))
  | None => None
  end.

Fixpoint getObjects (ls : list loc) : M (list ChatMessage) :=
  match ls with
  | [] => mret []
  | l :: ls' => m ← getObject l; ms ← getObjects ls'; mret (m :: ms)
  end.

(** The messages an array refers to, for the functions that only read
    their argument. *)
Definition readMessages (a : loc) : M (list ChatMessage) :=
  elems ← getArray a; getObjects elems.

(** The two readings of the clock taken for the summary message:
    [Date.now()] and [new Date()]. *)
Record Clock := mkClock { dateNow : Z; newDate : Z }.

(** The [for] loop of [truncateConversation]; [n] is [i + 1], so the
    loop ends when [n] reaches [0]. *)
Fixpoint keepNewest (tc : TokenCounter) (messages truncatedMessages : loc)
    (maxTokens : Z) (n : nat) (currentTokens : Z) : M unit :=
  match n with
  | O => mret tt
  | S i =>
      message ← arrayGet messages i;
      msg ← getObject message;
      let messageTokens := countMessageTokens tc msg in
      if currentTokens + messageTokens >? maxTokens then mret tt
      else
        _ ← unshift truncatedMessages message;
        keepNewest tc messages truncatedMessages maxTokens i
                   (currentTokens + messageTokens)
  end.

Definition summaryOf (clock : Clock) (summary : jsstring) : ChatMessage :=
  {| id := lit "summary-" ++ showInt (dateNow clock);
     role := system;
     content := summary;
     images := None;
     pageReferences := None;
     timestamp := newDate clock |}.

(** The result is the pair of the fields [messages] and
    [wasTruncated]. *)
Definition truncateConversation (tc : TokenCounter) (clock : Clock)
    (messages : loc) (maxTokens bufferThreshold : Z) : M (loc * bool) :=
  msgs ← readMessages messages;
  let totalTokens := getTotalTokenCount tc msgs in
  if totalTokens <=? bufferThreshold then mret (messages, false)
  else
    let summary := summarizeOldMessages msgs in
    summaryMessage ← newObject (summaryOf clock summary);
    truncatedMessages ← newArray [summaryMessage];
    summaryMsg ← getObject summaryMessage;
    let currentTokens := countMessageTokens tc summaryMsg in
    len ← arrayLength messages;
    _ ← keepNewest tc messages truncatedMessages maxTokens len currentTokens;
    mret (truncatedMessages, true).

End Memory.

Import Memory.

(** ** Retry with exponential backoff ([src/lib/utils/retry.ts]) *)

Module Retry.

(** A thrown value, with the three properties the sources read. *)
Record JsError := mkJsError {
  name : option jsstring;
  message : option jsstring;
  status : option Z
}.

Definition nameIs (error : JsError) (s : string) : bool :=
  match name error with
  | Some n => eqb n (lit s)
  | None => false
  end.

(** [error.message?.includes(s)] as a condition. *)
Definition messageIncludes (error : JsError) (s : string) : bool :=
  match message error with
  | Some m => includes (lit s) m
  | None => false
  end.

(** A comparison of [error.status] with a number; it is false when the
    property is [undefined]. *)
Definition statusSatisfies (error : JsError) (p : Z -> bool) : bool :=
  match status error with
  | Some st => p st
  | None => false
  end.

Definition shouldRetry (error : JsError) : bool :=
  if nameIs error "AbortError" || nameIs error "TimeoutError" then true
  else if messageIncludes error "fetch failed"
          || messageIncludes error "ECONNREFUSED" then true
  else if statusSatisfies error (fun st => st =? 503) then true
  else if statusSatisfies error (fun st => 400 <=? st)
          && statusSatisfies error (fun st => st <? 500)
          && negb (statusSatisfies error (fun st => st =? 429)) then false
  else if statusSatisfies error (fun st => 500 <=? st) then true
  else false.

Section WithRetry.

(** [S] is the state of the world the operation and the hook act on,
    [T] the type of results, [E] the type of thrown values. *)
Context {S T E : Type}.

(** An awaited call: it resolves ([inl]) or rejects ([inr]). *)
Definition Operation : Type := S -> (T + E) * S.

(** The hook returns ([None]) or throws ([Some]). *)
Definition Hook : Type := Z -> E -> S -> option E * S.

Record RetryOptions := mkRetryOptions {
  maxAttempts : option Z;
  initialDelay : option Z;
  maxDelay : option Z;
  onRetry : option Hook
}.

(** What [withRetry] does, in order: a call of the operation with its
    result, a call of the hook, a wait of [delay] milliseconds. *)
Inductive Event :=
| Attempt (attempt : Z) (result : T + E)
| Retrying (attempt : Z) (error : E)
| Waited (delay : Z).

(** [Rejected None] is [throw lastError] with [lastError] still
    [undefined]. *)
Inductive Outcome :=
| Resolved (value : T)
| Rejected (error : option E)
| OutOfFuel.

Definition backoff (initialDelay maxDelay attempt : Z) : Z :=
  Z.min (initialDelay * 2 ^ (attempt - 1)) maxDelay.

Definition logged (evs : list Event) (r : Outcome * S * list Event)
  : Outcome * S * list Event :=
  let '(o, s, tr) := r in (o, s, evs ++ tr).

(** The [for] loop, from [attempt] on. *)
Fixpoint attempts (fn : Operation) (maxAttempts initialDelay maxDelay : Z)
    (onRetry : option Hook) (fuel : nat) (attempt : Z)
    (lastError : option E) (s : S) : Outcome * S * list Event :=
  if attempt <=? maxAttempts then
    match fuel with
    | O => (OutOfFuel, s, [])
    | Datatypes.S fuel' =>
        match fn s with
        | (inl value, s1) => (Resolved value, s1, [Attempt attempt (inl value)])
        | (inr error, s1) =>
            if attempt =? maxAttempts
            then (Rejected (Some error), s1, [Attempt attempt (inr error)])
            else
              let delay := backoff initialDelay maxDelay attempt in
              match onRetry with
              | Some hook =>
                  match hook attempt error s1 with
                  | (Some thrown, s2) =>
                      (Rejected (Some thrown), s2,
                       [Attempt attempt (inr error); Retrying attempt error])
                  | (None, s2) =>
                      logged [Attempt attempt (inr error);
                              Retrying attempt error; Waited delay]
                        (attempts fn maxAttempts initialDelay maxDelay onRetry
                                  fuel' (attempt + 1) (Some error) s2)
                  end
              | None =>
                  logged [Attempt attempt (inr error); Waited delay]
                    (attempts fn maxAttempts initialDelay maxDelay onRetry
                              fuel' (attempt + 1) (Some error) s1)
              end
        end
    end
  else (Rejected lastError, s, []).

Definition withRetry (fn : Operation) (options : RetryOptions) (s : S)
  : Outcome * S * list Event :=
  let maxAttempts := default 3 (maxAttempts options) in
  let initialDelay := default 1000 (initialDelay options) in
  let maxDelay := default 10000 (maxDelay options) in
  attempts fn maxAttempts initialDelay maxDelay (onRetry options)
           (Z.to_nat maxAttempts) 1 None s.

(** Readings of a trace. *)
Definition isAttempt (ev : Event) : bool :=
  match ev with Attempt _ _ => true | _ => false end.
Definition isRetrying (ev : Event) : bool :=
  match ev with Retrying _ _ => true | _ => false end.
Definition invocations (tr : list Event) : nat :=
  length (List.filter isAttempt tr).
Definition hookCalls (tr : list Event) : nat :=
  length (List.filter isRetrying tr).
Fixpoint delays (tr : list Event) : list Z :=
  match tr with
  | [] => []
  | Waited d :: tr' => d :: delays tr'
  | _ :: tr' => delays tr'
  end.
(** The last call of the operation: its attempt number and result. *)
Fixpoint lastAttempt (tr : list Event) : option (Z * (T + E)) :=
  match tr with
  | [] => None
  | ev :: tr' =>
      match lastAttempt tr' with
      | Some a => Some a
      | None =>
          match ev with
          | Attempt i r => Some (i, r)
          | _ => None
          end
      end
  end.

End WithRetry.

Arguments Operation : clear implicits.
Arguments Hook : clear implicits.
Arguments RetryOptions : clear implicits.
Arguments Event : clear implicits.
Arguments Outcome : clear implicits.

End Retry.

Import Retry.

(** ** Backend configuration ([src/lib/config/ollama.ts]) *)

Module Config.

Record RetryConfig := mkRetryConfig {
  retryMaxAttempts : Z;
  retryInitialDelay : Z;
  retryMaxDelay : Z
}.

(** [OLLAMA_CONFIG], as far as the chat route reads it. *)
Record OllamaConfig := mkOllamaConfig {
  baseUrl : jsstring;
  model : jsstring;
  retry : RetryConfig;
  numContext : Z;
  numPredict : Z
}.

(** [a || b] on strings that may be [undefined]. *)
Definition orElse (a : option jsstring) (b : jsstring) : jsstring :=
  match a with
  | Some s => if truthy s then s else b
  | None => b
  end.

Definition getOllamaErrorMessage (cfg : OllamaConfig) (error : JsError) : jsstring :=
  if nameIs error "AbortError" || nameIs error "TimeoutError" then
    lit "Request to Ollama timed out. The model might be loading. Please try again in a moment."
  else if messageIncludes error "fetch failed"
          || messageIncludes error "ECONNREFUSED" then
    lit "Cannot connect to Ollama. Please ensure Ollama is running with: ollama serve"
  else if messageIncludes error "model not found" then
    lit "Model not found. Please pull the model with: ollama pull " ++ model cfg
  else
    orElse (message error)
           (lit "Unknown error occurred while communicating with Ollama").

End Config.

Import Config.

(** ** The chat route ([POST] of the chat route handler)

    The handler is modelled for a process started without
    [DATABASE_URL]: [USE_DB] is [false], sessions are kept in the
    module-level map [chatSessions], and the branches guarded by
    [USE_DB] are not taken. *)

Module Chat.

(** The parsed body of the incoming request. *)
Record TurnRequest := mkTurnRequest {
  chatId : jsstring;
  reqImages : option (list jsstring);
  userMessage : jsstring;
  pageNumbers : option (list Z)
}.

(** One element of the [messages] of a generation request.  An image
    without a comma maps to [undefined] ([None]). *)
Record OllamaMessage := mkOllamaMessage {
  omRole : Role;
  omContent : jsstring;
  omImages : option (list (option jsstring))
}.

Record ChatBody := mkChatBody {
  cbModel : jsstring;
  cbMessages : list OllamaMessage;
  cbStream : bool;
  cbNumCtx : Z;
  cbNumPredict : Z
}.

Inductive Method := GET | POST_.

(** A call of [fetch]: the address, the method and, for a generation
    request, the body given to [JSON.stringify]. *)
Record FetchRequest := mkFetchRequest {
  frUrl : jsstring;
  frMethod : Method;
  frBody : option ChatBody
}.

(** The fields the handler reads in a parsed response body: the names
    of [models], [error], and [message.content]. *)
Record BackendJson := mkBackendJson {
  bjModels : option (list jsstring);
  bjError : option jsstring;
  bjContent : option jsstring
}.

(** A response; [json()] rejects ([inr]) when the body does not
    parse. *)
Record Response := mkResponse {
  rOk : bool;
  rStatus : Z;
  rStatusText : jsstring;
  rText : jsstring;
  rJson : BackendJson + JsError
}.

(** The backend answers a request, given the requests made so far:
    [fetch] resolves with a response or rejects. *)
Definition Backend : Type := list FetchRequest -> FetchRequest -> Response + JsError.

(** What the handler enqueues on the stream. *)
Inductive Chunk :=
| ContentChunk (content : jsstring) (done : bool)
| ErrorChunk (error : option jsstring) (type : jsstring) (url model : jsstring)
| DoneMarker.

Record World := mkWorld {
  heap : Heap;
  chatSessions : gmap jsstring loc;
  requests : list FetchRequest
}.

(** The readings of the clock during one turn. *)
Record TurnClock := mkTurnClock {
  userNow : Z;
  userDate : Z;
  summaryClock : Clock;
  assistantNow : Z;
  assistantDate : Z
}.

Record Settings := mkSettings {
  OLLAMA_CONFIG : OllamaConfig;
  MAX_TOKEN_MEMORY : Z;
  TOKEN_BUFFER_THRESHOLD : Z
}.

Definition LF2 : jsstring := [LF; LF].

(** The fixed system instruction. *)
Definition SYSTEM_PROMPT : jsstring :=
  lit "You are an expert AI tutor helping students understand documents through visual analysis. " ++ [LF]
  ++ lit "Your task is to analyze the provided page image and explain its content clearly." ++ LF2
  ++ lit "Your explanations should be:" ++ [LF]
  ++ lit "1. Simple yet comprehensive - break down complex concepts into understandable parts" ++ [LF]
  ++ lit "2. Clear and structured - use headings, bullet points, and examples" ++ [LF]
  ++ lit "3. Focus on the visual content - describe what you see in the image" ++ [LF]
  ++ lit "4. Reference specific elements visible in the page" ++ [LF]
  ++ lit "5. Provide educational value - help the student understand the material" ++ LF2
  ++ lit "Analyze the page image provided by the student.".

(** [img.split(',')[1]]. *)
Definition stripPrefix (img : jsstring) : option jsstring :=
  splitOn COMMA img !! 1%nat.

Definition ollamaMessagesOf (req : TurnRequest) : list OllamaMessage :=
  [ mkOllamaMessage system SYSTEM_PROMPT None;
    mkOllamaMessage user (userMessage req)
      (match reqImages req with
       | Some imgs => Some (map stripPrefix imgs)
       | None => None
       end) ].

Definition newError (msg : jsstring) : JsError :=
  mkJsError (Some (lit "Error")) (Some msg) None.

(** [fetch(request)] against the backend; the call is recorded. *)
Definition fetch (backend : Backend) (request : FetchRequest)
  : Operation (list FetchRequest) Response JsError :=
  fun log => (backend log request, log ++ [request]).

Definition tagsRequest (cfg : OllamaConfig) : FetchRequest :=
  mkFetchRequest (baseUrl cfg ++ lit "/api/tags") GET None.

Definition chatRequest (cfg : OllamaConfig) (ollamaMessages : list OllamaMessage)
  : FetchRequest :=
  mkFetchRequest (baseUrl cfg ++ lit "/api/chat") POST_
    (Some (mkChatBody (model cfg) ollamaMessages false
                      (numContext cfg) (numPredict cfg))).

(** The hook of the connection test only writes to the console. *)
Definition probeHook : Hook (list FetchRequest) JsError :=
  fun attempt error log => (None, log).

(** The hook of the generation call throws the error again when it is
    not retryable. *)
Definition chatHook : Hook (list FetchRequest) JsError :=
  fun attempt error log =>
    if negb (shouldRetry error) then (Some error, log) else (None, log).

(** [promise.catch(err => { throw new Error(getOllamaErrorMessage(err)) })]
    on the promise of [withRetry].  A loop left without a single call
    rejects with [undefined], and reading [err.name] then throws a
    [TypeError]. *)
Definition typeErrorOfUndefined : JsError :=
  mkJsError (Some (lit "TypeError"))
            (Some (lit "Cannot read properties of undefined (reading 'name')")) None.

Definition rethrown (cfg : OllamaConfig) (o : Outcome Response JsError)
  : option (Response + JsError) :=
  match o with
  | Resolved response => Some (inl response)
  | Rejected (Some err) => Some (inr (newError (getOllamaErrorMessage cfg err)))
  | Rejected None => Some (inr typeErrorOfUndefined)
  | OutOfFuel => None
  end.

(** The statements of the [try] block up to the definition of
    [assistantMessage]: the connection test, the model check and the
    generation call.  The result is the assistant's text ([inl]) or the
    value thrown ([inr]); [None] only if a retry loop ran out of
    fuel. *)
Definition backendPhase (cfg : OllamaConfig) (backend : Backend)
    (ollamaMessages : list OllamaMessage) (log : list FetchRequest)
  : option ((jsstring + JsError) * list FetchRequest) :=
  let '(o1, log1, _) :=
    withRetry (fetch backend (tagsRequest cfg))
      (mkRetryOptions (Some 2) (Some 500) None (Some probeHook)) log in
  match rethrown cfg o1 with
  | None => None
  | Some (inr e) => Some (inr e, log1)
  | Some (inl testResponse) =>
      if negb (rOk testResponse) then
        Some (inr (newError (lit "Ollama responded with "
                               ++ showInt (rStatus testResponse) ++ lit ": "
                               ++ rStatusText testResponse)), log1)
      else
        match rJson testResponse with
        | inr e => Some (inr e, log1)
        | inl models =>
            let modelExists :=
              match bjModels models with
              | Some names => existsb (fun n => eqb n (model cfg)) names
              | None => false
              end in
            if negb modelExists then
              Some (inr (newError (lit "Model " ++ model cfg
                                     ++ lit " not found. Please pull it with: ollama pull "
                                     ++ model cfg)), log1)
            else
              let '(o2, log2, _) :=
                withRetry (fetch backend (chatRequest cfg ollamaMessages))
                  (mkRetryOptions (Some (retryMaxAttempts (retry cfg)))
                                  (Some (retryInitialDelay (retry cfg)))
                                  None (Some chatHook)) log1 in
              match rethrown cfg o2 with
              | None => None
              | Some (inr e) => Some (inr e, log2)
              | Some (inl response) =>
                  if negb (rOk response) then
                    let errorText := rText response in
                    Some (inr (newError (lit "Ollama error (" ++ showInt (rStatus response)
                                           ++ lit "): "
                                           ++ orElse (Some errorText) (rStatusText response))),
                          log2)
                  else
                    match rJson response with
                    | inr e => Some (inr e, log2)
                    | inl responseData =>
                        match bjError responseData with
                        | Some err =>
                            if truthy err then
                              Some (inr (newError (lit "Ollama error: " ++ err)), log2)
                            else Some (inl (orElse (bjContent responseData) []), log2)
                        | None => Some (inl (orElse (bjContent responseData) []), log2)
                        end
                    end
              end
        end
  end.

(** The assistant message built from the text of the reply. *)
Definition assistantMessageOf (clock : TurnClock) (req : TurnRequest)
    (assistantMessage : jsstring) : ChatMessage :=
  {| id := lit "msg-" ++ showInt (assistantNow clock) ++ lit "-assistant";
     role := assistant;
     content := assistantMessage;
     images := None;
     pageReferences := pageNumbers req;
     timestamp := assistantDate clock |}.

(** [start(controller)]: the [try] block and its [catch].  [messages]
    is the array the handler holds for the session when the stream
    starts.  The result is the list of chunks enqueued before the
    stream is closed. *)
Definition start (st : Settings) (backend : Backend) (clock : TurnClock)
    (tc : TokenCounter) (req : TurnRequest) (messages : loc)
    (ollamaMessages : list OllamaMessage) (w : World)
  : option (list Chunk * World) :=
  let cfg := OLLAMA_CONFIG st in
  match backendPhase cfg backend ollamaMessages (requests w) with
  | None => None
  | Some (inl assistantMessage, log) =>
      let assistantMsg := assistantMessageOf clock req assistantMessage in
      match (a ← newObject assistantMsg; push messages a) (heap w) with
      | None => None
      | Some (_, h) =>
          Some ([ContentChunk assistantMessage true; DoneMarker],
                mkWorld h (<[chatId req := messages]> (chatSessions w)) log)
      end
  | Some (inr error, log) =>
      let errorMessage := message error in
      Some ([ErrorChunk errorMessage (lit "ollama_error") (baseUrl cfg) (model cfg);
             DoneMarker],
            mkWorld (heap w) (chatSessions w) log)
  end.

Definition newUserMessageOf (clock : TurnClock) (req : TurnRequest) : ChatMessage :=
  {| id := lit "msg-" ++ showInt (userNow clock);
     role := user;
     content := userMessage req;
     images := reqImages req;
     pageReferences := pageNumbers req;
     timestamp := userDate clock |}.

(** [chatSessions.get(chatId) || []]. *)
Definition sessionArray (sessions : gmap jsstring loc) (cid : jsstring) : M loc :=
  match sessions !! cid with
  | Some a => mret a
  | None => newArray []
  end.

(** The user message pushed on the array [messages], then the
    truncation; the result is the array [messages] refers to
    afterwards. *)
Definition pushTurn (st : Settings) (clock : TurnClock) (tc : TokenCounter)
    (req : TurnRequest) (messages : loc) : M loc :=
  newUserMessage ← newObject (newUserMessageOf clock req);
  _ ← push messages newUserMessage;
  truncationResult ← truncateConversation tc (summaryClock clock) messages
                       (MAX_TOKEN_MEMORY st) (TOKEN_BUFFER_THRESHOLD st);
  mret (if snd (truncationResult : loc * bool)
        then fst truncationResult else messages).

(** The statements of [POST] that act on the store. *)
Definition prepare (st : Settings) (clock : TurnClock) (tc : TokenCounter)
    (req : TurnRequest) (sessions : gmap jsstring loc) : M loc :=
  messages ← sessionArray sessions (chatId req);
  pushTurn st clock tc req messages.

(** [POST] from the point where the body has been read and
    [userMessage] is a string; the result is what the stream of the
    response delivers.  [handlePOST] below is the whole handler. *)
Definition POST (st : Settings) (backend : Backend) (clock : TurnClock)
    (tc : TokenCounter) (req : TurnRequest) (w : World)
  : option (list Chunk * World) :=
  match prepare st clock tc req (chatSessions w) (heap w) with
  | None => None
  | Some (messages, h) =>
      start st backend clock tc req messages (ollamaMessagesOf req)
            (mkWorld h (chatSessions w) (requests w))
  end.

(** The body of the request as [request.json()] gives it, as far as
    the handler reads it in this mode.  [userMessage] may be any value:
    [None] is one that is absent or not a string.  [chatId] is a
    string, [images] is absent or an array of strings, and
    [pageNumbers] is absent or an array of integers. *)
Record RawBody := mkRawBody {
  rawChatId : jsstring;
  rawImages : option (list jsstring);
  rawUserMessage : option jsstring;
  rawPageNumbers : option (list Z)
}.

(** The response: the stream of a response with status 200, or
    [NextResponse.json({ error: 'Internal server error' }, { status: 500 })]. *)
Inductive Answer :=
| Streamed (chunks : list Chunk)
| InternalServerError.

(** [POST] with its outer [try] and [catch].  [inr] is a request whose
    [json()] rejects, or gives [null].  With a [userMessage] that is
    not a string, [countMessageTokens(newUserMessage)] throws a
    [TypeError]: a loaded tokenizer throws on such a value, which
    [countTokens] catches, and [text.split] then throws.  This is before
    [messages.push] and before any [fetch]: the [catch] answers with
    status 500 and the sessions are as they were.  The array and the
    message object created before the throw are unreachable and are not
    recorded in the store. *)
Definition handlePOST (st : Settings) (backend : Backend) (clock : TurnClock)
    (tc : TokenCounter) (body : RawBody + JsError) (w : World)
  : option (Answer * World) :=
  match body with
  | inr _ => Some (InternalServerError, w)
  | inl body =>
      match rawUserMessage body with
      | None => Some (InternalServerError, w)
      | Some userMessage =>
          match POST st backend clock tc
                     (mkTurnRequest (rawChatId body) (rawImages body) userMessage
                                    (rawPageNumbers body)) w with
          | Some (chunks, w') => Some (Streamed chunks, w')
          | None => None
          end
      end
  end.

End Chat.

Import Chat.

(** ** Reference definitions for the statements *)

Module Spec.

(** The array [a] of the store [h] refers to the messages [msgs]. *)
Definition holds (h : Heap) (a : loc) (msgs : list ChatMessage) : Prop :=
  readMessages a h = Some (msgs, h).

(** How many messages the loop of [truncateConversation] keeps when it
    starts at index [n - 1] with [currentTokens] already counted. *)
Fixpoint keptCount (tc : TokenCounter) (maxTokens : Z) (msgs : list ChatMessage)
    (n : nat) (currentTokens : Z) : nat :=
  match n with
  | O => O
  | S i =>
      match msgs !! i with
      | Some msg =>
          if currentTokens + countMessageTokens tc msg >? maxTokens then O
          else S (keptCount tc maxTokens msgs i
                            (currentTokens + countMessageTokens tc msg))
      | None => O
      end
  end.

(** A truncating call on the array [a] of [h]: it returns the array [t]
    of the store [h'], made of the references [kept] followed by the
    summary message [s], an object the call has created. *)
Definition truncatesTo (tc : TokenCounter) (clock : Clock) (h : Heap) (a : loc)
    (maxTokens bufferThreshold : Z) (h' : Heap) (t : loc) (kept : list loc)
    (s : loc) : Prop :=
  truncateConversation tc clock a maxTokens bufferThreshold h = Some ((t, true), h')
  /\ arrs h' !! t = Some (kept ++ [s])
  /\ objs h !! s = None.

(** The messages of the result other than the summary message cost at
    most [maxTokens]. *)
Definition keptWithinBudget (tc : TokenCounter) (clock : Clock) (h : Heap)
    (a : loc) (maxTokens bufferThreshold : Z) : Prop :=
  exists h' t kept s keptMsgs,
    truncatesTo tc clock h a maxTokens bufferThreshold h' t kept s
    /\ getObjects kept h' = Some (keptMsgs, h')
    /\ getTotalTokenCount tc keptMsgs <= maxTokens.

(** The result of a truncating call contains the reference [newest]. *)
Definition keepsMessage (tc : TokenCounter) (clock : Clock) (h : Heap)
    (a : loc) (maxTokens bufferThreshold : Z) (newest : loc) : Prop :=
  exists h' t kept s,
    truncatesTo tc clock h a maxTokens bufferThreshold h' t kept s
    /\ newest ∈ kept ++ [s].

(** The summary, in the words of the specification. *)

Definition nonBlank (line : jsstring) : bool := truthy (trim line).

(** The texts of the markdown headings of [content]: of each line that
    is not blank and starts with [#]s and a white space, what follows
    them. *)
Definition markdownHeadings (content : jsstring) : list jsstring :=
  omap matchHeading (List.filter nonBlank (splitOn LF content)).

Definition keyPoints (content : jsstring) : jsstring :=
  match firstn 3 (markdownHeadings content) with
  | [] => firstn 150 content ++ lit "..."
  | hs => join (lit ", ") hs
  end.

Definition pagesNote (msg : ChatMessage) : jsstring :=
  match pageReferences msg with
  | Some refs =>
      lit "  (Pages: " ++ join (lit ", ") (map showInt refs) ++ lit ")" ++ [LF]
  | None => []
  end.

(** What one of the summarized messages adds to the summary. *)
Definition bullet (msg : ChatMessage) : jsstring :=
  match role msg with
  | user =>
      lit "- User asked about: " ++ firstn 100 (content msg) ++ lit "..." ++ [LF]
      ++ pagesNote msg
  | assistant =>
      lit "- Assistant explained: " ++ keyPoints (content msg) ++ [LF]
  | system => []
  end.

Definition summaryText (msgs : list ChatMessage) : jsstring :=
  lit "Previous conversation summary:" ++ [LF]
  ++ concat (map bullet (firstn (Nat.min 3 (length msgs)) msgs)).

(** The summary as the specification describes it.  The definitions
    from here to [isSummaryOf] use none of the functions that embed the
    code. *)

(** An ASCII text as code units. *)
Definition chars (s : string) : jsstring := map N_of_ascii (list_ascii_of_string s).

(** The code units [\s] stands for: white space and line terminators. *)
Definition whiteSpaceCodes : list N :=
  [9; 10; 11; 12; 13; 32; 160; 5760; 8192; 8193; 8194; 8195; 8196; 8197; 8198;
   8199; 8200; 8201; 8202; 8232; 8233; 8239; 8287; 12288; 65279]%N.

(** [line] is a markdown heading with the text [heading]: one or more
    [#] (code unit 35), one white-space character, then the text. *)
Definition headingOf (line heading : jsstring) : Prop :=
  exists (n : nat) (w : N),
    (1 <= n)%nat /\ w ∈ whiteSpaceCodes /\ line = repeat 35%N n ++ w :: heading.

(** [lines] are the lines of [s]: the pieces between its line feeds
    (code unit 10). *)
Inductive linesOf : jsstring -> list jsstring -> Prop :=
| lines_last (l : jsstring) :
    10%N ∉ l -> linesOf l [l]
| lines_cons (l rest : jsstring) (ls : list jsstring) :
    10%N ∉ l -> linesOf rest ls -> linesOf (l ++ 10%N :: rest) (l :: ls).

(** [headings] are the texts of the headings among [lines], in order. *)
Inductive headingTexts : list jsstring -> list jsstring -> Prop :=
| headings_nil : headingTexts [] []
| headings_heading (line heading : jsstring) (ls hs : list jsstring) :
    headingOf line heading -> headingTexts ls hs ->
    headingTexts (line :: ls) (heading :: hs)
| headings_other (line : jsstring) (ls hs : list jsstring) :
    (forall heading, ~ headingOf line heading) -> headingTexts ls hs ->
    headingTexts (line :: ls) hs.

(** The parts, separated by a comma and a space. *)
Definition commaSeparated (parts : list jsstring) : jsstring :=
  match parts with
  | [] => []
  | p :: rest => p ++ concat (map (fun q => chars ", " ++ q) rest)
  end.

(** An integer in decimal. *)
Definition decimal (n : Z) : jsstring := chars (NilZero.string_of_int (Z.to_int n)).

(** The note of the page references of a user message. *)
Definition pagesOf (refs : option (list Z)) : jsstring :=
  match refs with
  | Some pages =>
      chars "  (Pages: " ++ commaSeparated (map decimal pages) ++ chars ")" ++ [10%N]
  | None => []
  end.

(** What one of the summarized messages contributes. *)
Inductive bulletOf : ChatMessage -> jsstring -> Prop :=
| bullet_user (msg : ChatMessage) :
    role msg = user ->
    bulletOf msg (chars "- User asked about: " ++ take 100 (content msg)
                    ++ chars "..." ++ [10%N] ++ pagesOf (pageReferences msg))
| bullet_headings (msg : ChatMessage) (ls hs : list jsstring) :
    role msg = assistant ->
    linesOf (content msg) ls -> headingTexts ls hs -> hs <> [] ->
    bulletOf msg (chars "- Assistant explained: " ++ commaSeparated (take 3 hs)
                    ++ [10%N])
| bullet_plain (msg : ChatMessage) (ls : list jsstring) :
    role msg = assistant ->
    linesOf (content msg) ls -> headingTexts ls [] ->
    bulletOf msg (chars "- Assistant explained: " ++ take 150 (content msg)
                    ++ chars "..." ++ [10%N])
| bullet_system (msg : ChatMessage) :
    role msg = system -> bulletOf msg [].

(** [summary] is the summary of [msgs]: the heading line, then what
    each of the first [min 3 N] messages contributes, in order. *)
Definition isSummaryOf (msgs : list ChatMessage) (summary : jsstring) : Prop :=
  exists bullets,
    Forall2 bulletOf (take (Nat.min 3 (length msgs)) msgs) bullets
    /\ summary = chars "Previous conversation summary:" ++ [10%N] ++ concat bullets.

(** Stores used as examples. *)

Definition hiMessage : ChatMessage :=
  mkChatMessage (lit "msg-1") user (lit "hi") None None 0.

(** One session, array [1], holding the single message ["hi"]. *)
Definition hiHeap : Heap :=
  mkHeap {[ 1%positive := hiMessage ]} {[ 1%positive := [1%positive] ]}.

(** One session, array [7], holding a question, an answer with a
    heading, and a second question. *)
Definition threeHeap : Heap :=
  mkHeap
    (<[3%positive := mkChatMessage (lit "m3") user (lit "third") None None 3]>
       (<[2%positive := mkChatMessage (lit "m2") assistant
                          (lit "# Title one" ++ [LF] ++ lit "body text") None None 2]>
          {[ 1%positive := mkChatMessage (lit "m1") user (lit "first question")
                             None (Some [4; 5]) 1 ]}))
    {[ 7%positive := [1%positive; 2%positive; 3%positive] ]}.

Definition noon : Clock := mkClock 1700000000000 1700000000000.

(** A question with page references, an answer with two headings, an
    answer without a heading, and a fourth message. *)
Definition answerWithHeadings : jsstring :=
  chars "# Title one" ++ 10%N :: [] ++ 10%N :: chars "body text" ++ 10%N
    :: chars "## Second part" ++ 10%N :: chars "more text".

Definition fourMessages : list ChatMessage :=
  [ mkChatMessage (lit "m1") user (lit "first question") None (Some [4; 5]) 1;
    mkChatMessage (lit "m2") assistant answerWithHeadings None None 2;
    mkChatMessage (lit "m3") assistant (lit "plain answer without headings") None None 3;
    mkChatMessage (lit "m4") user (lit "not summarized") None None 4 ].

(** One session, array [7], holding [fourMessages]. *)
Definition fourHeap : Heap :=
  mkHeap
    (list_to_map (zip [1%positive; 2%positive; 3%positive; 4%positive] fourMessages))
    {[ 7%positive := [1%positive; 2%positive; 3%positive; 4%positive] ]}.

(** Statements on [withRetry]. *)

Section RetrySpec.

Context {S T E : Type}.

(** The operation rejects whenever it is called. *)
Definition alwaysFails (fn : Operation S T E) : Prop :=
  forall s, exists e, fst (fn s) = inr e.

(** The hook never throws. *)
Definition hookReturns (hook : Hook S E) : Prop :=
  forall attempt error s, fst (hook attempt error s) = None.



End RetrySpec.

(** An operation without state that always rejects with the number 7,
    and a hook that throws the error it is given. *)
Definition failing : Operation unit unit Z := fun s => (inr 7, s).
Definition observing : Hook unit Z := fun attempt error s => (None, s).

(** A rate-limit failure as the fetch layer would describe it. *)
Definition tooManyRequests : JsError :=
  mkJsError (Some (lit "Error")) (Some (lit "Too Many Requests")) (Some 429).

(** Statements on the chat route. *)

(** Every stored session refers to an array of message objects. *)
Definition sessionsValid (w : World) : Prop :=
  forall cid a, chatSessions w !! cid = Some a ->
                exists msgs, holds (heap w) a msgs.

(** The messages of the stored session [cid], if there is one. *)
Definition sessionMessages (w : World) (cid : jsstring) : option (list ChatMessage) :=
  match chatSessions w !! cid with
  | Some a =>
      match readMessages a (heap w) with
      | Some (msgs, _) => Some msgs
      | None => None
      end
  | None => None
  end.

(** What is sent for an image: the text between its first comma (code
    unit 44) and its second comma or its end; nothing for an image
    without a comma.  For a data URL this is the payload without the
    prefix [data:...;base64,]. *)
Definition payloadOf (image : jsstring) (sent : option jsstring) : Prop :=
  ((44%N ∉ image) /\ sent = None)
  \/ exists prefix payload,
       (44%N ∉ prefix) /\ (44%N ∉ payload) /\ sent = Some payload
       /\ (image = prefix ++ 44%N :: payload
           \/ exists rest, image = prefix ++ 44%N :: payload ++ 44%N :: rest).

(** What is sent for the images of a request: nothing when it has
    none, else the payload of each image, in order. *)
Definition imagesSent (images : option (list jsstring))
    (sent : option (list (option jsstring))) : Prop :=
  match images, sent with
  | None, None => True
  | Some images, Some sent => Forall2 payloadOf images sent
  | _, _ => False
  end.

(** The body has been read and its [userMessage] is a string. *)
Definition wellFormed (body : RawBody + JsError) : Prop :=
  exists b userText, body = inl b /\ rawUserMessage b = Some userText.

(** Example of a deployment: default settings, a backend that refuses
    every connection, and a first turn on a session not seen before. *)

Definition exampleSettings : Settings :=
  mkSettings
    (mkOllamaConfig (lit "http://localhost:11434") (lit "qwen2.5vl:3b")
                    (mkRetryConfig 1 1000 1000) 32768 2000)
    32768 28672.

Definition connectionRefused : JsError :=
  mkJsError (Some (lit "TypeError")) (Some (lit "fetch failed")) None.

Definition downBackend : Backend := fun log request => inr connectionRefused.

Definition exampleClock : TurnClock :=
  mkTurnClock 1700000000000 1700000000000 noon 1700000000500 1700000000500.

Definition firstTurn : TurnRequest :=
  mkTurnRequest (lit "chat-1") None (lit "Explain this page") (Some [1]).

Definition freshWorld : World := mkWorld (mkHeap ∅ ∅) ∅ [].

(** A backend that is up: it lists the configured model and answers a
    generation request with a short text. *)
Definition upBackend : Backend := fun log request =>
  inl (mkResponse true 200 (lit "OK") []
         (inl (mkBackendJson (Some [lit "qwen2.5vl:3b"]) None
                             (Some (lit "# Summary"))))).

(** A world with one stored session, ["chat-1"], holding the message
    ["hi"]. *)
Definition storedWorld : World :=
  mkWorld hiHeap {[ lit "chat-1" := 1%positive ]} [].

(** A turn on that session with two images, and a body without
    [userMessage]. *)
Definition pictureBody : RawBody :=
  mkRawBody (lit "chat-1")
            (Some [chars "data:image/png;base64,AAAA";
                   chars "data:image/jpeg;base64,BBBB"])
            (Some (lit "Explain this page")) (Some [1]).


End Spec.

Import Spec.

(** ** Further functions of the sources *)

(** *** [truncateMessages] of the chat route *)

Module Legacy.

Definition isSystem (m : ChatMessage) : bool :=
  match role m with
  | system => true
  | _ => false
  end.

(** [countTokens(message.content) + (message.images ? 1000 : 0)]. *)
Definition messageTokensOf (tc : TokenCounter) (message : ChatMessage) : Z :=
  countTokens tc (content message)
  + match images message with
    | Some _ => 1000
    | None => 0
    end.

(** The [for] loop of [truncateMessages]; [n] is [i + 1].  The function
    only reads [messages] and builds a new array, so the arrays are
    lists of messages here. *)
Fixpoint truncateMessagesLoop (tc : TokenCounter) (messages : list ChatMessage)
    (maxTokens : Z) (n : nat) (totalTokens : Z)
    (truncatedMessages : list ChatMessage) : list ChatMessage :=
  match n with
  | O => truncatedMessages
  | S i =>
      match messages !! i with
      | None => truncatedMessages
      | Some message =>
          if isSystem message
          then truncateMessagesLoop tc messages maxTokens i totalTokens
                                    truncatedMessages
          else
            let messageTokens := messageTokensOf tc message in
            if totalTokens + messageTokens >? maxTokens then truncatedMessages
            else truncateMessagesLoop tc messages maxTokens i
                                      (totalTokens + messageTokens)
                                      (message :: truncatedMessages)
      end
  end.

Definition truncateMessages (tc : TokenCounter) (messages : list ChatMessage)
    (maxTokens : Z) : list ChatMessage :=
  let systemMessage := List.find isSystem messages in
  match systemMessage with
  | Some sm =>
      truncateMessagesLoop tc messages maxTokens (length messages)
                           (0 + countTokens tc (content sm)) [sm]
  | None =>
      truncateMessagesLoop tc messages maxTokens (length messages) 0 []
  end.

End Legacy.

Import Legacy.

(** *** The synchronous estimator of [src/lib/tokenCounter.ts] *)

Module TokenCounterAlt.

Definition estimateTokensByCharacters (text : jsstring) : Z :=
  let words := Z.of_nat (length (splitWhitespace text)) in
  let characters := Z.of_nat (length text) in
  let wordBasedEstimate := (inject_Z words * (13 # 10))%Q in
  let charBasedEstimate := (inject_Z characters / inject_Z 4)%Q in
  Qceiling (Qmax wordBasedEstimate charBasedEstimate).

Definition countTokensSync (text : jsstring) : Z :=
  estimateTokensByCharacters text.

Definition countMessageTokensRobust (message : ChatMessage) : Z :=
  let tokens := countTokensSync (content message) in
  let tokens :=
    match images message with
    | Some imgs => tokens + Z.of_nat (length imgs) * 125
    | None => tokens
    end in
  tokens + 4.

Definition getTotalTokenCountRobust (messages : list ChatMessage) : Z :=
  fold_left (fun total msg => total + countMessageTokensRobust msg) messages 0.

End TokenCounterAlt.

Import TokenCounterAlt.

(** *** The health route ([src/app/api/ollama/health/route.ts]) and its
    client ([src/lib/ollama-client.ts]) *)

Module Health.

(** The body of the test generation request. *)
Record GenerateBody := mkGenerateBody {
  gbModel : jsstring;
  gbPrompt : jsstring;
  gbStream : bool;
  gbTemperature : Z;
  gbNumCtx : Z;
  gbNumPredict : Z
}.

Record Request := mkRequest {
  qUrl : jsstring;
  qMethod : Method;
  qBody : option GenerateBody
}.

(** The fields the handler reads in a parsed response body: the names
    of [models], and [response]. *)
Record Json := mkJson {
  jModels : option (list jsstring);
  jResponse : option jsstring
}.

Record Response := mkResponse {
  hOk : bool;
  hStatus : Z;
  hStatusText : jsstring;
  hJson : Json + JsError
}.

Definition Backend : Type := list Request -> Request -> Response + JsError.

Definition fetch (backend : Backend) (request : Request)
  : Operation (list Request) Response JsError :=
  fun log => (backend log request, log ++ [request]).

Definition QUOTE : N := 34%N.

Definition tagsRequest (cfg : OllamaConfig) : Request :=
  mkRequest (baseUrl cfg ++ lit "/api/tags") Chat.GET None.

Definition generateRequest (cfg : OllamaConfig) : Request :=
  mkRequest (baseUrl cfg ++ lit "/api/generate") POST_
    (Some (mkGenerateBody (model cfg)
             (lit "Say " ++ [QUOTE] ++ lit "test successful" ++ [QUOTE]
                ++ lit " and nothing else.")
             false 0 (numContext cfg) 50)).

(** Both hooks of the handler only write to the console. *)
Definition logHook : Hook (list Request) JsError :=
  fun attempt error log => (None, log).

(** [results.ollama], [results.checks] and [results]. *)
Record OllamaInfo := mkOllamaInfo {
  oUrl : jsstring;
  oModel : jsstring;
  oStatus : jsstring;
  oError : option jsstring;
  oModels : list jsstring;
  oContextSize : Z
}.

Record Checks := mkChecks {
  connection : bool;
  modelAvailable : bool;
  testGeneration : bool
}.

Record Results := mkResults {
  ollama : OllamaInfo;
  checks : Checks;
  rTimestamp : jsstring
}.

Definition initialResults (cfg : OllamaConfig) (now : jsstring) : Results :=
  mkResults
    (mkOllamaInfo (baseUrl cfg) (model cfg) (lit "unknown") None [] (numContext cfg))
    (mkChecks false false false)
    now.

(** The [catch] of the handler. *)
Definition caught (cfg : OllamaConfig) (results : Results) (error : JsError) : Results :=
  mkResults
    (mkOllamaInfo (oUrl (ollama results)) (oModel (ollama results))
                  (lit "error") (Some (getOllamaErrorMessage cfg error))
                  (oModels (ollama results)) (oContextSize (ollama results)))
    (checks results)
    (rTimestamp results).

(** The statements after the [try]: the results and the HTTP status. *)
Definition respond (results : Results) : Results * Z :=
  let isHealthy := connection (checks results) && modelAvailable (checks results) in
  (results, if isHealthy then 200 else 503).

(** Test 3, with its own [try] and [catch]: whether [testGeneration] is
    set; [None] only if the retry loop ran out of fuel. *)
Definition testGenerationOf (cfg : OllamaConfig) (backend : Backend)
    (log : list Request) : option (bool * list Request) :=
  let '(o, log', _) :=
    withRetry (fetch backend (generateRequest cfg))
      (mkRetryOptions (Some (retryMaxAttempts (retry cfg)))
                      (Some (retryInitialDelay (retry cfg)))
                      None (Some logHook)) log in
  match o with
  | OutOfFuel => None
  | Rejected _ => Some (false, log')
  | Resolved testResponse =>
      if hOk testResponse then
        match hJson testResponse with
        | inl testData =>
            Some (match jResponse testData with
                  | Some r => truthy r
                  | None => false
                  end, log')
        | inr _ => Some (false, log')
        end
      else Some (false, log')
  end.

(** The [try] block after the connection test has resolved with
    [tagsResponse]. *)
Definition afterTags (cfg : OllamaConfig) (backend : Backend) (results : Results)
    (tagsResponse : Response) (log : list Request)
  : option ((Results * Z) * list Request) :=
  if negb (hOk tagsResponse) then
    Some (respond (caught cfg results
                     (newError (lit "Ollama responded with "
                                  ++ showInt (hStatus tagsResponse) ++ lit ": "
                                  ++ hStatusText tagsResponse))), log)
  else
    let results :=
      mkResults
        (mkOllamaInfo (oUrl (ollama results)) (oModel (ollama results))
                      (lit "connected") (oError (ollama results))
                      (oModels (ollama results)) (oContextSize (ollama results)))
        (mkChecks true (modelAvailable (checks results))
                  (testGeneration (checks results)))
        (rTimestamp results) in
    match hJson tagsResponse with
    | inr error => Some (respond (caught cfg results error), log)
    | inl modelsData =>
        let models :=
          match jModels modelsData with
          | Some names => names
          | None => []
          end in
        let available := existsb (fun n => eqb n (model cfg)) models in
        let results :=
          mkResults
            (mkOllamaInfo (oUrl (ollama results)) (oModel (ollama results))
                          (oStatus (ollama results))
                          (if negb available
                           then Some (lit "Model " ++ model cfg
                                        ++ lit " not found. Available models: "
                                        ++ join (lit ", ") models)
                           else oError (ollama results))
                          models (oContextSize (ollama results)))
            (mkChecks (connection (checks results)) available
                      (testGeneration (checks results)))
            (rTimestamp results) in
        if available then
          match testGenerationOf cfg backend log with
          | None => None
          | Some (passed, log') =>
              Some (respond
                      (mkResults (ollama results)
                         (mkChecks (connection (checks results))
                                   (modelAvailable (checks results))
                                   (if passed then true
                                    else testGeneration (checks results)))
                         (rTimestamp results)), log')
          end
        else Some (respond results, log)
    end.

(** [GET]: the results and the HTTP status ([inl]), or the value the
    handler rejects with ([inr]): a connection test that rejects with
    [undefined] makes [getOllamaErrorMessage] throw inside the
    [catch]. *)
Definition GET (cfg : OllamaConfig) (backend : Backend) (now : jsstring)
    (log : list Request)
  : option ((Results * Z + JsError) * list Request) :=
  let results := initialResults cfg now in
  let '(o, log1, _) :=
    withRetry (fetch backend (tagsRequest cfg))
      (mkRetryOptions (Some 2) (Some 500) None (Some logHook)) log in
  match o with
  | OutOfFuel => None
  | Rejected None => Some (inr typeErrorOfUndefined, log1)
  | Rejected (Some error) => Some (inl (respond (caught cfg results error)), log1)
  | Resolved tagsResponse =>
      match afterTags cfg backend results tagsResponse log1 with
      | None => None
      | Some (r, log2) => Some (inl r, log2)
      end
  end.

(** [formatOllamaError] of the client, on the parsed results. *)
Definition formatOllamaError (health : Results) : jsstring :=
  if negb (connection (checks health)) then
    lit "Cannot connect to Ollama at " ++ oUrl (ollama health)
      ++ lit ". Please ensure Ollama is running with: ollama serve"
  else if negb (modelAvailable (checks health)) then
    lit "Model " ++ oModel (ollama health)
      ++ lit " not found. Please pull it with: ollama pull " ++ oModel (ollama health)
  else
    match oError (ollama health) with
    | Some e => if truthy e then e else lit "Ollama is not properly configured"
    | None => lit "Ollama is not properly configured"
    end.

(** [isOllamaReady] of the client; [inr] is a failed [fetch] or a body
    that does not parse. *)
Definition isOllamaReady (health : Results + JsError) : bool :=
  match health with
  | inl health => connection (checks health) && modelAvailable (checks health)
  | inr _ => false
  end.

End Health.

(** *** GPU settings ([src/unnamed/part_001])

    The amount of memory is a whole number of gigabytes, the numbers of
    layers and of tokens are integers. *)

Module GPU.

Record GPUProfile := mkGPUProfile {
  vram : Z;
  model : jsstring;
  recommendedLayers : Z;
  maxContext : Z;
  notes : jsstring
}.

Definition GPU_PROFILES : list GPUProfile :=
  [ mkGPUProfile 8 (lit "qwen2.5vl:3b") 22 65536
      (lit "Balanced performance with 8GB VRAM, leaves ~1.5GB for system");
    mkGPUProfile 8 (lit "llava:7b") 24 4096
      (lit "Llava uses less memory, can use more layers");
    mkGPUProfile 6 (lit "qwen2.5vl:3b") 16 32768
      (lit "Conservative settings for 6GB VRAM");
    mkGPUProfile 12 (lit "qwen2.5vl:3b") 999 125000
      (lit "Full GPU acceleration with 12GB+ VRAM") ].

(** The result of [getOptimalGPUConfig]. *)
Record GPUConfig := mkGPUConfig {
  numGpu : Z;
  numContext : Z;
  configNotes : jsstring
}.

(** [sort((a, b) => b.vram - a.vram)]: a stable sort, largest [vram]
    first. *)
Fixpoint insertByVram (p : GPUProfile) (sorted : list GPUProfile) : list GPUProfile :=
  match sorted with
  | [] => [p]
  | q :: rest =>
      if vram p <? vram q then q :: insertByVram p rest else p :: sorted
  end.

Definition sortByVram (profiles : list GPUProfile) : list GPUProfile :=
  fold_right insertByVram [] profiles.

Definition getOptimalGPUConfig (vramGB : Z) (modelName : jsstring) : GPUConfig :=
  let profile :=
    head (sortByVram
            (List.filter (fun p => eqb (model p) modelName && (vram p <=? vramGB))
                         GPU_PROFILES)) in
  match profile with
  | None =>
      if vramGB <? 6 then
        mkGPUConfig 0 16384 (lit "Insufficient VRAM, using CPU only")
      else
        let layersPerGB := 3 in
        mkGPUConfig (vramGB * layersPerGB) (Z.min 125000 (vramGB * 8192))
          (lit "Estimated configuration for " ++ showInt vramGB ++ lit "GB VRAM")
  | Some profile =>
      mkGPUConfig (recommendedLayers profile) (maxContext profile) (notes profile)
  end.

(** The argument and the result of [adjustConfigForOOM]. *)
Record CurrentConfig := mkCurrentConfig {
  currentNumGpu : Z;
  currentNumContext : Z
}.

Record AdjustedConfig := mkAdjustedConfig {
  newNumGpu : Z;
  newNumContext : Z;
  adjusted : bool
}.

Definition adjustConfigForOOM (currentConfig : CurrentConfig) : AdjustedConfig :=
  let newNumGpu :=
    Z.max 0 (Qfloor (inject_Z (currentNumGpu currentConfig) * (75 # 100))) in
  let newNumContext :=
    Z.max 4096 (Qfloor (inject_Z (currentNumContext currentConfig) * (5 # 10))) in
  mkAdjustedConfig newNumGpu newNumContext true.

End GPU.

(** *** Embeddings ([generateEmbedding] and [generateBatchEmbeddings])

    The numbers of an embedding are only passed on; they are rationals
    here.  The backend's answer to a request depends on the text of the
    request only. *)

Module Embeddings.

Record Response := mkResponse {
  eOk : bool;
  eStatusText : jsstring;
  eJson : list Q + JsError
}.

Definition Backend : Type := jsstring -> Response + JsError.


(** What [generateBatchEmbeddings] does, in order. *)
Inductive Event :=
| Requested (text : jsstring)
| Paused (delay : Z).





End Embeddings.

(** *** Reference definitions for the further properties *)

Module Props.

Definition sumZ (l : list Z) : Z := fold_right Z.add 0 l.

(** The cost of one message, written out. *)
Definition messageCost (tc : TokenCounter) (m : ChatMessage) : Z :=
  countTokens tc (content m)
  + 1000 * Z.of_nat (match images m with Some imgs => length imgs | None => 0%nat end)
  + 4.

Section RetryRuns.

Context {S T E : Type}.

(** What the hook does to the world after a failed attempt; without a
    hook, nothing. *)
Definition hookStep (onRetry : option (Hook S E)) (attempt : Z) (error : E) (s : S)
  : option E * S :=
  match onRetry with
  | Some hook => hook attempt error s
  | None => (None, s)
  end.

(** From the state [s] and the attempt number [attempt], the operation
    fails [j] times, the hook returning each time, and then resolves
    with [v], leaving the state [s']. *)
Fixpoint succeedsAfter (fn : Operation S T E) (onRetry : option (Hook S E))
    (j : nat) (attempt : Z) (s : S) (v : T) (s' : S) : Prop :=
  match j with
  | O => fn s = (inl v, s')
  | Datatypes.S j' =>
      exists e s1 s2,
        fn s = (inr e, s1)
        /\ hookStep onRetry attempt e s1 = (None, s2)
        /\ succeedsAfter fn onRetry j' (attempt + 1) s2 v s'
  end.

(** No call of the operation in the trace has resolved. *)
Definition failuresOnly (tr : list (Event T E)) : Prop :=
  Forall (fun ev => match ev with Attempt _ (inl _) => False | _ => True end) tr.

End RetryRuns.

(** An operation on a counter that fails while the counter is below 2
    and then resolves with the counter's value. *)
Definition thirdTimeLucky : Operation nat nat Z := fun n =>
  if (n <? 2)%nat then (inr (Z.of_nat n), Datatypes.S n) else (inl n, Datatypes.S n).

Definition counting : Hook nat Z := fun attempt error n => (None, n).

(** A first line that is no heading, then four headings. *)
Definition headedContent : jsstring :=
  chars "intro" ++ 10%N :: chars "# Alpha" ++ 10%N :: chars "## Beta" ++ 10%N
    :: chars "### Gamma" ++ 10%N :: chars "#### Delta".

(** The number of images in a list of messages. *)
Definition imageCount (msgs : list ChatMessage) : Z :=
  sumZ (map (fun m => Z.of_nat (match images m with
                                | Some imgs => length imgs
                                | None => 0%nat
                                end)) msgs).

(** The stream of a turn, from the result of the backend phase. *)
Definition streamOf (cfg : OllamaConfig) (r : jsstring + JsError) : list Chunk :=
  match r with
  | inl text => [ContentChunk text true; DoneMarker]
  | inr error =>
      [ErrorChunk (message error) (lit "ollama_error") (baseUrl cfg) (model cfg);
       DoneMarker]
  end.

(** [models.models?.some(m => m.name === OLLAMA_CONFIG.model)]. *)
Definition modelListed (cfg : OllamaConfig) (models : BackendJson) : bool :=
  match bjModels models with
  | Some names => existsb (fun n => eqb n (model cfg)) names
  | None => false
  end.

(** The messages stored for the session [cid], none if it is not
    stored. *)
Definition priorMessages (w : World) (cid : jsstring) : list ChatMessage :=
  default [] (sessionMessages w cid).

(** The messages the handler holds after [truncateConversation] on the
    messages [l]: [l] itself up to the threshold; above it, the newest
    messages that fit followed by the summary of [l]. *)
Definition heldAfter (st : Settings) (clock : TurnClock) (tc : TokenCounter)
    (l : list ChatMessage) : list ChatMessage :=
  if getTotalTokenCount tc l <=? TOKEN_BUFFER_THRESHOLD st then l
  else
    let sm := summaryOf (summaryClock clock) (summarizeOldMessages l) in
    drop (length l - keptCount tc (MAX_TOKEN_MEMORY st) l (length l)
                               (countMessageTokens tc sm)) l ++ [sm].

(** Settings with [OLLAMA_RETRY_ATTEMPTS] set to 3, and to 0. *)
Definition patientSettings : Settings :=
  mkSettings
    (mkOllamaConfig (lit "http://localhost:11434") (lit "qwen2.5vl:3b")
                    (mkRetryConfig 3 1000 1000) 32768 2000)
    32768 28672.

Definition noAttemptSettings : Settings :=
  mkSettings
    (mkOllamaConfig (lit "http://localhost:11434") (lit "qwen2.5vl:3b")
                    (mkRetryConfig 0 1000 1000) 32768 2000)
    32768 28672.

(** Settings with a memory of 60 tokens, truncated above 10. *)
Definition tightSettings : Settings :=
  mkSettings
    (mkOllamaConfig (lit "http://localhost:11434") (lit "qwen2.5vl:3b")
                    (mkRetryConfig 1 1000 1000) 32768 2000)
    60 10.

(** What every answer of the health route satisfies. *)
Definition healthConsistent (cfg : OllamaConfig) (res : Health.Results) (http : Z)
  : Prop :=
  (http = 200 \/ http = 503)
  /\ (http = 200 <-> Health.connection (Health.checks res) = true
                     /\ Health.modelAvailable (Health.checks res) = true)
  /\ (http = 200 <-> Health.oError (Health.ollama res) = None)
  /\ (Health.testGeneration (Health.checks res) = true -> http = 200)
  /\ (Health.modelAvailable (Health.checks res) = true ->
      Health.connection (Health.checks res) = true
      /\ existsb (fun n => eqb n (model cfg)) (Health.oModels (Health.ollama res)) = true)
  /\ (http = 200 -> Health.oStatus (Health.ollama res) = lit "connected")
  /\ Health.oUrl (Health.ollama res) = baseUrl cfg
  /\ Health.oModel (Health.ollama res) = model cfg.

(** A health backend that is up and one that lists another model. *)
Definition upHealth : Health.Backend := fun log request =>
  inl (Health.mkResponse true 200 (lit "OK")
         (inl (Health.mkJson (Some [lit "qwen2.5vl:3b"])
                             (Some (lit "test successful"))))).

Definition otherModelHealth : Health.Backend := fun log request =>
  inl (Health.mkResponse true 200 (lit "OK")
         (inl (Health.mkJson (Some [lit "llama3:8b"]) None))).

(** [adjustConfigForOOM] applied [n] times, each result given back as
    the next configuration. *)
Definition adjustTimes (n : nat) (c : GPU.CurrentConfig) : GPU.CurrentConfig :=
  Nat.iter n (fun c => let r := GPU.adjustConfigForOOM c in
                       GPU.mkCurrentConfig (GPU.newNumGpu r) (GPU.newNumContext r)) c.

Definition profileConfig (p : GPU.GPUProfile) : GPU.GPUConfig :=
  GPU.mkGPUConfig (GPU.recommendedLayers p) (GPU.maxContext p) (GPU.notes p).

Definition listing (names : list jsstring) : Response :=
  mkResponse true 200 (lit "OK") [] (inl (mkBackendJson (Some names) None None)).

(** A backend that is up but lists another model only. *)
Definition otherModelBackend : Backend := fun log request =>
  inl (listing [lit "llama3:8b"]).

Definition badRequest : JsError :=
  mkJsError (Some (lit "Error")) (Some (lit "Bad Request")) (Some 400).

(** A backend that lists the model and rejects every generation
    request with an error that is not retryable. *)
Definition rejectingBackend : Backend := fun log request =>
  match frMethod request with
  | GET => inl (listing [lit "qwen2.5vl:3b"])
  | POST_ => inr badRequest
  end.

End Props.

Import Props.

(** * Properties *)

(** ** String operations on examples *)

Example splitWhitespace_pieces :
  splitWhitespace (lit " a  b ") = [[]; lit "a"; lit "b"; []]
  /\ splitWhitespace [] = [[]]
  /\ splitWhitespace (lit "one two" ++ [LF] ++ lit "three")
     = [lit "one"; lit "two"; lit "three"].
Proof. repeat split. Qed.

Example splitOn_pieces :
  splitOn LF (lit "a" ++ [LF; LF] ++ lit "b" ++ [LF]) = [lit "a"; []; lit "b"; []]
  /\ stripPrefix (lit "data:image/png;base64,iVBOR") = Some (lit "iVBOR")
  /\ stripPrefix (lit "iVBOR") = None.
Proof. repeat split. Qed.

Example matchHeading_cases :
  matchHeading (lit "## Title") = Some (lit "Title")
  /\ matchHeading (lit "#Title") = None
  /\ matchHeading (lit " # Title") = None
  /\ matchHeading (lit "#") = None
  /\ trim (lit "  a b  ") = lit "a b".
Proof. repeat split. Qed.

Example extractKeyPoints_cases :
  extractKeyPoints (lit "intro" ++ [LF] ++ lit "## A" ++ [LF] ++ lit "#B" ++ [LF]
                      ++ lit "# C" ++ [LF] ++ lit "# D" ++ [LF] ++ lit "# E")
  = lit "A, C, D"
  /\ extractKeyPoints (lit "no headings here") = lit "no headings here...".
Proof. split; reflexivity. Qed.

(** ** The store *)

Section StoreFacts.

Lemma getObjects_inv (ls : list loc) (h h' : Heap) (ms : list ChatMessage) :
  getObjects ls h = Some (ms, h') ->
  h' = h /\ Forall2 (fun l m => objs h !! l = Some m) ls ms.
Proof.
  revert ms. induction ls as [|l ls IH]; intros ms Hrun.
  - inversion Hrun; subst. split; [reflexivity | constructor].
  - cbn in Hrun. unfold mbind, M_bind, getObject in Hrun.
    destruct (objs h !! l) as [m|] eqn:Hl; [|discriminate].
    fold (getObjects ls) in Hrun.
    destruct (getObjects ls h) as [[ms' h'']|] eqn:Hls; [|discriminate].
    inversion Hrun; subst.
    destruct (IH _ eq_refl) as [-> HF].
    split; [reflexivity | constructor; assumption].
Qed.

Lemma getObjects_intro (ls : list loc) (h : Heap) (ms : list ChatMessage) :
  Forall2 (fun l m => objs h !! l = Some m) ls ms ->
  getObjects ls h = Some (ms, h).
Proof.
  induction 1 as [|l m ls ms Hl _ IH]; [reflexivity|].
  cbn. unfold mbind, M_bind, getObject. rewrite Hl.
  fold (getObjects ls). rewrite IH. reflexivity.
Qed.

Lemma holds_inv (h : Heap) (a : loc) (msgs : list ChatMessage) :
  holds h a msgs ->
  exists rs, arrs h !! a = Some rs
             /\ Forall2 (fun l m => objs h !! l = Some m) rs msgs.
Proof.
  unfold holds, readMessages, mbind, M_bind, getArray. intros Hrun.
  destruct (arrs h !! a) as [rs|] eqn:Ha; [|discriminate].
  exists rs. split; [reflexivity|].
  apply getObjects_inv in Hrun. tauto.
Qed.

Lemma holds_intro (h : Heap) (a : loc) (rs : list loc) (msgs : list ChatMessage) :
  arrs h !! a = Some rs ->
  Forall2 (fun l m => objs h !! l = Some m) rs msgs ->
  holds h a msgs.
Proof.
  intros Ha HF. unfold holds, readMessages, mbind, M_bind, getArray.
  rewrite Ha. apply getObjects_intro, HF.
Qed.

(** The loop prepends to [truncatedMessages] the [keptCount] references
    that precede index [n], in their order, and changes nothing
    else. *)
Lemma keptCount_le (tc : TokenCounter) (maxTokens : Z) (msgs : list ChatMessage)
    (n : nat) (cur : Z) :
  (keptCount tc maxTokens msgs n cur <= n)%nat.
Proof.
  revert cur. induction n as [|i IH]; intros cur; cbn; [lia|].
  destruct (msgs !! i) as [m|]; [|lia].
  destruct (_ >? _); [lia|].
  specialize (IH (cur + countMessageTokens tc m)). lia.
Qed.

(** The loop prepends to [truncatedMessages] the [keptCount] references
    that precede index [n], in their order, and changes nothing
    else. *)
Lemma keepNewest_run (tc : TokenCounter) (maxTokens : Z)
    (a t : loc) (rs : list loc) (msgs : list ChatMessage)
    (os : gmap loc ChatMessage) :
  a <> t ->
  Forall2 (fun l m => os !! l = Some m) rs msgs ->
  forall (n : nat) (cur : Z) (ts : list loc) (ars : gmap loc (list loc)),
    (n <= length rs)%nat ->
    ars !! a = Some rs ->
    ars !! t = Some ts ->
    keepNewest tc a t maxTokens n cur (mkHeap os ars)
    = Some (tt, mkHeap os
              (<[t := drop (n - keptCount tc maxTokens msgs n cur) (take n rs) ++ ts]> ars)).
Proof.
  intros Hne HF. induction n as [|i IH]; intros cur ts ars Hn Ha Ht.
  - cbn. rewrite insert_id; [reflexivity | assumption].
  - assert (Hi : (i < length rs)%nat) by lia.
    destruct (lookup_lt_is_Some_2 rs i Hi) as [r Hr].
    destruct (Forall2_lookup_l _ _ _ _ _ HF Hr) as (m & Hm & Hobj).
    cbn [keepNewest keptCount]. rewrite Hm.
    unfold mbind, M_bind, arrayGet. cbn [arrs]. rewrite Ha, Hr.
    unfold getObject. cbn [objs]. rewrite Hobj.
    destruct (cur + countMessageTokens tc m >? maxTokens) eqn:Hcmp.
    + cbn. rewrite drop_ge by (rewrite length_take; lia).
      cbn. rewrite insert_id; [reflexivity | assumption].
    + unfold unshift. cbn [arrs objs]. rewrite Ht.
      rewrite (IH _ (r :: ts)); [| lia | | ].
      * rewrite insert_insert_eq. do 3 f_equal.
        pose proof (keptCount_le tc maxTokens msgs i
                      (cur + countMessageTokens tc m)) as Hk.
        replace (S i - S (keptCount tc maxTokens msgs i (cur + countMessageTokens tc m)))%nat
          with (i - keptCount tc maxTokens msgs i (cur + countMessageTokens tc m))%nat by lia.
        rewrite (take_S_r rs i r Hr).
        rewrite drop_app_le by (rewrite length_take; lia).
        rewrite <- app_assoc. reflexivity.
      * rewrite lookup_insert_ne; [assumption | congruence].
      * apply lookup_insert_eq.
Qed.

Lemma fresh_object (os : gmap loc ChatMessage) (l : loc) (m : ChatMessage) :
  os !! l = Some m -> l <> fresh (dom os).
Proof.
  intros Hl Heq. apply (is_fresh (dom os)). rewrite <- Heq.
  apply elem_of_dom. eauto.
Qed.

Lemma fresh_array (ars : gmap loc (list loc)) (a : loc) (rs : list loc) :
  ars !! a = Some rs -> a <> fresh (dom ars).
Proof.
  intros Ha Heq. apply (is_fresh (dom ars)). rewrite <- Heq.
  apply elem_of_dom. eauto.
Qed.

(** What [truncateConversation] returns and the store it leaves. *)
Lemma truncateConversation_run (tc : TokenCounter) (clock : Clock)
    (h : Heap) (a : loc) (rs : list loc) (msgs : list ChatMessage)
    (maxTokens bufferThreshold : Z) :
  arrs h !! a = Some rs ->
  Forall2 (fun l m => objs h !! l = Some m) rs msgs ->
  truncateConversation tc clock a maxTokens bufferThreshold h =
    if getTotalTokenCount tc msgs <=? bufferThreshold then Some ((a, false), h)
    else
      let s := fresh (dom (objs h)) in
      let t := fresh (dom (arrs h)) in
      let sm := summaryOf clock (summarizeOldMessages msgs) in
      let k := keptCount tc maxTokens msgs (length rs) (countMessageTokens tc sm) in
      Some ((t, true),
            mkHeap (<[s := sm]> (objs h))
                   (<[t := drop (length rs - k) rs ++ [s]]> (arrs h))).
Proof.
  intros Ha HF.
  pose proof (holds_intro h a rs msgs Ha HF) as Hread. unfold holds in Hread.
  unfold truncateConversation, mbind, M_bind. rewrite Hread.
  destruct (getTotalTokenCount tc msgs <=? bufferThreshold); [reflexivity|].
  destruct h as [os ars]. cbn [objs arrs] in *.
  unfold newObject, newArray, getObject, arrayLength. cbn [objs arrs].
  rewrite lookup_insert_eq. cbn [objs arrs].
  rewrite lookup_insert_ne by (eapply not_eq_sym, fresh_array; eassumption).
  rewrite Ha.
  erewrite (keepNewest_run tc maxTokens a (fresh (dom ars)) rs msgs).
  - rewrite insert_insert_eq. rewrite take_ge by lia. reflexivity.
  - eapply fresh_array; eassumption.
  - eapply Forall2_impl; [exact HF|]. cbn. intros l m Hl.
    rewrite lookup_insert_ne; [assumption|].
    intros Heq. eapply fresh_object; [exact Hl|]. congruence.
  - lia.
  - rewrite lookup_insert_ne; [assumption|].
    intros Heq. eapply fresh_array; [exact Ha|]. congruence.
  - apply lookup_insert_eq.
Qed.

End StoreFacts.

(** ** Token estimation *)

Section TokenFacts.

Lemma splitWhitespaceFrom_nonempty (inSep : bool) (cur s : jsstring) :
  (1 <= length (splitWhitespaceFrom inSep cur s))%nat.
Proof.
  revert inSep cur. induction s as [|c s IH]; intros inSep cur; cbn; [lia|].
  destruct (isWhiteSpace c); [destruct inSep|]; cbn; try apply IH. lia.
Qed.

Lemma wordBasedEstimate_lower (text : jsstring) :
  (13 # 10 <= wordBasedEstimate text)%Q.
Proof.
  unfold wordBasedEstimate, splitWhitespace.
  pose proof (splitWhitespaceFrom_nonempty false [] text) as Hlen.
  unfold Qle, Qmult, inject_Z. cbn. lia.
Qed.

Lemma estimateTokens_lower (text : jsstring) : 2 <= estimateTokens text.
Proof.
  unfold estimateTokens.
  set (x := Qmax (wordBasedEstimate text) (charBasedEstimate text)).
  assert (Hx : (13 # 10 <= inject_Z (Qceiling x))%Q).
  { eapply Qle_trans; [apply wordBasedEstimate_lower|].
    eapply Qle_trans; [apply (Q.le_max_l _ (charBasedEstimate text))|].
    apply Qle_ceiling. }
  unfold Qle, inject_Z in Hx. cbn in Hx. lia.
Qed.

Lemma tryEncode_nonneg (tk : option Encoder) (text : jsstring) (n : Z) :
  tryEncode tk text = Some n -> 0 <= n.
Proof.
  unfold tryEncode. destruct tk as [e|]; [|discriminate].
  destruct (encode e text); [|discriminate].
  intros [= <-]. lia.
Qed.

Lemma countTokens_nonneg (tc : TokenCounter) (text : jsstring) :
  0 <= countTokens tc text.
Proof.
  unfold countTokens.
  destruct (tryEncode (tiktoken tc) text) eqn:H1;
    [eapply tryEncode_nonneg; eassumption|].
  destruct (tryEncode (jsTiktoken tc) text) eqn:H2;
    [eapply tryEncode_nonneg; eassumption|].
  pose proof (estimateTokens_lower text). lia.
Qed.

Lemma countMessageTokens_lower (tc : TokenCounter) (m : ChatMessage) :
  4 <= countMessageTokens tc m.
Proof.
  unfold countMessageTokens.
  pose proof (countTokens_nonneg tc (content m)).
  destruct (images m); lia.
Qed.

Lemma getTotalTokenCount_from (tc : TokenCounter) (msgs : list ChatMessage) (acc : Z) :
  fold_left (fun total msg => total + countMessageTokens tc msg) msgs acc
  = acc + getTotalTokenCount tc msgs.
Proof.
  unfold getTotalTokenCount. revert acc.
  induction msgs as [|m msgs IH]; intros acc; cbn [fold_left]; [lia|].
  rewrite (IH (acc + _)), (IH (0 + _)). lia.
Qed.

Lemma getTotalTokenCount_cons (tc : TokenCounter) (m : ChatMessage)
    (msgs : list ChatMessage) :
  getTotalTokenCount tc (m :: msgs)
  = countMessageTokens tc m + getTotalTokenCount tc msgs.
Proof.
  unfold getTotalTokenCount at 1. cbn [fold_left].
  rewrite getTotalTokenCount_from. lia.
Qed.

Lemma getTotalTokenCount_app (tc : TokenCounter) (l1 l2 : list ChatMessage) :
  getTotalTokenCount tc (l1 ++ l2)
  = getTotalTokenCount tc l1 + getTotalTokenCount tc l2.
Proof.
  induction l1 as [|m l1 IH]; [reflexivity|].
  cbn [app]. rewrite !getTotalTokenCount_cons, IH. lia.
Qed.

Lemma getTotalTokenCount_nonneg (tc : TokenCounter) (msgs : list ChatMessage) :
  0 <= getTotalTokenCount tc msgs.
Proof.
  induction msgs as [|m msgs IH]; [reflexivity|].
  rewrite getTotalTokenCount_cons.
  pose proof (countMessageTokens_lower tc m). lia.
Qed.

(** C10. In fallback mode [countTokens] is strictly positive on every
    string: the split on white space has at least one piece, so the
    word-based estimate is at least 1.3, and the count of the empty
    string is 2. *)
Theorem countTokens_fallback_positive (text : jsstring) :
  (1 <= length (splitWhitespace text))%nat
  /\ (13 # 10 <= wordBasedEstimate text)%Q
  /\ 0 < countTokens fallback text
  /\ countTokens fallback [] = 2.
Proof.
  split; [apply splitWhitespaceFrom_nonempty|].
  split; [apply wordBasedEstimate_lower|].
  split; [|reflexivity].
  change (countTokens fallback text) with (estimateTokens text).
  pose proof (estimateTokens_lower text). lia.
Qed.

End TokenFacts.

(** ** Truncation *)

Section TruncationFacts.

Variable tc : TokenCounter.

(** The kept messages, with what was counted before them, stay within
    the larger of that count and the budget. *)
Lemma keptCount_budget (maxTokens : Z) (msgs : list ChatMessage) (n : nat) (cur : Z) :
  (n <= length msgs)%nat ->
  cur + getTotalTokenCount tc
          (drop (n - keptCount tc maxTokens msgs n cur) (take n msgs))
  <= Z.max cur maxTokens.
Proof.
  revert cur. induction n as [|i IH]; intros cur Hn.
  - cbn. rewrite take_0. cbn. lia.
  - assert (Hi : (i < length msgs)%nat) by lia.
    destruct (lookup_lt_is_Some_2 msgs i Hi) as [m Hm].
    cbn [keptCount]. rewrite Hm.
    destruct (cur + countMessageTokens tc m >? maxTokens) eqn:Hcmp.
    + rewrite drop_ge by (rewrite length_take; lia). cbn. lia.
    + pose proof (keptCount_le tc maxTokens msgs i
                    (cur + countMessageTokens tc m)) as Hk.
      replace (S i - S (keptCount tc maxTokens msgs i (cur + countMessageTokens tc m)))%nat
        with (i - keptCount tc maxTokens msgs i (cur + countMessageTokens tc m))%nat by lia.
      rewrite (take_S_r msgs i m Hm).
      rewrite drop_app_le by (rewrite length_take; lia).
      rewrite getTotalTokenCount_app, getTotalTokenCount_cons.
      specialize (IH (cur + countMessageTokens tc m) ltac:(lia)).
      change (getTotalTokenCount tc []) with 0. lia.
Qed.

(** The walk stops at the first message that does not fit: when a
    message is left out, it is because adding it to what was counted
    would exceed the budget. *)
Lemma keptCount_stop (maxTokens : Z) (msgs : list ChatMessage) (n : nat) (cur : Z) :
  (n <= length msgs)%nat ->
  (keptCount tc maxTokens msgs n cur < n)%nat ->
  exists m,
    msgs !! (n - keptCount tc maxTokens msgs n cur - 1)%nat = Some m
    /\ maxTokens
       < cur + getTotalTokenCount tc
                 (drop (n - keptCount tc maxTokens msgs n cur) (take n msgs))
         + countMessageTokens tc m.
Proof.
  revert cur. induction n as [|i IH]; intros cur Hn Hlt; [lia|].
  assert (Hi : (i < length msgs)%nat) by lia.
  destruct (lookup_lt_is_Some_2 msgs i Hi) as [m0 Hm0].
  cbn [keptCount] in *. rewrite Hm0 in *.
  destruct (cur + countMessageTokens tc m0 >? maxTokens) eqn:Hcmp.
  - exists m0. replace (S i - 0 - 1)%nat with i by lia. split; [exact Hm0|].
    rewrite drop_ge by (rewrite length_take; lia).
    change (getTotalTokenCount tc []) with 0. lia.
  - pose proof (keptCount_le tc maxTokens msgs i
                  (cur + countMessageTokens tc m0)) as Hk.
    destruct (IH (cur + countMessageTokens tc m0) ltac:(lia) ltac:(lia))
      as (m & Hm & Hover).
    exists m.
    replace (S i - S (keptCount tc maxTokens msgs i (cur + countMessageTokens tc m0)) - 1)%nat
      with (i - keptCount tc maxTokens msgs i (cur + countMessageTokens tc m0) - 1)%nat
      by lia.
    split; [exact Hm|].
    replace (S i - S (keptCount tc maxTokens msgs i (cur + countMessageTokens tc m0)))%nat
      with (i - keptCount tc maxTokens msgs i (cur + countMessageTokens tc m0))%nat by lia.
    rewrite (take_S_r msgs i m0 Hm0).
    rewrite drop_app_le by (rewrite length_take; lia).
    rewrite getTotalTokenCount_app, getTotalTokenCount_cons.
    change (getTotalTokenCount tc []) with 0. lia.
Qed.

(** The newest message is kept as soon as it fits after what was
    counted before the loop. *)
Lemma keptCount_newest (maxTokens : Z) (msgs : list ChatMessage) (m : ChatMessage)
    (cur : Z) :
  last msgs = Some m ->
  cur + countMessageTokens tc m <= maxTokens ->
  (1 <= keptCount tc maxTokens msgs (length msgs) cur)%nat.
Proof.
  intros Hlast Hfit. rewrite last_lookup in Hlast.
  destruct (length msgs) as [|i] eqn:Hlen; [destruct msgs; discriminate|].
  cbn [Nat.pred] in Hlast. cbn [keptCount]. rewrite Hlast.
  destruct (cur + countMessageTokens tc m >? maxTokens) eqn:Hcmp; lia.
Qed.

Context (clock : Clock) (h : Heap) (a : loc) (rs : list loc)
        (msgs : list ChatMessage) (maxTokens bufferThreshold : Z).
Hypothesis Harr : arrs h !! a = Some rs.
Hypothesis Hobjs : Forall2 (fun l m => objs h !! l = Some m) rs msgs.

Let sm := summaryOf clock (summarizeOldMessages msgs).
Let k := keptCount tc maxTokens msgs (length rs) (countMessageTokens tc sm).
Let s := fresh (dom (objs h)).
Let t := fresh (dom (arrs h)).
Let h' := mkHeap (<[s := sm]> (objs h))
                 (<[t := drop (length rs - k) rs ++ [s]]> (arrs h)).

Lemma fresh_summary : objs h !! s = None.
Proof. apply not_elem_of_dom, is_fresh. Qed.

Lemma fresh_result : arrs h !! t = None.
Proof. apply not_elem_of_dom, is_fresh. Qed.

Lemma truncation_shape :
  bufferThreshold < getTotalTokenCount tc msgs ->
  truncatesTo tc clock h a maxTokens bufferThreshold h' t
              (drop (length rs - k) rs) s.
Proof.
  intros Hover. unfold truncatesTo.
  rewrite (truncateConversation_run tc clock h a rs msgs) by assumption.
  destruct (getTotalTokenCount tc msgs <=? bufferThreshold) eqn:Hcmp; [lia|].
  split; [reflexivity|]. split; [apply lookup_insert_eq | apply fresh_summary].
Qed.

Lemma objects_preserved (l : loc) (m : ChatMessage) :
  objs h !! l = Some m -> objs h' !! l = Some m.
Proof.
  intros Hl. cbn. rewrite lookup_insert_ne; [assumption|].
  intros Heq. pose proof fresh_summary as Hs. rewrite Heq in Hs. congruence.
Qed.

Lemma kept_messages :
  getObjects (drop (length rs - k) rs) h'
  = Some (drop (length rs - k) msgs, h').
Proof.
  apply getObjects_intro, Forall2_drop.
  eapply Forall2_impl; [exact Hobjs|]. apply objects_preserved.
Qed.

End TruncationFacts.

Section TruncationShape.

Variables (tc : TokenCounter) (clock : Clock) (h : Heap) (a : loc)
          (maxTokens bufferThreshold : Z).

Lemma truncatesTo_unique (h1 h2 : Heap) (t1 t2 : loc) (k1 k2 : list loc)
    (s1 s2 : loc) :
  truncatesTo tc clock h a maxTokens bufferThreshold h1 t1 k1 s1 ->
  truncatesTo tc clock h a maxTokens bufferThreshold h2 t2 k2 s2 ->
  h1 = h2 /\ t1 = t2 /\ k1 = k2 /\ s1 = s2.
Proof.
  intros (Hrun1 & Harr1 & _) (Hrun2 & Harr2 & _).
  rewrite Hrun1 in Hrun2. injection Hrun2 as -> ->.
  rewrite Harr1 in Harr2. injection Harr2 as Heq.
  apply app_inj_tail in Heq. tauto.
Qed.

Variables (rs : list loc) (msgs : list ChatMessage).
Hypothesis Harr : arrs h !! a = Some rs.
Hypothesis Hread : holds h a msgs.

Lemma holds_objects : Forall2 (fun l m => objs h !! l = Some m) rs msgs.
Proof.
  destruct (holds_inv h a msgs Hread) as (rs' & Harr' & HF).
  rewrite Harr in Harr'. injection Harr' as <-. exact HF.
Qed.

(** With the input above its threshold, the messages kept besides the
    summary are the last [keptCount] ones. *)
Lemma truncatesTo_kept (h' : Heap) (t : loc) (kept : list loc) (s : loc) :
  bufferThreshold < getTotalTokenCount tc msgs ->
  truncatesTo tc clock h a maxTokens bufferThreshold h' t kept s ->
  let k := keptCount tc maxTokens msgs (length rs)
             (countMessageTokens tc (summaryOf clock (summarizeOldMessages msgs))) in
  kept = drop (length rs - k) rs
  /\ s = fresh (dom (objs h))
  /\ getObjects kept h' = Some (drop (length rs - k) msgs, h').
Proof.
  intros Hover Htr k.
  pose proof (truncation_shape tc clock h a rs msgs maxTokens bufferThreshold
                Harr holds_objects Hover) as Hshape.
  destruct (truncatesTo_unique _ _ _ _ _ _ _ _ Htr Hshape) as (-> & -> & -> & ->).
  split; [reflexivity|]. split; [reflexivity|].
  apply kept_messages. exact holds_objects.
Qed.

End TruncationShape.

(** ** The claims on [truncateConversation] *)

(** C1, as amended. For a budget [maxTokens >= 0] and a list whose total
    exceeds [bufferThreshold], the messages of the result other than the
    summary message cost at most [maxTokens] in total. *)
Theorem truncate_kept_within_budget (tc : TokenCounter) (clock : Clock)
    (h : Heap) (a : loc) (msgs : list ChatMessage) (maxTokens bufferThreshold : Z) :
  holds h a msgs ->
  bufferThreshold < getTotalTokenCount tc msgs ->
  0 <= maxTokens ->
  keptWithinBudget tc clock h a maxTokens bufferThreshold.
Proof.
  intros Hread Hover Hbudget.
  destruct (holds_inv h a msgs Hread) as (rs & Harr & HF).
  pose proof (truncation_shape tc clock h a rs msgs maxTokens bufferThreshold
                Harr HF Hover) as Hshape.
  eexists _, _, _, _, _. split; [exact Hshape|].
  split; [apply kept_messages; exact HF|].
  set (cur := countMessageTokens tc (summaryOf clock (summarizeOldMessages msgs))).
  pose proof (keptCount_budget tc maxTokens msgs (length msgs) cur ltac:(lia)) as Hsum.
  rewrite take_ge in Hsum by lia.
  rewrite (Forall2_length _ _ _ HF).
  pose proof (countMessageTokens_lower tc
                (summaryOf clock (summarizeOldMessages msgs))) as Hcur.
  fold cur in Hcur. lia.
Qed.

Lemma truncate_kept_within_budget_witness :
  keptWithinBudget fallback noon hiHeap 1 100 0.
Proof.
  apply (truncate_kept_within_budget fallback noon hiHeap 1 [hiMessage] 100 0).
  - vm_compute. reflexivity.
  - vm_compute. reflexivity.
  - lia.
Defined.

(** C1, as stated, fails for a negative budget: nothing is kept, and the
    empty sum [0] exceeds [maxTokens = -1]. *)
Lemma truncate_negative_budget_counterexample :
  holds hiHeap 1 [hiMessage]
  /\ -2 < getTotalTokenCount fallback [hiMessage]
  /\ ~ keptWithinBudget fallback noon hiHeap 1 (-1) (-2).
Proof.
  assert (Hread : holds hiHeap 1 [hiMessage]) by (vm_compute; reflexivity).
  split; [exact Hread|]. split; [reflexivity|].
  intros (h' & t & kept & s & keptMsgs & Htr & Hget & Hle).
  assert (Harr : arrs hiHeap !! 1%positive = Some [1%positive]) by reflexivity.
  destruct (truncatesTo_kept fallback noon hiHeap 1 (-1) (-2) [1%positive] [hiMessage]
              Harr Hread h' t kept s ltac:(reflexivity) Htr) as (_ & _ & Hget').
  rewrite Hget' in Hget. injection Hget as <-.
  vm_compute in Hle. apply Hle. reflexivity.
Qed.

(** When at least one message is kept, the whole result, summary
    included, is within the budget. *)
Lemma truncate_total_within_budget (tc : TokenCounter) (clock : Clock)
    (h : Heap) (a : loc) (msgs : list ChatMessage) (maxTokens bufferThreshold : Z)
    (h' : Heap) (t : loc) (kept : list loc) (s : loc) (keptMsgs : list ChatMessage) :
  holds h a msgs ->
  bufferThreshold < getTotalTokenCount tc msgs ->
  truncatesTo tc clock h a maxTokens bufferThreshold h' t kept s ->
  getObjects kept h' = Some (keptMsgs, h') ->
  kept <> [] ->
  countMessageTokens tc (summaryOf clock (summarizeOldMessages msgs))
    + getTotalTokenCount tc keptMsgs <= maxTokens.
Proof.
  intros Hread Hover Htr Hget Hne.
  destruct (holds_inv h a msgs Hread) as (rs & Harr & HF).
  destruct (truncatesTo_kept tc clock h a maxTokens bufferThreshold rs msgs
              Harr Hread h' t kept s Hover Htr) as (Hkept & _ & Hget').
  rewrite Hget' in Hget. injection Hget as <-.
  set (cur := countMessageTokens tc (summaryOf clock (summarizeOldMessages msgs))) in *.
  pose proof (Forall2_length _ _ _ HF) as Hlen. rewrite Hlen in *.
  set (k := keptCount tc maxTokens msgs (length msgs) cur) in *.
  pose proof (keptCount_budget tc maxTokens msgs (length msgs) cur ltac:(lia)) as Hsum.
  rewrite take_ge in Hsum by lia. fold k in Hsum.
  destruct (Z.max_spec cur maxTokens) as [[_ Hmax] | [Hlt Hmax]];
    rewrite Hmax in Hsum; [exact Hsum|].
  exfalso. apply Hne. subst kept.
  assert (Hk : k = 0%nat).
  { unfold k. destruct (length msgs) as [|i] eqn:Hn; [reflexivity|].
    cbn [keptCount]. destruct (msgs !! i) as [m|]; [|reflexivity].
    pose proof (countMessageTokens_lower tc m).
    destruct (cur + countMessageTokens tc m >? maxTokens) eqn:Hcmp; [reflexivity | lia]. }
  rewrite Hk, Nat.sub_0_r. apply drop_ge. lia.
Qed.

(** When a message is left out, the one just before the kept ones would
    not have fitted: with the summary and the kept messages it exceeds
    the budget. *)
Lemma truncate_stops_at_first_overflow (tc : TokenCounter) (clock : Clock)
    (h : Heap) (a : loc) (msgs : list ChatMessage) (maxTokens bufferThreshold : Z)
    (h' : Heap) (t : loc) (kept : list loc) (s : loc) (keptMsgs : list ChatMessage) :
  holds h a msgs ->
  bufferThreshold < getTotalTokenCount tc msgs ->
  truncatesTo tc clock h a maxTokens bufferThreshold h' t kept s ->
  getObjects kept h' = Some (keptMsgs, h') ->
  (length kept < length msgs)%nat ->
  exists m,
    msgs !! (length msgs - length kept - 1)%nat = Some m
    /\ maxTokens
       < countMessageTokens tc (summaryOf clock (summarizeOldMessages msgs))
         + getTotalTokenCount tc keptMsgs + countMessageTokens tc m.
Proof.
  intros Hread Hover Htr Hget Hless.
  destruct (holds_inv h a msgs Hread) as (rs & Harr & HF).
  destruct (truncatesTo_kept tc clock h a maxTokens bufferThreshold rs msgs
              Harr Hread h' t kept s Hover Htr) as (Hkept & _ & Hget').
  rewrite Hget' in Hget. injection Hget as <-.
  set (cur := countMessageTokens tc (summaryOf clock (summarizeOldMessages msgs))) in *.
  pose proof (Forall2_length _ _ _ HF) as Hlen. rewrite Hlen in *.
  set (k := keptCount tc maxTokens msgs (length msgs) cur) in *.
  pose proof (keptCount_le tc maxTokens msgs (length msgs) cur) as Hk. fold k in Hk.
  assert (Hlk : length kept = k).
  { subst kept. rewrite length_drop. lia. }
  destruct (keptCount_stop tc maxTokens msgs (length msgs) cur ltac:(lia))
    as (m & Hm & Hstop); [fold k; lia|].
  fold k in Hm, Hstop. rewrite take_ge in Hstop by lia.
  exists m. rewrite Hlk. split; [exact Hm | exact Hstop].
Qed.

(** A budget of 60 on three messages of costs 8, 11 and 6 with a summary
    of cost 41: the two newest are kept, in their order, before the
    summary message, and the input array is as it was. *)
Example truncate_three_messages :
  exists h',
    truncateConversation fallback noon 7 60 0 threeHeap = Some ((8%positive, true), h')
    /\ arrs h' !! 8%positive = Some [2%positive; 3%positive; 4%positive]
    /\ arrs h' !! 7%positive = Some [1%positive; 2%positive; 3%positive]
    /\ (content <$> objs h' !! 4%positive)
       = Some (lit "Previous conversation summary:" ++ [LF]
               ++ lit "- User asked about: first question..." ++ [LF]
               ++ lit "  (Pages: 4, 5)" ++ [LF]
               ++ lit "- Assistant explained: Title one" ++ [LF]
               ++ lit "- User asked about: third..." ++ [LF]).
Proof.
  eexists. split; [vm_compute; reflexivity|].
  repeat split; vm_compute; reflexivity.
Qed.

(** C4, as amended. For a non-empty list whose total exceeds
    [bufferThreshold], the result contains the newest message as soon as
    [maxTokens] is at least the cost of the summary message plus that
    message's own cost. *)
Theorem truncate_keeps_newest (tc : TokenCounter) (clock : Clock)
    (h : Heap) (a : loc) (rs : list loc) (msgs : list ChatMessage)
    (maxTokens bufferThreshold : Z) (newest : loc) (m : ChatMessage) :
  arrs h !! a = Some rs ->
  holds h a msgs ->
  bufferThreshold < getTotalTokenCount tc msgs ->
  last rs = Some newest ->
  objs h !! newest = Some m ->
  countMessageTokens tc (summaryOf clock (summarizeOldMessages msgs))
    + countMessageTokens tc m <= maxTokens ->
  keepsMessage tc clock h a maxTokens bufferThreshold newest.
Proof.
  intros Harr Hread Hover Hlast Hobj Hfit.
  pose proof (holds_objects h a rs msgs Harr Hread) as HF.
  pose proof (truncation_shape tc clock h a rs msgs maxTokens bufferThreshold
                Harr HF Hover) as Hshape.
  eexists _, _, _, _. split; [exact Hshape|].
  apply elem_of_app. left.
  set (cur := countMessageTokens tc (summaryOf clock (summarizeOldMessages msgs))) in *.
  rewrite last_lookup in Hlast.
  destruct (Forall2_lookup_l _ _ _ _ _ HF Hlast) as (m' & Hm' & Hobj').
  assert (m' = m) by congruence. subst m'.
  pose proof (Forall2_length _ _ _ HF) as Hlen.
  assert (Hlastm : last msgs = Some m) by (rewrite last_lookup, <- Hlen; exact Hm').
  pose proof (keptCount_newest tc maxTokens msgs m cur Hlastm Hfit) as Hk.
  pose proof (keptCount_le tc maxTokens msgs (length msgs) cur) as Hk'.
  rewrite Hlen.
  set (k := keptCount tc maxTokens msgs (length msgs) cur) in *.
  apply list_elem_of_lookup. exists (k - 1)%nat.
  rewrite lookup_drop, <- Hlast. f_equal. lia.
Qed.

Lemma truncate_keeps_newest_witness :
  keepsMessage fallback noon hiHeap 1 100 0 1.
Proof.
  apply (truncate_keeps_newest fallback noon hiHeap 1 [1%positive] [hiMessage]
           100 0 1%positive hiMessage).
  - reflexivity.
  - vm_compute. reflexivity.
  - vm_compute. reflexivity.
  - reflexivity.
  - reflexivity.
  - vm_compute. discriminate.
Defined.

(** C4, as stated, fails: with [maxTokens] equal to the cost of the
    newest (and only) message, the summary message has used up the
    budget and the result holds the summary alone. *)
Lemma truncate_newest_dropped_counterexample :
  arrs hiHeap !! 1%positive = Some [1%positive]
  /\ holds hiHeap 1 [hiMessage]
  /\ 0 < getTotalTokenCount fallback [hiMessage]
  /\ last [1%positive] = Some 1%positive
  /\ objs hiHeap !! 1%positive = Some hiMessage
  /\ countMessageTokens fallback hiMessage <= 6
  /\ ~ keepsMessage fallback noon hiHeap 1 6 0 1.
Proof.
  assert (Harr : arrs hiHeap !! 1%positive = Some [1%positive]) by reflexivity.
  assert (Hread : holds hiHeap 1 [hiMessage]) by (vm_compute; reflexivity).
  do 5 (split; [first [assumption | reflexivity | (vm_compute; discriminate)]|]).
  split; [vm_compute; discriminate|].
  intros (h' & t & kept & s & Htr & Hin).
  destruct (truncatesTo_kept fallback noon hiHeap 1 6 0 [1%positive] [hiMessage]
              Harr Hread h' t kept s ltac:(reflexivity) Htr) as (-> & -> & _).
  vm_compute in Hin.
  apply list_elem_of_singleton in Hin. discriminate.
Qed.

(** C5. When the total is within [bufferThreshold], the call returns the
    very array it was given, with [wasTruncated = false], and leaves the
    store as it was: no summary message is created. *)
Theorem truncate_under_threshold (tc : TokenCounter) (clock : Clock)
    (h : Heap) (a : loc) (msgs : list ChatMessage) (maxTokens bufferThreshold : Z) :
  holds h a msgs ->
  getTotalTokenCount tc msgs <= bufferThreshold ->
  truncateConversation tc clock a maxTokens bufferThreshold h = Some ((a, false), h).
Proof.
  intros Hread Hunder.
  destruct (holds_inv h a msgs Hread) as (rs & Harr & HF).
  rewrite (truncateConversation_run tc clock h a rs msgs) by assumption.
  destruct (getTotalTokenCount tc msgs <=? bufferThreshold) eqn:Hcmp; [reflexivity | lia].
Qed.

Lemma truncate_under_threshold_witness :
  truncateConversation fallback noon 1 100 10 hiHeap = Some ((1%positive, false), hiHeap).
Proof.
  apply (truncate_under_threshold fallback noon hiHeap 1 [hiMessage] 100 10).
  - vm_compute. reflexivity.
  - vm_compute. discriminate.
Defined.

(** C9. The call leaves its input as it was: the array keeps its
    elements in their order, and every array and message object of the
    store before the call is unchanged after it.  When the call
    truncates, the result is a new array whose elements before the
    summary message, itself a new object, are a suffix of the input. *)
Theorem truncate_preserves_input (tc : TokenCounter) (clock : Clock)
    (h : Heap) (a : loc) (rs : list loc) (msgs : list ChatMessage)
    (maxTokens bufferThreshold : Z) :
  arrs h !! a = Some rs ->
  holds h a msgs ->
  exists res wasTruncated h',
    truncateConversation tc clock a maxTokens bufferThreshold h
      = Some ((res, wasTruncated), h')
    /\ arrs h' !! a = Some rs
    /\ holds h' a msgs
    /\ (forall b xs, arrs h !! b = Some xs -> arrs h' !! b = Some xs)
    /\ (forall l m, objs h !! l = Some m -> objs h' !! l = Some m)
    /\ (wasTruncated = false -> res = a /\ h' = h)
    /\ (wasTruncated = true ->
        arrs h !! res = None
        /\ exists kept s,
            arrs h' !! res = Some (kept ++ [s])
            /\ objs h !! s = None
            /\ kept `suffix_of` rs).
Proof.
  intros Harr Hread.
  pose proof (holds_objects h a rs msgs Harr Hread) as HF.
  rewrite (truncateConversation_run tc clock h a rs msgs) by assumption.
  destruct (getTotalTokenCount tc msgs <=? bufferThreshold) eqn:Hcmp.
  - exists a, false, h. repeat split; auto; discriminate.
  - cbv zeta.
    assert (Hobj : forall l m, objs h !! l = Some m ->
                     <[fresh (dom (objs h)) := summaryOf clock (summarizeOldMessages msgs)]>
                       (objs h) !! l = Some m).
    { intros l m Hl. rewrite lookup_insert_ne; [assumption|].
      intros Heq. eapply fresh_object; [exact Hl|]. congruence. }
    assert (Harrs : forall b xs, arrs h !! b = Some xs ->
                      <[fresh (dom (arrs h)) :=
                          drop (length rs - keptCount tc maxTokens msgs (length rs)
                                  (countMessageTokens tc
                                     (summaryOf clock (summarizeOldMessages msgs)))) rs
                          ++ [fresh (dom (objs h))]]> (arrs h) !! b = Some xs).
    { intros b xs Hb. rewrite lookup_insert_ne; [assumption|].
      intros Heq. eapply fresh_array; [exact Hb|]. congruence. }
    eexists _, true, _. split; [reflexivity|].
    split; [apply Harrs, Harr|].
    split; [eapply holds_intro; [apply Harrs, Harr|];
            eapply Forall2_impl; [exact HF | exact Hobj]|].
    split; [exact Harrs|]. split; [exact Hobj|].
    split; [discriminate|]. intros _.
    split; [apply not_elem_of_dom, is_fresh|].
    eexists _, _. split; [apply lookup_insert_eq|].
    split; [apply not_elem_of_dom, is_fresh | apply suffix_drop].
Qed.

Lemma truncate_preserves_input_witness :
  exists res wasTruncated h',
    truncateConversation fallback noon 1 100 0 hiHeap = Some ((res, wasTruncated), h')
    /\ arrs h' !! 1%positive = Some [1%positive]
    /\ holds h' 1 [hiMessage]
    /\ (forall b xs, arrs hiHeap !! b = Some xs -> arrs h' !! b = Some xs)
    /\ (forall l m, objs hiHeap !! l = Some m -> objs h' !! l = Some m)
    /\ (wasTruncated = false -> res = 1%positive /\ h' = hiHeap)
    /\ (wasTruncated = true ->
        arrs hiHeap !! res = None
        /\ exists kept s,
            arrs h' !! res = Some (kept ++ [s])
            /\ objs hiHeap !! s = None
            /\ kept `suffix_of` [1%positive]).
Proof.
  apply (truncate_preserves_input fallback noon hiHeap 1 [1%positive] [hiMessage] 100 0).
  - reflexivity.
  - vm_compute. reflexivity.
Defined.

(** ** The summary *)

Section SummaryFacts.

Lemma headings_stripped (lines : list jsstring) :
  map stripHeading (List.filter matchesHeading lines) = omap matchHeading lines.
Proof.
  induction lines as [|line lines IH]; [reflexivity|].
  cbn [List.filter omap list_omap]. unfold matchesHeading at 1.
  destruct (matchHeading line) as [rest|] eqn:Hm.
  - cbn [map]. unfold stripHeading at 1. rewrite Hm, IH. reflexivity.
  - exact IH.
Qed.

Lemma extractKeyPoints_keyPoints (content : jsstring) :
  extractKeyPoints content = keyPoints content.
Proof.
  unfold extractKeyPoints, keyPoints, markdownHeadings, slice0.
  change (fun line => truthy (trim line)) with nonBlank.
  rewrite <- headings_stripped.
  destruct (List.filter matchesHeading (List.filter nonBlank (splitOn LF content)))
    as [|hd hds]; [reflexivity|].
  rewrite firstn_map. reflexivity.
Qed.

Lemma summarizeStep_bullet (summary : jsstring) (msg : ChatMessage) :
  summarizeStep summary msg = summary ++ bullet msg.
Proof.
  unfold summarizeStep, bullet, pagesNote, slice0.
  destruct (role msg).
  - destruct (pageReferences msg); rewrite <- ?app_assoc; cbn [app];
      rewrite ?app_nil_r; reflexivity.
  - rewrite extractKeyPoints_keyPoints. reflexivity.
  - rewrite app_nil_r. reflexivity.
Qed.

Lemma summarize_fold (msgs : list ChatMessage) (summary : jsstring) :
  fold_left summarizeStep msgs summary = summary ++ concat (map bullet msgs).
Proof.
  revert summary. induction msgs as [|m msgs IH]; intros summary; cbn.
  - rewrite app_nil_r. reflexivity.
  - rewrite IH, summarizeStep_bullet, <- app_assoc. reflexivity.
Qed.

Lemma summarizeOldMessages_summaryText (msgs : list ChatMessage) :
  summarizeOldMessages msgs = summaryText msgs.
Proof.
  unfold summarizeOldMessages, summaryText.
  rewrite summarize_fold, <- app_assoc. reflexivity.
Qed.

(** *** The summary against its description *)

Lemma lit_chars (str : string) : lit str = chars str.
Proof.
  unfold chars. induction str as [|a str IH]; [reflexivity|].
  cbn. rewrite IH. reflexivity.
Qed.

Lemma isWhiteSpace_codes (c : N) : isWhiteSpace c = true <-> c ∈ whiteSpaceCodes.
Proof.
  unfold isWhiteSpace, whiteSpaceCodes.
  rewrite !orb_true_iff, !andb_true_iff, !N.leb_le, !N.eqb_eq.
  rewrite !elem_of_cons, elem_of_nil. lia.
Qed.

Lemma skipHashes_repeat (m : nat) (w : N) (rest : jsstring) :
  w <> HASH -> skipHashes (repeat HASH m ++ w :: rest) = w :: rest.
Proof.
  intros Hw. induction m as [|m IH]; cbn.
  - destruct (w =? HASH)%N eqn:Heq; [apply N.eqb_eq in Heq; contradiction | reflexivity].
  - exact IH.
Qed.

Lemma skipHashes_split (s : jsstring) :
  exists m, s = repeat HASH m ++ skipHashes s.
Proof.
  induction s as [|c s [m IH]]; [exists 0%nat; reflexivity|]. cbn.
  destruct (c =? HASH)%N eqn:Heq.
  - apply N.eqb_eq in Heq. subst c. exists (S m). cbn. f_equal. exact IH.
  - exists 0%nat. reflexivity.
Qed.

(** The regular expression [/^#+\s/] matches exactly the headings. *)
Lemma matchHeading_headingOf (line heading : jsstring) :
  matchHeading line = Some heading <-> headingOf line heading.
Proof.
  split.
  - destruct line as [|c s]; [discriminate|]. cbn.
    destruct (c =? HASH)%N eqn:Hc; [|discriminate].
    apply N.eqb_eq in Hc. subst c.
    destruct (skipHashes_split s) as [m Hs].
    destruct (skipHashes s) as [|w rest]; [discriminate|].
    destruct (isWhiteSpace w) eqn:Hw; [|discriminate].
    intros [= <-]. exists (S m), w.
    split; [lia|]. split; [apply isWhiteSpace_codes, Hw|].
    cbn. f_equal. exact Hs.
  - intros (n & w & Hn & Hw & ->).
    destruct n as [|m]; [lia|]. cbn.
    apply isWhiteSpace_codes in Hw.
    rewrite skipHashes_repeat.
    + rewrite Hw. reflexivity.
    + intros ->. discriminate.
Qed.

Lemma dropWhiteSpace_hash (l : jsstring) : dropWhiteSpace (l ++ [HASH]) <> [].
Proof.
  induction l as [|c l IH]; cbn; [discriminate|].
  destruct (isWhiteSpace c); [exact IH | discriminate].
Qed.

(** A heading is not a blank line, so that leaving the blank lines out
    before looking for headings changes nothing. *)
Lemma heading_nonBlank (line heading : jsstring) :
  matchHeading line = Some heading -> nonBlank line = true.
Proof.
  destruct line as [|c s]; [discriminate|]. cbn [matchHeading].
  destruct (c =? HASH)%N eqn:Hc; [|discriminate].
  apply N.eqb_eq in Hc. subst c. intros _.
  unfold nonBlank, trim. cbn [dropWhiteSpace].
  change (isWhiteSpace HASH) with false. cbv iota.
  set (d := dropWhiteSpace (rev (HASH :: s))).
  assert (Hd : d <> []) by (unfold d; cbn [rev]; apply dropWhiteSpace_hash).
  destruct d as [|x d']; [contradiction|].
  cbn [rev]. destruct (rev d'); reflexivity.
Qed.

Lemma headings_of_nonBlank (ls : list jsstring) :
  omap matchHeading (List.filter nonBlank ls) = omap matchHeading ls.
Proof.
  induction ls as [|line ls IH]; [reflexivity|].
  cbn [List.filter]. destruct (nonBlank line) eqn:Hb.
  - cbn [omap list_omap]. rewrite IH. reflexivity.
  - cbn [omap list_omap]. destruct (matchHeading line) as [heading|] eqn:Hm.
    + apply heading_nonBlank in Hm. congruence.
    + exact IH.
Qed.

Lemma headingTexts_omap (ls : list jsstring) :
  headingTexts ls (omap matchHeading ls).
Proof.
  induction ls as [|line ls IH]; [constructor|].
  cbn [omap list_omap]. destruct (matchHeading line) as [heading|] eqn:Hm.
  - constructor; [apply matchHeading_headingOf, Hm | exact IH].
  - constructor; [|exact IH].
    intros heading Hh. apply matchHeading_headingOf in Hh. congruence.
Qed.

Lemma headingTexts_unique (ls hs : list jsstring) :
  headingTexts ls hs -> hs = omap matchHeading ls.
Proof.
  induction 1 as [|line heading ls hs Hh _ IH|line ls hs Hno _ IH];
    [reflexivity| |]; cbn [omap list_omap].
  - apply matchHeading_headingOf in Hh. rewrite Hh, IH. reflexivity.
  - destruct (matchHeading line) as [heading|] eqn:Hm; [|exact IH].
    apply matchHeading_headingOf in Hm. destruct (Hno heading Hm).
Qed.

Lemma splitOnFrom_line (sep : N) (l cur : jsstring) :
  sep ∉ l -> splitOnFrom sep cur l = [rev cur ++ l].
Proof.
  revert cur. induction l as [|c l IH]; intros cur Hl; cbn.
  - rewrite app_nil_r. reflexivity.
  - destruct (c =? sep)%N eqn:Hc.
    + apply N.eqb_eq in Hc. subst c. destruct Hl. left.
    + rewrite IH; [cbn; rewrite <- app_assoc; reflexivity|].
      intros Hin. apply Hl. right. exact Hin.
Qed.

Lemma splitOnFrom_break (sep : N) (l rest cur : jsstring) :
  sep ∉ l ->
  splitOnFrom sep cur (l ++ sep :: rest) = (rev cur ++ l) :: splitOnFrom sep [] rest.
Proof.
  revert cur. induction l as [|c l IH]; intros cur Hl; cbn.
  - rewrite N.eqb_refl, app_nil_r. reflexivity.
  - destruct (c =? sep)%N eqn:Hc.
    + apply N.eqb_eq in Hc. subst c. destruct Hl. left.
    + rewrite IH; [cbn; rewrite <- app_assoc; reflexivity|].
      intros Hin. apply Hl. right. exact Hin.
Qed.

(** [split('\n')] gives the lines, and nothing else does. *)
Lemma linesOf_unique (s : jsstring) (ls : list jsstring) :
  linesOf s ls -> ls = splitOn LF s.
Proof.
  unfold splitOn. induction 1 as [l Hl|l rest ls Hl _ IH].
  - rewrite (splitOnFrom_line LF) by exact Hl. reflexivity.
  - rewrite (splitOnFrom_break LF) by exact Hl. rewrite <- IH. reflexivity.
Qed.

Lemma linesOf_char (c : N) (s hd : jsstring) (tl : list jsstring) :
  c <> 10%N -> linesOf s (hd :: tl) -> linesOf (c :: s) ((c :: hd) :: tl).
Proof.
  intros Hc Hs. inversion Hs as [l Hl|l rest ls Hl Hrest]; subst.
  - constructor. intros Hin. apply elem_of_cons in Hin as [Heq | Hin]; [congruence|].
    exact (Hl Hin).
  - rewrite app_comm_cons. constructor; [|exact Hrest].
    intros Hin. apply elem_of_cons in Hin as [Heq | Hin]; [congruence|].
    exact (Hl Hin).
Qed.

Lemma linesOf_splitOnFrom (s : jsstring) :
  forall cur, exists hd tl,
    splitOnFrom LF cur s = (rev cur ++ hd) :: tl /\ linesOf s (hd :: tl).
Proof.
  induction s as [|c s IH]; intros cur; cbn.
  - exists [], []. rewrite app_nil_r. split; [reflexivity|].
    constructor. apply not_elem_of_nil.
  - destruct (c =? LF)%N eqn:Hc.
    + apply N.eqb_eq in Hc. subst c.
      destruct (IH []) as (hd & tl & Hsplit & Hlines). cbn in Hsplit.
      exists [], (hd :: tl). rewrite app_nil_r, Hsplit. split; [reflexivity|].
      apply (lines_cons [] s (hd :: tl)); [apply not_elem_of_nil | exact Hlines].
    + apply N.eqb_neq in Hc.
      destruct (IH (c :: cur)) as (hd & tl & Hsplit & Hlines).
      exists (c :: hd), tl. rewrite Hsplit. cbn. rewrite <- app_assoc.
      split; [reflexivity|]. apply linesOf_char; assumption.
Qed.

Lemma linesOf_splitOn (s : jsstring) : linesOf s (splitOn LF s).
Proof.
  destruct (linesOf_splitOnFrom s []) as (hd & tl & Hsplit & Hlines).
  unfold splitOn. rewrite Hsplit. exact Hlines.
Qed.

Lemma join_commaSeparated (parts : list jsstring) :
  join (lit ", ") parts = commaSeparated parts.
Proof.
  destruct parts as [|p rest]; [reflexivity|].
  revert p. induction rest as [|q rest IH]; intros p.
  - cbn. rewrite app_nil_r. reflexivity.
  - change (join (lit ", ") (p :: q :: rest))
      with (p ++ lit ", " ++ join (lit ", ") (q :: rest)).
    rewrite IH. unfold commaSeparated. cbn [map concat].
    rewrite <- app_assoc. reflexivity.
Qed.

Lemma showInt_decimal (n : Z) : showInt n = decimal n.
Proof. unfold showInt, decimal. apply lit_chars. Qed.

(** [extractKeyPoints] from the lines and the headings of the content. *)
Lemma extractKeyPoints_headings (content : jsstring) (ls hs : list jsstring) :
  linesOf content ls ->
  headingTexts ls hs ->
  extractKeyPoints content
  = match hs with
    | [] => take 150 content ++ chars "..."
    | _ :: _ => commaSeparated (take 3 hs)
    end.
Proof.
  intros Hls Hhs. apply linesOf_unique in Hls. apply headingTexts_unique in Hhs.
  rewrite extractKeyPoints_keyPoints. unfold keyPoints, markdownHeadings.
  rewrite headings_of_nonBlank, <- Hls, <- Hhs.
  destruct hs as [|heading hs]; [reflexivity|].
  cbn [firstn]. rewrite join_commaSeparated. reflexivity.
Qed.

Lemma pagesNote_pagesOf (msg : ChatMessage) :
  pagesNote msg = pagesOf (pageReferences msg).
Proof.
  unfold pagesNote, pagesOf. destruct (pageReferences msg) as [refs|]; [|reflexivity].
  rewrite join_commaSeparated, !lit_chars. do 3 f_equal.
  apply map_ext. intros n. apply showInt_decimal.
Qed.

Lemma bullet_bulletOf (msg : ChatMessage) : bulletOf msg (bullet msg).
Proof.
  unfold bullet. destruct (role msg) eqn:Hrole.
  - rewrite pagesNote_pagesOf, !lit_chars. apply bullet_user, Hrole.
  - rewrite <- extractKeyPoints_keyPoints.
    pose proof (linesOf_splitOn (content msg)) as Hls.
    pose proof (headingTexts_omap (splitOn LF (content msg))) as Hhs.
    rewrite (extractKeyPoints_headings _ _ _ Hls Hhs), lit_chars.
    destruct (omap matchHeading (splitOn LF (content msg))) as [|heading hs] eqn:Hh.
    + rewrite <- app_assoc. eapply bullet_plain; eassumption.
    + eapply bullet_headings; [exact Hrole | exact Hls | exact Hhs | discriminate].
  - apply bullet_system, Hrole.
Qed.

(** The description leaves no choice. *)
Lemma bulletOf_unique (msg : ChatMessage) (b : jsstring) :
  bulletOf msg b -> b = bullet msg.
Proof.
  intros Hb. unfold bullet.
  destruct Hb as [msg Hrole|msg ls hs Hrole Hls Hhs Hne|msg ls Hrole Hls Hhs|msg Hrole];
    rewrite Hrole.
  - rewrite pagesNote_pagesOf, !lit_chars. reflexivity.
  - rewrite <- extractKeyPoints_keyPoints, (extractKeyPoints_headings _ _ _ Hls Hhs),
      lit_chars.
    destruct hs; [contradiction | reflexivity].
  - rewrite <- extractKeyPoints_keyPoints, (extractKeyPoints_headings _ _ _ Hls Hhs),
      lit_chars, <- app_assoc.
    reflexivity.
  - reflexivity.
Qed.

Lemma isSummaryOf_unique (msgs : list ChatMessage) (summary : jsstring) :
  isSummaryOf msgs summary -> summary = summarizeOldMessages msgs.
Proof.
  intros (bullets & Hbullets & ->).
  rewrite summarizeOldMessages_summaryText. unfold summaryText.
  assert (Heq : bullets = map bullet (take (Nat.min 3 (length msgs)) msgs)).
  { induction Hbullets as [|m b l bs Hb _ IH]; [reflexivity|].
    cbn [map]. rewrite (bulletOf_unique m b Hb), IH. reflexivity. }
  rewrite Heq, lit_chars. reflexivity.
Qed.

Lemma summarizeOldMessages_isSummaryOf (msgs : list ChatMessage) :
  isSummaryOf msgs (summarizeOldMessages msgs).
Proof.
  rewrite summarizeOldMessages_summaryText. unfold summaryText, isSummaryOf.
  exists (map bullet (take (Nat.min 3 (length msgs)) msgs)).
  split; [|rewrite lit_chars; reflexivity].
  induction (take (Nat.min 3 (length msgs)) msgs) as [|m l IH]; constructor;
    [apply bullet_bulletOf | exact IH].
Qed.

End SummaryFacts.

(** C8. When the call truncates, the summary message has role [system]
    and its content is the heading line followed by what each of the
    first [min 3 N] messages contributes, in order: a user message a
    bullet with the first 100 code units of its content and, when it
    has page references, a note of them; an assistant message a bullet
    with the first 3 of its markdown headings, separated by commas, or
    with the first 150 code units of its content when no line of it is
    a heading.  No other text fits this description. *)
Theorem summary_message_content (tc : TokenCounter) (clock : Clock)
    (h : Heap) (a : loc) (msgs : list ChatMessage) (maxTokens bufferThreshold : Z) :
  holds h a msgs ->
  bufferThreshold < getTotalTokenCount tc msgs ->
  exists h' t kept s sm,
    truncatesTo tc clock h a maxTokens bufferThreshold h' t kept s
    /\ objs h' !! s = Some sm
    /\ role sm = system
    /\ isSummaryOf msgs (content sm)
    /\ (forall summary, isSummaryOf msgs summary -> summary = content sm).
Proof.
  intros Hread Hover.
  destruct (holds_inv h a msgs Hread) as (rs & Harr & HF).
  pose proof (truncation_shape tc clock h a rs msgs maxTokens bufferThreshold
                Harr HF Hover) as Hshape.
  eexists _, _, _, _, _. split; [exact Hshape|].
  split; [apply lookup_insert_eq|].
  split; [reflexivity|].
  split; [apply summarizeOldMessages_isSummaryOf | apply isSummaryOf_unique].
Qed.

(** Four messages: the question of the first with its pages, the two
    headings of the second, the beginning of the third, which has no
    heading, and nothing of the fourth. *)
Lemma summary_message_content_witness :
  exists h' t kept s sm,
    truncatesTo fallback noon fourHeap 7 100 0 h' t kept s
    /\ objs h' !! s = Some sm
    /\ role sm = system
    /\ isSummaryOf fourMessages (content sm)
    /\ (forall summary, isSummaryOf fourMessages summary -> summary = content sm)
    /\ content sm
       = chars "Previous conversation summary:" ++ [10%N]
         ++ chars "- User asked about: first question..." ++ [10%N]
         ++ chars "  (Pages: 4, 5)" ++ [10%N]
         ++ chars "- Assistant explained: Title one, Second part" ++ [10%N]
         ++ chars "- Assistant explained: plain answer without headings..." ++ [10%N].
Proof.
  destruct (summary_message_content fallback noon fourHeap 7 fourMessages 100 0)
    as (h' & t & kept & s & sm & Hshape & Hs & Hrole & Hsummary & Honly).
  - vm_compute. reflexivity.
  - vm_compute. reflexivity.
  - exists h', t, kept, s, sm.
    split; [exact Hshape|]. split; [exact Hs|]. split; [exact Hrole|].
    split; [exact Hsummary|]. split; [exact Honly|].
    rewrite (isSummaryOf_unique fourMessages (content sm) Hsummary).
    vm_compute. reflexivity.
Defined.

(** ** Retries *)

Section RetryFacts.

Context {St T E : Type}.

Lemma invocations_app (tr1 tr2 : list (Event T E)) :
  invocations (tr1 ++ tr2) = (invocations tr1 + invocations tr2)%nat.
Proof. unfold invocations. rewrite List.filter_app, length_app. reflexivity. Qed.

Lemma hookCalls_app (tr1 tr2 : list (Event T E)) :
  hookCalls (tr1 ++ tr2) = (hookCalls tr1 + hookCalls tr2)%nat.
Proof. unfold hookCalls. rewrite List.filter_app, length_app. reflexivity. Qed.

Lemma delays_app (tr1 tr2 : list (Event T E)) :
  delays (tr1 ++ tr2) = delays tr1 ++ delays tr2.
Proof.
  induction tr1 as [|ev tr1 IH]; [reflexivity|].
  destruct ev; cbn; rewrite IH; reflexivity.
Qed.

Lemma lastAttempt_app (tr1 tr2 : list (Event T E)) (a : Z * (T + E)) :
  lastAttempt tr2 = Some a -> lastAttempt (tr1 ++ tr2) = Some a.
Proof.
  intros H2. induction tr1 as [|ev tr1 IH]; [exact H2|].
  cbn. rewrite IH. reflexivity.
Qed.

Lemma logged_eq (evs : list (Event T E)) (r : Outcome T E * St * list (Event T E)) :
  logged evs r = (fst (fst r), snd (fst r), evs ++ snd r).
Proof. destruct r as [[o s] tr]. reflexivity. Qed.

Variables (fn : Operation St T E) (maxAttempts initialDelay maxDelay : Z)
          (onRetry : option (Hook St E)).

(** The loop never stops for lack of fuel when it is given one unit
    per remaining attempt. *)
Lemma attempts_fuel (fuel : nat) (attempt : Z) (lastError : option E) (s : St) :
  maxAttempts + 1 <= attempt + Z.of_nat fuel ->
  fst (fst (attempts fn maxAttempts initialDelay maxDelay onRetry
                     fuel attempt lastError s)) <> OutOfFuel.
Proof.
  revert attempt lastError s.
  induction fuel as [|fuel IH]; intros attempt lastError s Hfuel; cbn [attempts].
  - destruct (attempt <=? maxAttempts) eqn:Hle; [lia | discriminate].
  - destruct (attempt <=? maxAttempts) eqn:Hle; [|discriminate].
    destruct (fn s) as [[value|error] s1]; [discriminate|].
    destruct (attempt =? maxAttempts); [discriminate|].
    destruct onRetry as [hook|].
    + destruct (hook attempt error s1) as [[thrown|] s2]; [discriminate|].
      rewrite logged_eq. cbn [fst]. apply IH. lia.
    + rewrite logged_eq. cbn [fst]. apply IH. lia.
Qed.

Hypothesis Hfails : alwaysFails fn.

Hypothesis Hhook : forall hook, onRetry = Some hook -> hookReturns hook.

Lemma attempts_exhaust (fuel : nat) (attempt : Z) (lastError : option E) (s : St) :
  (1 <= fuel)%nat ->
  attempt + Z.of_nat fuel = maxAttempts + 1 ->
  let r := attempts fn maxAttempts initialDelay maxDelay onRetry
                    fuel attempt lastError s in
  invocations (snd r) = fuel
  /\ hookCalls (snd r) = match onRetry with
                         | Some _ => (fuel - 1)%nat
                         | None => 0%nat
                         end
  /\ delays (snd r) = map (fun i => backoff initialDelay maxDelay (attempt + Z.of_nat i))
                          (seq 0 (fuel - 1))
  /\ exists e, lastAttempt (snd r) = Some (maxAttempts, inr e)
               /\ fst (fst r) = Rejected (Some e).
Proof.
  revert attempt lastError s.
  induction fuel as [|fuel IH]; intros attempt lastError s Hpos Hsum; [lia|].
  cbn zeta. cbn [attempts].
  destruct (attempt <=? maxAttempts) eqn:Hle; [|lia].
  destruct (Hfails s) as [error Herr].
  destruct (fn s) as [res s1]. cbn in Herr. subst res.
  destruct (attempt =? maxAttempts) eqn:Heq.
  - assert (fuel = 0%nat) by lia. subst fuel.
    assert (attempt = maxAttempts) by lia. subst attempt.
    cbn. destruct onRetry; repeat split; eauto.
  - assert (Hfuel : (1 <= fuel)%nat) by lia.
    assert (Hshift : map (fun i => backoff initialDelay maxDelay (attempt + Z.of_nat i))
                         (seq 0 (S fuel - 1))
                     = backoff initialDelay maxDelay attempt
                       :: map (fun i => backoff initialDelay maxDelay
                                          (attempt + 1 + Z.of_nat i))
                              (seq 0 (fuel - 1))).
    { replace (S fuel - 1)%nat with (S (fuel - 1)) by lia.
      cbn [seq map]. f_equal; [f_equal; lia|].
      rewrite <- seq_shift, map_map. apply map_ext. intros i. f_equal. lia. }
    destruct onRetry as [hook|] eqn:Hhk.
    + pose proof (Hhook hook eq_refl attempt error s1) as Hret.
      destruct (hook attempt error s1) as [thrown s2]. cbn in Hret. subst thrown.
      rewrite logged_eq. cbn [fst snd].
      destruct (IH (attempt + 1) (Some error) s2 Hfuel ltac:(lia))
        as (Hinv & Hcalls & Hdel & e & Hlast & Hout).
      rewrite invocations_app, hookCalls_app, delays_app, Hinv, Hcalls, Hdel, Hshift.
      repeat split; [cbn; lia| ].
      exists e. split; [apply lastAttempt_app, Hlast | exact Hout].
    + rewrite logged_eq. cbn [fst snd].
      destruct (IH (attempt + 1) (Some error) s1 Hfuel ltac:(lia))
        as (Hinv & Hcalls & Hdel & e & Hlast & Hout).
      rewrite invocations_app, hookCalls_app, delays_app, Hinv, Hcalls, Hdel, Hshift.
      repeat split.
      exists e. split; [apply lastAttempt_app, Hlast | exact Hout].
Qed.

End RetryFacts.

(** [withRetry] always comes to an end: it resolves or rejects. *)
Lemma withRetry_terminates {St T E : Type} (fn : Operation St T E)
    (options : RetryOptions St E) (s : St) :
  fst (fst (withRetry fn options s)) <> OutOfFuel.
Proof. unfold withRetry. apply attempts_fuel. lia. Qed.

(** [withRetry] with the options the chat route gives it. *)
Lemma withRetry_route {St T E : Type} (fn : Operation St T E)
    (maxAttempts initialDelay : Z) (onRetry : option (Hook St E)) (s : St) :
  withRetry fn (mkRetryOptions (Some maxAttempts) (Some initialDelay) None onRetry) s
  = attempts fn maxAttempts initialDelay 10000 onRetry (Z.to_nat maxAttempts) 1 None s.
Proof. reflexivity. Qed.




(** ** The retry predicate *)

(** With the status 429, [shouldRetry] answers [true] only through the
    rules on the name and on the message: no rule on the status does. *)
Lemma shouldRetry_rate_limit (error : JsError) :
  status error = Some 429 ->
  shouldRetry error
  = (nameIs error "AbortError" || nameIs error "TimeoutError"
     || (messageIncludes error "fetch failed" || messageIncludes error "ECONNREFUSED")).
Proof.
  intros Hst. unfold shouldRetry, statusSatisfies. rewrite Hst.
  destruct (nameIs error "AbortError" || nameIs error "TimeoutError"); [reflexivity|].
  destruct (messageIncludes error "fetch failed" || messageIncludes error "ECONNREFUSED");
    reflexivity.
Qed.

(** C3 fails on the code: for a rate-limit failure (status 429, an
    ordinary name and message) [shouldRetry] returns [false]. *)
Theorem shouldRetry_rate_limit_false :
  status tooManyRequests = Some 429 /\ shouldRetry tooManyRequests = false.
Proof. split; reflexivity. Qed.

(** ** The chat route *)

Section BackendFacts.

Variables (cfg : OllamaConfig) (backend : Backend).

(** A retried [fetch] only adds copies of its request to the record of
    requests, when the hook leaves the record alone. *)
Lemma fetch_attempts_log (request : FetchRequest)
    (maxAttempts initialDelay maxDelay : Z)
    (hook : Hook (list FetchRequest) JsError) :
  (forall attempt error log, snd (hook attempt error log) = log) ->
  forall (fuel : nat) (attempt : Z) (lastError : option JsError)
         (log : list FetchRequest),
  exists n,
    snd (fst (attempts (fetch backend request) maxAttempts initialDelay maxDelay
                       (Some hook) fuel attempt lastError log))
    = log ++ repeat request n.
Proof.
  intros Hhook. induction fuel as [|fuel IH]; intros attempt lastError log;
    cbn [attempts].
  - exists 0%nat. rewrite app_nil_r. destruct (attempt <=? maxAttempts); reflexivity.
  - destruct (attempt <=? maxAttempts);
      [|exists 0%nat; rewrite app_nil_r; reflexivity].
    unfold fetch at 1.
    destruct (backend log request) as [response|error];
      [exists 1%nat; reflexivity|].
    destruct (attempt =? maxAttempts); [exists 1%nat; reflexivity|].
    pose proof (Hhook attempt error (log ++ [request])) as Hsame.
    destruct (hook attempt error (log ++ [request])) as [[thrown|] log2];
      cbn in Hsame; subst log2; [exists 1%nat; reflexivity|].
    rewrite logged_eq. cbn [fst snd].
    destruct (IH (attempt + 1) (Some error) (log ++ [request])) as [n Hn].
    exists (S n). rewrite Hn, <- app_assoc. reflexivity.
Qed.

Lemma probeHook_log (attempt : Z) (error : JsError) (log : list FetchRequest) :
  snd (probeHook attempt error log) = log.
Proof. reflexivity. Qed.

Lemma chatHook_log (attempt : Z) (error : JsError) (log : list FetchRequest) :
  snd (chatHook attempt error log) = log.
Proof. unfold chatHook. destruct (negb (shouldRetry error)); reflexivity. Qed.

Lemma rethrown_total (o : Outcome Response JsError) :
  o <> OutOfFuel -> exists r, rethrown cfg o = Some r.
Proof.
  destruct o as [response|[err|]|]; cbn; eauto. intros H. contradiction.
Qed.

Variable ollamaMessages : list OllamaMessage.

(** The backend phase always comes to an end, and the requests it
    makes are connection tests followed by generation requests that
    carry [ollamaMessages]. *)
Lemma backendPhase_run (log : list FetchRequest) :
  exists r n1 n2,
    backendPhase cfg backend ollamaMessages log
    = Some (r, log ++ repeat (tagsRequest cfg) n1
                   ++ repeat (chatRequest cfg ollamaMessages) n2).
Proof.
  unfold backendPhase.
  pose proof (withRetry_terminates (fetch backend (tagsRequest cfg))
                (mkRetryOptions (Some 2) (Some 500) None (Some probeHook)) log) as Hend1.
  destruct (fetch_attempts_log (tagsRequest cfg) 2 500 10000 probeHook probeHook_log
              (Z.to_nat 2) 1 None log) as [n1 Hlog1].
  change (attempts (fetch backend (tagsRequest cfg)) 2 500 10000 (Some probeHook)
                   (Z.to_nat 2) 1 None log)
    with (withRetry (fetch backend (tagsRequest cfg))
            (mkRetryOptions (Some 2) (Some 500) None (Some probeHook)) log) in Hlog1.
  destruct (withRetry (fetch backend (tagsRequest cfg)) _ log) as [[o1 log1] tr1].
  cbn [fst snd] in Hend1, Hlog1. subst log1.
  destruct (rethrown_total o1 Hend1) as [r1 Hr1]. rewrite Hr1.
  assert (Hstop : forall r : jsstring + JsError, exists r' n1' n2,
             Some (r, log ++ repeat (tagsRequest cfg) n1)
             = Some (r', log ++ repeat (tagsRequest cfg) n1'
                             ++ repeat (chatRequest cfg ollamaMessages) n2)).
  { intros r. exists r, n1, 0%nat. cbn. rewrite app_nil_r. reflexivity. }
  destruct r1 as [testResponse|e]; [|apply Hstop].
  destruct (negb (rOk testResponse)); [apply Hstop|].
  destruct (rJson testResponse) as [models|e]; [|apply Hstop].
  destruct (negb _); [apply Hstop|].
  set (opts := mkRetryOptions (Some (retryMaxAttempts (retry cfg)))
                              (Some (retryInitialDelay (retry cfg)))
                              None (Some chatHook)).
  set (log1 := log ++ repeat (tagsRequest cfg) n1).
  pose proof (withRetry_terminates (fetch backend (chatRequest cfg ollamaMessages))
                opts log1) as Hend2.
  destruct (fetch_attempts_log (chatRequest cfg ollamaMessages)
              (retryMaxAttempts (retry cfg)) (retryInitialDelay (retry cfg)) 10000
              chatHook chatHook_log
              (Z.to_nat (retryMaxAttempts (retry cfg))) 1 None log1) as [n2 Hlog2].
  change (attempts (fetch backend (chatRequest cfg ollamaMessages))
                   (retryMaxAttempts (retry cfg)) (retryInitialDelay (retry cfg)) 10000
                   (Some chatHook) (Z.to_nat (retryMaxAttempts (retry cfg))) 1 None log1)
    with (withRetry (fetch backend (chatRequest cfg ollamaMessages)) opts log1) in Hlog2.
  destruct (withRetry (fetch backend (chatRequest cfg ollamaMessages)) opts log1)
    as [[o2 log2] tr2].
  cbn [fst snd] in Hend2, Hlog2. subst log2 log1.
  destruct (rethrown_total o2 Hend2) as [r2 Hr2]. rewrite Hr2.
  rewrite <- app_assoc.
  destruct r2 as [response|e]; [|eauto].
  destruct (negb (rOk response)); [eauto|].
  destruct (rJson response) as [responseData|e]; [|eauto].
  destruct (bjError responseData) as [err|]; [destruct (truthy err)|]; eauto.
Qed.

(** The three ways the backend fails a turn. *)

(** Connection failure: every [fetch] rejects. *)
Lemma backendPhase_connection_failure (log : list FetchRequest) :
  (forall l r, exists e, backend l r = inr e) ->
  exists e log', backendPhase cfg backend ollamaMessages log = Some (inr e, log').
Proof.
  intros Hdown. unfold backendPhase.
  set (r := withRetry (fetch backend (tagsRequest cfg))
              (mkRetryOptions (Some 2) (Some 500) None (Some probeHook)) log).
  assert (Hfails : alwaysFails (fetch backend (tagsRequest cfg))).
  { intros l. unfold fetch. destruct (Hdown l (tagsRequest cfg)) as [e He].
    exists e. rewrite He. reflexivity. }
  assert (Hhook : forall hook, Some probeHook = Some hook -> hookReturns hook).
  { intros hook [= <-] attempt error l. reflexivity. }
  pose proof (attempts_exhaust (fetch backend (tagsRequest cfg)) 2 500 10000
                (Some probeHook) Hfails Hhook (Z.to_nat 2) 1 None log
                ltac:(cbn; lia) ltac:(cbn; lia)) as Hex.
  cbv zeta in Hex.
  change (attempts (fetch backend (tagsRequest cfg)) 2 500 10000 (Some probeHook)
                   (Z.to_nat 2) 1 None log) with r in Hex.
  destruct r as [[o1 log1] tr1].
  destruct Hex as (_ & _ & _ & e & _ & Hout).
  cbn [fst] in Hout. subst o1. cbn [rethrown]. eexists _, _. reflexivity.
Qed.

(** Non-success status: the connection test is answered, but not with
    a success status. *)
Lemma backendPhase_bad_status (log : list FetchRequest) (response : Response) :
  backend log (tagsRequest cfg) = inl response ->
  rOk response = false ->
  backendPhase cfg backend ollamaMessages log
  = Some (inr (newError (lit "Ollama responded with " ++ showInt (rStatus response)
                           ++ lit ": " ++ rStatusText response)),
          log ++ [tagsRequest cfg]).
Proof.
  intros Hresp Hok. unfold backendPhase. rewrite !withRetry_route.
  change (Z.to_nat 2) with 2%nat. cbn [attempts]. unfold fetch at 1.
  rewrite Hresp. cbn. rewrite Hok. reflexivity.
Qed.

(** Error-bearing payload: the model is there and the generation
    request is answered with a success status, but the body has an
    [error]. *)
Lemma backendPhase_error_payload (log : list FetchRequest)
    (testResponse response : Response) (models responseData : BackendJson)
    (names : list jsstring) (err : jsstring) :
  1 <= retryMaxAttempts (retry cfg) ->
  backend log (tagsRequest cfg) = inl testResponse ->
  rOk testResponse = true ->
  rJson testResponse = inl models ->
  bjModels models = Some names ->
  existsb (fun n => eqb n (model cfg)) names = true ->
  backend (log ++ [tagsRequest cfg]) (chatRequest cfg ollamaMessages) = inl response ->
  rOk response = true ->
  rJson response = inl responseData ->
  bjError responseData = Some err ->
  truthy err = true ->
  backendPhase cfg backend ollamaMessages log
  = Some (inr (newError (lit "Ollama error: " ++ err)),
          (log ++ [tagsRequest cfg]) ++ [chatRequest cfg ollamaMessages]).
Proof.
  intros Hmax Hresp1 Hok1 Hjson1 Hmodels Hexists Hresp2 Hok2 Hjson2 Herr Htruthy.
  unfold backendPhase. rewrite !withRetry_route.
  change (Z.to_nat 2) with 2%nat. cbn [attempts]. unfold fetch at 1.
  rewrite Hresp1. change (1 <=? 2) with true. cbv beta iota zeta.
  cbn [rethrown]. rewrite Hok1, Hjson1, Hmodels, Hexists. cbn [negb].
  destruct (Z.to_nat (retryMaxAttempts (retry cfg))) as [|fuel] eqn:Hfuel; [lia|].
  rewrite withRetry_route, Hfuel. cbn [attempts].
  destruct (1 <=? retryMaxAttempts (retry cfg)) eqn:Hle; [|lia].
  unfold fetch at 1. rewrite Hresp2. cbv beta iota zeta. cbn [rethrown].
  rewrite Hok2, Hjson2, Herr, Htruthy. reflexivity.
Qed.

End BackendFacts.

Section PrepareFacts.

Variables (st : Settings) (clock : TurnClock) (tc : TokenCounter)
          (req : TurnRequest).

Let um := newUserMessageOf clock req.

Lemma holds_preserved (h h' : Heap) (b : loc) (ms : list ChatMessage) :
  holds h b ms ->
  arrs h' !! b = arrs h !! b ->
  (forall l m, objs h !! l = Some m -> objs h' !! l = Some m) ->
  holds h' b ms.
Proof.
  intros Hread Harr Hobjs.
  destruct (holds_inv h b ms Hread) as (rs & Hb & HF).
  eapply holds_intro; [rewrite Harr; exact Hb|].
  eapply Forall2_impl; [exact HF | exact Hobjs].
Qed.

Lemma pushTurn_run (h : Heap) (a : loc) (rs : list loc) (msgs : list ChatMessage) :
  arrs h !! a = Some rs ->
  Forall2 (fun l m => objs h !! l = Some m) rs msgs ->
  exists messages h',
    pushTurn st clock tc req a h = Some (messages, h')
    /\ (exists ms, holds h' messages ms)
    /\ holds h' a (msgs ++ [um])
    /\ (forall b, b <> a -> arrs h !! b <> None -> arrs h' !! b = arrs h !! b)
    /\ (forall l m, objs h !! l = Some m -> objs h' !! l = Some m)
    /\ (forall l m, objs h' !! l = Some m ->
                    objs h !! l = Some m \/ m = um \/ role m = system).
Proof.
  intros Harr HF. destruct h as [os ars]. cbn [objs arrs] in *.
  unfold pushTurn, mbind, M_bind, newObject, push. cbn [objs arrs]. rewrite Harr.
  fold um.
  set (u := fresh (dom os)).
  set (h2 := mkHeap (<[u := um]> os) (<[a := rs ++ [u]]> ars)).
  assert (Hold : forall l m, os !! l = Some m -> <[u := um]> os !! l = Some m).
  { intros l m Hl. rewrite lookup_insert_ne; [assumption|].
    intros Heq. eapply fresh_object; [exact Hl|]. symmetry. exact Heq. }
  assert (Harr2 : arrs h2 !! a = Some (rs ++ [u])) by apply lookup_insert_eq.
  assert (HF2 : Forall2 (fun l m => objs h2 !! l = Some m) (rs ++ [u]) (msgs ++ [um])).
  { apply Forall2_app.
    - eapply Forall2_impl; [exact HF | exact Hold].
    - constructor; [apply lookup_insert_eq | constructor]. }
  rewrite (truncateConversation_run tc (summaryClock clock) h2 a
             (rs ++ [u]) (msgs ++ [um]) _ _ Harr2 HF2).
  destruct (getTotalTokenCount tc (msgs ++ [um]) <=? TOKEN_BUFFER_THRESHOLD st).
  - exists a, h2. cbn [fst snd].
    split; [reflexivity|].
    split; [eexists; eapply holds_intro; eassumption|].
    split; [eapply holds_intro; eassumption|].
    split; [intros b Hne _; cbn; rewrite lookup_insert_ne; auto|].
    split; [exact Hold|].
    intros l m. cbn. rewrite lookup_insert. case_decide; [|auto].
    intros [= <-]. auto.
  - cbv zeta. cbn [fst snd].
    set (s := fresh (dom (objs h2))).
    set (t := fresh (dom (arrs h2))).
    set (sm := summaryOf (summaryClock clock) (summarizeOldMessages (msgs ++ [um]))).
    set (k := keptCount tc (MAX_TOKEN_MEMORY st) (msgs ++ [um]) (length (rs ++ [u]))
                (countMessageTokens tc sm)).
    assert (Hold2 : forall l m, objs h2 !! l = Some m -> <[s := sm]> (objs h2) !! l = Some m).
    { intros l m Hl. rewrite lookup_insert_ne; [assumption|].
      intros Heq. eapply fresh_object; [exact Hl|]. symmetry. exact Heq. }
    assert (Hna : a <> t) by (eapply fresh_array; exact Harr2).
    eexists _, _. split; [reflexivity|].
    split.
    { exists (drop (length (rs ++ [u]) - k) (msgs ++ [um]) ++ [sm]).
      eapply holds_intro; [cbn; apply lookup_insert_eq|].
      apply Forall2_app.
      - apply Forall2_drop. eapply Forall2_impl; [exact HF2 | exact Hold2].
      - constructor; [apply lookup_insert_eq | constructor]. }
    split.
    { eapply holds_intro.
      - cbn. rewrite lookup_insert_ne by congruence. exact Harr2.
      - eapply Forall2_impl; [exact HF2 | exact Hold2]. }
    split.
    { intros b Hne Hsome. cbn. rewrite lookup_insert_ne.
      - rewrite lookup_insert_ne; auto.
      - intros Heq. destruct (ars !! b) as [xs|] eqn:Hb; [|contradiction].
        eapply (fresh_array (arrs h2) b xs); [|symmetry; exact Heq].
        cbn. rewrite lookup_insert_ne; auto. }
    split; [intros l m Hl; apply Hold2, Hold, Hl|].
    intros l m. cbn. rewrite lookup_insert. case_decide.
    + intros [= <-]. right. right. reflexivity.
    + rewrite lookup_insert. case_decide; [|auto]. intros [= <-]. auto.
Qed.

Lemma prepare_run (sessions : gmap jsstring loc) (h : Heap) :
  (forall a, sessions !! chatId req = Some a -> exists msgs, holds h a msgs) ->
  exists messages h',
    prepare st clock tc req sessions h = Some (messages, h')
    /\ (exists ms, holds h' messages ms)
    /\ (forall a msgs, sessions !! chatId req = Some a -> holds h a msgs ->
                       holds h' a (msgs ++ [um]))
    /\ (forall b ms, holds h b ms -> sessions !! chatId req <> Some b ->
                     holds h' b ms)
    /\ (forall l m, objs h !! l = Some m -> objs h' !! l = Some m)
    /\ (forall l m, objs h' !! l = Some m ->
                    objs h !! l = Some m \/ m = um \/ role m = system).
Proof.
  intros Hvalid.
  unfold prepare, sessionArray, mbind, M_bind.
  destruct (sessions !! chatId req) as [a|] eqn:Hsess.
  - destruct (Hvalid a eq_refl) as [msgs Hread].
    destruct (holds_inv h a msgs Hread) as (rs & Harr & HF).
    destruct (pushTurn_run h a rs msgs Harr HF)
      as (messages & h' & Hrun & Hsome & Hheld & Harrs & Hobjs & Hnew).
    exists messages, h'. cbn. fold um. rewrite Hrun.
    split; [reflexivity|]. split; [exact Hsome|].
    split.
    { intros a' msgs' [= <-] Hread'. unfold holds in Hread, Hread'.
      rewrite Hread in Hread'. injection Hread' as <-. exact Hheld. }
    split.
    { intros b ms Hb Hne. eapply holds_preserved; [exact Hb| |exact Hobjs].
      apply Harrs; [congruence|].
      destruct (holds_inv h b ms Hb) as (xs & Hxs & _). congruence. }
    split; assumption.
  - destruct h as [os ars]. unfold newArray. cbn [objs arrs].
    set (a := fresh (dom ars)).
    destruct (pushTurn_run (mkHeap os (<[a := []]> ars)) a [] []
                (lookup_insert_eq _ _ _) ltac:(constructor))
      as (messages & h' & Hrun & Hsome & Hheld & Harrs & Hobjs & Hnew).
    exists messages, h'. rewrite Hrun.
    split; [reflexivity|]. split; [exact Hsome|].
    split; [intros a' msgs' [=]|].
    split.
    { intros b ms Hb _.
      destruct (holds_inv _ b ms Hb) as (xs & Hxs & _). cbn [arrs] in Hxs.
      assert (Hba : b <> a) by (eapply fresh_array; exact Hxs).
      eapply holds_preserved; [exact Hb| |exact Hobjs].
      cbn [arrs]. rewrite (Harrs b Hba).
      - cbn. apply lookup_insert_ne. congruence.
      - cbn. rewrite lookup_insert_ne by congruence. congruence. }
    split; assumption.
Qed.

End PrepareFacts.

Section TurnFacts.

Variables (st : Settings) (backend : Backend) (clock : TurnClock)
          (tc : TokenCounter) (req : TurnRequest) (w : World).

Hypothesis Hvalid : sessionsValid w.

Let cfg := OLLAMA_CONFIG st.
Let um := newUserMessageOf clock req.

(** A turn always delivers its stream: the content and the completion
    marker when the backend phase gives the assistant's text, the
    error and the completion marker when it throws. *)
Lemma POST_run :
  exists messages h r n1 n2 w',
    prepare st clock tc req (chatSessions w) (heap w) = Some (messages, h)
    /\ backendPhase cfg backend (ollamaMessagesOf req) (requests w)
       = Some (r, requests w ++ repeat (tagsRequest cfg) n1
                    ++ repeat (chatRequest cfg (ollamaMessagesOf req)) n2)
    /\ requests w' = requests w ++ repeat (tagsRequest cfg) n1
                       ++ repeat (chatRequest cfg (ollamaMessagesOf req)) n2
    /\ match r with
       | inl text =>
           POST st backend clock tc req w
           = Some ([ContentChunk text true; DoneMarker], w')
           /\ chatSessions w' = <[chatId req := messages]> (chatSessions w)
       | inr error =>
           POST st backend clock tc req w
           = Some ([ErrorChunk (message error) (lit "ollama_error")
                               (baseUrl cfg) (model cfg); DoneMarker], w')
           /\ chatSessions w' = chatSessions w
           /\ heap w' = h
       end.
Proof.
  destruct (prepare_run st clock tc req (chatSessions w) (heap w))
    as (messages & h & Hprep & [ms Hms] & _).
  { intros a Ha. eapply Hvalid, Ha. }
  destruct (holds_inv h messages ms Hms) as (xs & Hxs & _).
  destruct (backendPhase_run cfg backend (ollamaMessagesOf req) (requests w))
    as (r & n1 & n2 & Hphase).
  unfold POST, start. rewrite Hprep. cbn [heap chatSessions requests].
  fold cfg. rewrite Hphase.
  destruct r as [text|error].
  - unfold mbind, M_bind, newObject, push. cbn [objs arrs]. rewrite Hxs.
    eexists messages, h, (inl text), n1, n2, _.
    split; [reflexivity|]. split; [reflexivity|].
    split; [|split; reflexivity]. reflexivity.
  - eexists messages, h, (inr error), n1, n2, _.
    split; [reflexivity|]. split; [reflexivity|].
    split; [|repeat split; reflexivity]. reflexivity.
Qed.

(** A turn whose backend phase gives the assistant's text: the content
    chunk and the completion marker, and the session is stored with the
    assistant message after the messages the handler held. *)
Lemma POST_success (text : jsstring) (log : list FetchRequest) :
  backendPhase cfg backend (ollamaMessagesOf req) (requests w) = Some (inl text, log) ->
  exists w' messages h ms am,
    prepare st clock tc req (chatSessions w) (heap w) = Some (messages, h)
    /\ holds h messages ms
    /\ POST st backend clock tc req w
       = Some ([ContentChunk text true; DoneMarker], w')
    /\ role am = assistant
    /\ content am = text
    /\ sessionMessages w' (chatId req) = Some (ms ++ [am]).
Proof.
  intros Hphase.
  destruct (prepare_run st clock tc req (chatSessions w) (heap w))
    as (messages & h & Hprep & [ms Hms] & _).
  { intros a Ha. eapply Hvalid, Ha. }
  destruct (holds_inv h messages ms Hms) as (xs & Hxs & HF).
  unfold POST, start. rewrite Hprep. cbn [heap chatSessions requests].
  fold cfg. rewrite Hphase.
  unfold mbind, M_bind, newObject, push. cbn [objs arrs]. rewrite Hxs.
  eexists _, messages, h, ms, (assistantMessageOf clock req text).
  split; [reflexivity|]. split; [exact Hms|]. split; [reflexivity|].
  split; [reflexivity|]. split; [reflexivity|].
  unfold sessionMessages. cbn [chatSessions heap]. rewrite lookup_insert_eq.
  set (l := fresh (dom (objs h))).
  match goal with
  | |- context [readMessages messages ?h'] =>
      assert (Hread : holds h' messages (ms ++ [assistantMessageOf clock req text]))
  end.
  { eapply holds_intro; [cbn; apply lookup_insert_eq|].
    apply Forall2_app.
    - eapply Forall2_impl; [exact HF|]. intros r m Hr. cbn.
      rewrite lookup_insert_ne; [exact Hr|].
      intros Heq. eapply fresh_object; [exact Hr|]. symmetry. exact Heq.
    - constructor; [cbn; apply lookup_insert_eq | constructor]. }
  unfold holds in Hread. rewrite Hread. reflexivity.
Qed.

(** A turn whose backend phase throws: one error chunk and the
    completion marker; the table of sessions is as before, a session
    that was stored holds its earlier messages followed by the user
    message, and no assistant message has been created. *)
Lemma POST_failure (error : JsError) (log : list FetchRequest) :
  backendPhase cfg backend (ollamaMessagesOf req) (requests w) = Some (inr error, log) ->
  exists w',
    POST st backend clock tc req w
    = Some ([ErrorChunk (message error) (lit "ollama_error")
                        (baseUrl cfg) (model cfg); DoneMarker], w')
    /\ chatSessions w' = chatSessions w
    /\ (forall a msgs, chatSessions w !! chatId req = Some a ->
                       holds (heap w) a msgs ->
                       sessionMessages w' (chatId req) = Some (msgs ++ [um]))
    /\ (chatSessions w !! chatId req = None ->
        sessionMessages w' (chatId req) = None)
    /\ (forall l m, objs (heap w') !! l = Some m -> role m = assistant ->
                    objs (heap w) !! l = Some m).
Proof.
  intros Hphase.
  destruct (prepare_run st clock tc req (chatSessions w) (heap w))
    as (messages & h & Hprep & _ & Hheld & _ & _ & Hnew).
  { intros a Ha. eapply Hvalid, Ha. }
  unfold POST, start. rewrite Hprep. cbn [heap chatSessions requests].
  fold cfg. rewrite Hphase.
  eexists. split; [reflexivity|]. cbn [chatSessions heap].
  split; [reflexivity|].
  split.
  { intros a msgs Ha Hread. unfold sessionMessages. cbn [chatSessions heap].
    rewrite Ha. specialize (Hheld a msgs Ha Hread). unfold holds in Hheld.
    rewrite Hheld. reflexivity. }
  split.
  { intros Hnone. unfold sessionMessages. cbn [chatSessions]. rewrite Hnone.
    reflexivity. }
  intros l m Hl Hrole. destruct (Hnew l m Hl) as [Hin | [-> | Hsys]];
    [assumption | discriminate | congruence].
Qed.


End TurnFacts.

Lemma freshWorld_valid : sessionsValid freshWorld.
Proof. intros cid a Hsess. cbn in Hsess. rewrite lookup_empty in Hsess. discriminate. Qed.

Lemma storedWorld_valid : sessionsValid storedWorld.
Proof.
  intros cid a Hsess. cbn [storedWorld chatSessions] in Hsess.
  apply lookup_singleton_Some in Hsess as [_ <-].
  exists [hiMessage]. vm_compute. reflexivity.
Qed.

Example turn_on_stored_session :
  exists chunks w',
    POST exampleSettings upBackend exampleClock fallback firstTurn storedWorld
    = Some (chunks, w')
    /\ chunks = [ContentChunk (lit "# Summary") true; DoneMarker]
    /\ map frBody (requests w')
       = [None;
          Some (mkChatBody (lit "qwen2.5vl:3b")
                  [mkOllamaMessage system SYSTEM_PROMPT None;
                   mkOllamaMessage user (lit "Explain this page") None]
                  false 32768 2000)]
    /\ (role <$> default [] (sessionMessages w' (lit "chat-1")))
       = [user; user; assistant].
Proof.
  eexists _, _. split; [vm_compute; reflexivity|].
  split; [reflexivity|]. split; vm_compute; reflexivity.
Qed.

(** C6 fails on the code for the first turn of a session: the backend
    refuses the connection, the stream delivers one error chunk and the
    completion marker, and no assistant message exists, but the session
    is not stored, so the in-memory session does not contain the user
    message. *)
Theorem chat_failure_first_turn :
  exists w',
    POST exampleSettings downBackend exampleClock fallback firstTurn freshWorld
    = Some ([ErrorChunk
               (Some (lit "Cannot connect to Ollama. Please ensure Ollama is running with: ollama serve"))
               (lit "ollama_error") (lit "http://localhost:11434") (lit "qwen2.5vl:3b");
             DoneMarker], w')
    /\ chatSessions w' !! chatId firstTurn = None
    /\ sessionMessages w' (chatId firstTurn) = None
    /\ sessionMessages w' (chatId firstTurn)
       <> Some [newUserMessageOf exampleClock firstTurn].
Proof.
  eexists. split; [vm_compute; reflexivity|].
  split; [vm_compute; reflexivity|].
  split; [vm_compute; reflexivity|].
  vm_compute. discriminate.
Qed.

(** * Further properties *)

(** ** Token counts *)

Lemma sumZ_costs (tc : TokenCounter) (msgs : list ChatMessage) :
  getTotalTokenCount tc msgs = sumZ (map (countMessageTokens tc) msgs).
Proof.
  induction msgs as [|m msgs IH]; [reflexivity|].
  rewrite getTotalTokenCount_cons, IH. reflexivity.
Qed.

Lemma countMessageTokens_cost (tc : TokenCounter) (m : ChatMessage) :
  countMessageTokens tc m = messageCost tc m.
Proof. unfold countMessageTokens, messageCost. destruct (images m); lia. Qed.

(** X1. The total cost of a list is the sum, message by message, of the
    text count, 1000 per image and 4 of overhead; it is additive over
    concatenation and is at least 4 per message, whatever tokenizer is
    loaded. *)
Theorem total_tokens_additive (tc : TokenCounter) (l1 l2 : list ChatMessage) :
  getTotalTokenCount tc (l1 ++ l2)
  = getTotalTokenCount tc l1 + getTotalTokenCount tc l2
  /\ getTotalTokenCount tc l1 = sumZ (map (messageCost tc) l1)
  /\ 4 * Z.of_nat (length l1) <= getTotalTokenCount tc l1.
Proof.
  split; [apply getTotalTokenCount_app|]. split.
  - rewrite sumZ_costs. f_equal. apply map_ext. apply countMessageTokens_cost.
  - induction l1 as [|m l1 IH]; [reflexivity|].
    rewrite getTotalTokenCount_cons. cbn [length].
    pose proof (countMessageTokens_lower tc m). lia.
Qed.

Lemma Qceiling_fraction (n : Z) (d : positive) :
  Qceiling (n # d) = (n + Z.pos d - 1) / Z.pos d.
Proof.
  unfold Qceiling, Qfloor, Qopp. cbn [Qnum Qden].
  pose proof (Z.div_mod (- n) (Z.pos d) ltac:(lia)) as H1.
  pose proof (Z.mod_pos_bound (- n) (Z.pos d) ltac:(lia)) as H2.
  apply Z.div_unique with (r := Z.pos d - 1 - (- n) mod Z.pos d); lia.
Qed.

Lemma Qceiling_max (a b : Q) :
  Qceiling (Qmax a b) = Z.max (Qceiling a) (Qceiling b).
Proof.
  destruct (Q.max_spec a b) as [[Hlt Heq] | [Hle Heq]];
    apply Qceiling_comp in Heq; rewrite Heq.
  - symmetry. apply Z.max_r, Qceiling_resp_le, Qlt_le_weak, Hlt.
  - symmetry. apply Z.max_l, Qceiling_resp_le, Hle.
Qed.

Lemma splitWhitespaceFrom_length (inSep : bool) (cur s : jsstring) :
  (length (splitWhitespaceFrom inSep cur s) <= length s + 1)%nat.
Proof.
  revert inSep cur. induction s as [|c s IH]; intros inSep cur; cbn; [lia|].
  destruct (isWhiteSpace c); [destruct inSep|]; cbn.
  - specialize (IH true cur). lia.
  - specialize (IH true []). lia.
  - specialize (IH false (c :: cur)). lia.
Qed.

Lemma estimateTokens_formula (text : jsstring) :
  estimateTokens text
  = Z.max ((13 * Z.of_nat (length (splitWhitespace text)) + 9) / 10)
          ((Z.of_nat (length text) + 3) / 4).
Proof.
  unfold estimateTokens. rewrite Qceiling_max. f_equal.
  - unfold wordBasedEstimate, Qmult, inject_Z. cbn [Qnum Qden Pos.mul].
    rewrite Qceiling_fraction. f_equal. lia.
  - unfold charBasedEstimate, Qdiv, Qmult, Qinv, inject_Z. cbn [Qnum Qden Pos.mul].
    rewrite Qceiling_fraction. f_equal. lia.
Qed.

(** X2. The heuristic estimate is the larger of [ceil(1.3 * words)] and
    [ceil(chars / 4)], in integers; so it never counts fewer than a
    quarter of the code units, is at least 2, and grows at most linearly
    with the length of the text. *)
Theorem estimateTokens_bounds (text : jsstring) :
  let words := Z.of_nat (length (splitWhitespace text)) in
  let chars := Z.of_nat (length text) in
  countTokens fallback text = Z.max ((13 * words + 9) / 10) ((chars + 3) / 4)
  /\ chars <= 4 * countTokens fallback text
  /\ 13 * words <= 10 * countTokens fallback text
  /\ 2 <= countTokens fallback text
  /\ 10 * countTokens fallback text <= 13 * chars + 22.
Proof.
  cbv zeta. change (countTokens fallback text) with (estimateTokens text).
  rewrite estimateTokens_formula.
  pose proof (splitWhitespaceFrom_nonempty false [] text) as Hw1.
  pose proof (splitWhitespaceFrom_length false [] text) as Hw2.
  fold (splitWhitespace text) in Hw1, Hw2.
  set (w := Z.of_nat (length (splitWhitespace text))).
  set (c := Z.of_nat (length text)).
  assert (Hw : 1 <= w <= c + 1) by (unfold w, c; lia).
  pose proof (Z.div_mod (13 * w + 9) 10 ltac:(lia)) as D1.
  pose proof (Z.mod_pos_bound (13 * w + 9) 10 ltac:(lia)) as B1.
  pose proof (Z.div_mod (c + 3) 4 ltac:(lia)) as D2.
  pose proof (Z.mod_pos_bound (c + 3) 4 ltac:(lia)) as B2.
  repeat split; lia.
Qed.

(** ** The summary *)

(** X3. The summary reads the first three messages only: any message
    after them, kept or dropped, leaves the summary unchanged. *)
Theorem summary_ignores_later_messages (l rest : list ChatMessage) :
  summarizeOldMessages (firstn 3 l) = summarizeOldMessages l
  /\ ((3 <= length l)%nat ->
      summarizeOldMessages (l ++ rest) = summarizeOldMessages l).
Proof.
  unfold summarizeOldMessages. split.
  - rewrite firstn_firstn, length_firstn. f_equal. f_equal. lia.
  - intros Hlen. rewrite firstn_app, length_app.
    replace (Nat.min 3 (length l + length rest)) with 3%nat by lia.
    replace (Nat.min 3 (length l)) with 3%nat by lia.
    replace (3 - length l)%nat with 0%nat by lia.
    cbn [firstn]. rewrite app_nil_r. reflexivity.
Qed.

Lemma summary_ignores_later_messages_witness :
  summarizeOldMessages ([hiMessage; hiMessage; hiMessage] ++ [hiMessage])
  = summarizeOldMessages [hiMessage; hiMessage; hiMessage].
Proof.
  apply (summary_ignores_later_messages [hiMessage; hiMessage; hiMessage] [hiMessage]).
  cbn. lia.
Defined.

Lemma splitOnFrom_no_sep (sep : N) (s cur : jsstring) :
  ~ In sep cur ->
  Forall (fun piece => ~ In sep piece) (splitOnFrom sep cur s).
Proof.
  revert cur. induction s as [|c s IH]; intros cur Hcur; cbn.
  - constructor; [|constructor]. rewrite <- in_rev. exact Hcur.
  - destruct (c =? sep)%N eqn:Hc.
    + constructor; [rewrite <- in_rev; exact Hcur|]. apply IH. intros [].
    + apply IH. intros [Heq | Hin]; [|auto].
      apply N.eqb_neq in Hc. congruence.
Qed.

Lemma skipHashes_incl (s : jsstring) (x : N) : In x (skipHashes s) -> In x s.
Proof.
  induction s as [|c s IH]; [intros []|]. cbn.
  destruct (c =? HASH)%N; [right; auto | auto].
Qed.

Lemma matchHeading_incl (line rest : jsstring) (x : N) :
  matchHeading line = Some rest -> In x rest -> In x line.
Proof.
  destruct line as [|c s]; [discriminate|]. cbn.
  destruct (c =? HASH)%N; [|discriminate].
  destruct (skipHashes s) as [|w rest'] eqn:Hskip; [discriminate|].
  destruct (isWhiteSpace w); [|discriminate].
  intros [= <-] Hin. right. apply skipHashes_incl. rewrite Hskip. right. exact Hin.
Qed.

Lemma join_avoids (x : N) (sep : jsstring) (parts : list jsstring) :
  ~ In x sep ->
  Forall (fun piece => ~ In x piece) parts ->
  ~ In x (join sep parts).
Proof.
  intros Hsep. induction 1 as [|p parts Hp Hparts IH]; [intros []|].
  cbn. destruct parts as [|q parts]; [exact Hp|].
  rewrite !in_app_iff. tauto.
Qed.

Lemma markdownHeadings_no_LF (content : jsstring) :
  Forall (fun piece => ~ In LF piece) (markdownHeadings content).
Proof.
  unfold markdownHeadings.
  assert (Hlines : Forall (fun piece => ~ In LF piece)
                          (List.filter nonBlank (splitOn LF content))).
  { apply List.Forall_forall. intros p Hp. apply filter_In in Hp as [Hp _].
    revert p Hp. apply List.Forall_forall. apply splitOnFrom_no_sep. intros []. }
  induction Hlines as [|line lines Hline _ IH]; [constructor|].
  cbn [omap list_omap]. destruct (matchHeading line) as [rest|] eqn:Hm; [|exact IH].
  constructor; [|exact IH].
  intros Hin. apply Hline. eapply matchHeading_incl; eassumption.
Qed.

(** X4. When some line of the content is a markdown heading,
    [extractKeyPoints] gives the texts of the first three headings,
    separated by a comma and a space, and the result holds no line
    feed; when no line is a heading, it gives the first 150 code units
    of the content followed by three dots, at most 153 code units. *)
Theorem key_points_shape (content : jsstring) (ls hs : list jsstring) :
  linesOf content ls ->
  headingTexts ls hs ->
  (hs <> [] ->
   extractKeyPoints content = commaSeparated (take 3 hs)
   /\ 10%N ∉ extractKeyPoints content)
  /\ (hs = [] ->
      extractKeyPoints content = take 150 content ++ chars "..."
      /\ (length (extractKeyPoints content) <= 153)%nat).
Proof.
  intros Hls Hhs.
  pose proof (extractKeyPoints_headings content ls hs Hls Hhs) as Hkey.
  assert (Hmd : markdownHeadings content = hs).
  { unfold markdownHeadings. rewrite headings_of_nonBlank.
    rewrite <- (linesOf_unique _ _ Hls). symmetry. apply headingTexts_unique, Hhs. }
  split.
  - intros Hne. split; [destruct hs; [contradiction | exact Hkey]|].
    rewrite list_elem_of_In, extractKeyPoints_keyPoints. unfold keyPoints.
    pose proof (markdownHeadings_no_LF content) as Hall.
    rewrite Hmd in *.
    destruct hs as [|hd hds]; [contradiction|].
    cbn [firstn]. apply join_avoids.
    + cbn. unfold LF. intros [H|[H|[]]]; discriminate.
    + inversion Hall as [|? ? Hhd Hhds]; subst. constructor; [exact Hhd|].
      apply Forall_take, Hhds.
  - intros ->. split; [exact Hkey|]. rewrite Hkey.
    rewrite length_app, length_firstn. change (length (chars "...")) with 3%nat. lia.
Qed.

Lemma key_points_shape_witness :
  extractKeyPoints headedContent = chars "Alpha, Beta, Gamma"
  /\ 10%N ∉ extractKeyPoints headedContent.
Proof.
  assert (Hno : forall l : jsstring, bool_decide (10%N ∉ l) = true -> 10%N ∉ l)
    by (intros l Hl; apply bool_decide_eq_true in Hl; exact Hl).
  assert (Hws : 32%N ∈ whiteSpaceCodes) by (unfold whiteSpaceCodes; repeat constructor).
  destruct (key_points_shape headedContent
              [chars "intro"; chars "# Alpha"; chars "## Beta"; chars "### Gamma";
               chars "#### Delta"]
              [chars "Alpha"; chars "Beta"; chars "Gamma"; chars "Delta"])
    as [Hheadings _].
  - unfold headedContent.
    repeat (apply lines_cons; [apply Hno; vm_compute; reflexivity|]).
    apply lines_last. apply Hno. vm_compute. reflexivity.
  - apply headings_other.
    { intros heading (n & w & Hn & _ & Heq).
      destruct n as [|n]; [lia | cbn in Heq; discriminate]. }
    apply headings_heading; [exists 1%nat, 32%N; repeat split; [lia | exact Hws]|].
    apply headings_heading; [exists 2%nat, 32%N; repeat split; [lia | exact Hws]|].
    apply headings_heading; [exists 3%nat, 32%N; repeat split; [lia | exact Hws]|].
    apply headings_heading; [exists 4%nat, 32%N; repeat split; [lia | exact Hws]|].
    apply headings_nil.
  - exact (Hheadings ltac:(discriminate)).
Defined.

(** ** More on truncation *)

Lemma keptCount_all (tc : TokenCounter) (maxTokens : Z) (msgs : list ChatMessage)
    (n : nat) (cur : Z) :
  (n <= length msgs)%nat ->
  cur + getTotalTokenCount tc (take n msgs) <= maxTokens ->
  keptCount tc maxTokens msgs n cur = n.
Proof.
  revert cur. induction n as [|i IH]; intros cur Hn Hfit; [reflexivity|].
  assert (Hi : (i < length msgs)%nat) by lia.
  destruct (lookup_lt_is_Some_2 msgs i Hi) as [m Hm].
  rewrite (take_S_r msgs i m Hm), getTotalTokenCount_app, getTotalTokenCount_cons in Hfit.
  change (getTotalTokenCount tc []) with 0 in Hfit.
  pose proof (getTotalTokenCount_nonneg tc (take i msgs)) as Hnn.
  cbn [keptCount]. rewrite Hm.
  destruct (cur + countMessageTokens tc m >? maxTokens) eqn:Hcmp; [lia|].
  rewrite IH; [reflexivity | lia | lia].
Qed.

Lemma keptCount_none (tc : TokenCounter) (maxTokens : Z) (msgs : list ChatMessage)
    (m : ChatMessage) (cur : Z) :
  last msgs = Some m ->
  maxTokens < cur + countMessageTokens tc m ->
  keptCount tc maxTokens msgs (length msgs) cur = 0%nat.
Proof.
  intros Hlast Hover. rewrite last_lookup in Hlast.
  destruct (length msgs) as [|i] eqn:Hlen; [reflexivity|].
  cbn [Nat.pred] in Hlast. cbn [keptCount]. rewrite Hlast.
  destruct (cur + countMessageTokens tc m >? maxTokens) eqn:Hcmp; [reflexivity | lia].
Qed.

(** X5. When the call truncates, the summary message is the last
    element of the returned list, after the messages that are kept, and
    the list has between 1 and [N + 1] elements. *)
Theorem truncated_summary_last (tc : TokenCounter) (clock : Clock)
    (h : Heap) (a : loc) (msgs : list ChatMessage) (maxTokens bufferThreshold : Z) :
  holds h a msgs ->
  bufferThreshold < getTotalTokenCount tc msgs ->
  exists h' t res s,
    truncateConversation tc clock a maxTokens bufferThreshold h = Some ((t, true), h')
    /\ arrs h' !! t = Some res
    /\ last res = Some s
    /\ objs h !! s = None
    /\ objs h' !! s = Some (summaryOf clock (summarizeOldMessages msgs))
    /\ (1 <= length res <= length msgs + 1)%nat.
Proof.
  intros Hread Hover.
  destruct (holds_inv h a msgs Hread) as (rs & Harr & HF).
  destruct (truncation_shape tc clock h a rs msgs maxTokens bufferThreshold
              Harr HF Hover) as (Hrun & Hres & Hfresh).
  eexists _, _, _, _. split; [exact Hrun|]. split; [exact Hres|].
  split; [apply last_snoc|]. split; [exact Hfresh|].
  split; [apply lookup_insert_eq|].
  rewrite length_app, length_drop, <- (Forall2_length _ _ _ HF). cbn. lia.
Qed.

Lemma truncated_summary_last_witness :
  exists h' t res s,
    truncateConversation fallback noon 7 60 0 threeHeap = Some ((t, true), h')
    /\ arrs h' !! t = Some res
    /\ last res = Some s
    /\ objs threeHeap !! s = None
    /\ objs h' !! s
       = Some (summaryOf noon (summarizeOldMessages
                 [mkChatMessage (lit "m1") user (lit "first question") None (Some [4; 5]) 1;
                  mkChatMessage (lit "m2") assistant
                    (lit "# Title one" ++ [LF] ++ lit "body text") None None 2;
                  mkChatMessage (lit "m3") user (lit "third") None None 3]))
    /\ (1 <= length res <= 3 + 1)%nat.
Proof.
  apply (truncated_summary_last fallback noon threeHeap 7
           [mkChatMessage (lit "m1") user (lit "first question") None (Some [4; 5]) 1;
            mkChatMessage (lit "m2") assistant
              (lit "# Title one" ++ [LF] ++ lit "body text") None None 2;
            mkChatMessage (lit "m3") user (lit "third") None None 3] 60 0).
  - vm_compute. reflexivity.
  - vm_compute. reflexivity.
Defined.

(** X6. When the whole list fits after the summary, nothing is dropped:
    the result is the input followed by the summary message, one
    element longer than the input. *)
Theorem truncate_keeps_all_when_fits (tc : TokenCounter) (clock : Clock)
    (h : Heap) (a : loc) (rs : list loc) (msgs : list ChatMessage)
    (maxTokens bufferThreshold : Z) :
  arrs h !! a = Some rs ->
  holds h a msgs ->
  bufferThreshold < getTotalTokenCount tc msgs ->
  countMessageTokens tc (summaryOf clock (summarizeOldMessages msgs))
    + getTotalTokenCount tc msgs <= maxTokens ->
  exists h' t s,
    truncatesTo tc clock h a maxTokens bufferThreshold h' t rs s
    /\ arrs h' !! t = Some (rs ++ [s])
    /\ length (rs ++ [s]) = S (length msgs).
Proof.
  intros Harr Hread Hover Hfit.
  pose proof (holds_objects h a rs msgs Harr Hread) as HF.
  pose proof (truncation_shape tc clock h a rs msgs maxTokens bufferThreshold
                Harr HF Hover) as Hshape.
  pose proof (Forall2_length _ _ _ HF) as Hlen.
  rewrite Hlen, keptCount_all, Nat.sub_diag in Hshape;
    [| lia | rewrite take_ge by lia; exact Hfit].
  cbn [drop] in Hshape.
  eexists _, _, _. split; [exact Hshape|].
  split; [apply Hshape|]. rewrite length_app. cbn. lia.
Qed.

Lemma truncate_keeps_all_when_fits_witness :
  exists h' t s,
    truncatesTo fallback noon hiHeap 1 100 0 h' t [1%positive] s
    /\ arrs h' !! t = Some ([1%positive] ++ [s])
    /\ length ([1%positive] ++ [s]) = S (length [hiMessage]).
Proof.
  apply (truncate_keeps_all_when_fits fallback noon hiHeap 1 [1%positive] [hiMessage] 100 0).
  - reflexivity.
  - vm_compute. reflexivity.
  - vm_compute. reflexivity.
  - vm_compute. discriminate.
Defined.

(** X7. When the newest message does not fit after the summary, the
    result is the summary message alone, also when the summary by
    itself exceeds [maxTokens]. *)
Theorem truncate_summary_alone (tc : TokenCounter) (clock : Clock)
    (h : Heap) (a : loc) (msgs : list ChatMessage) (m : ChatMessage)
    (maxTokens bufferThreshold : Z) :
  holds h a msgs ->
  bufferThreshold < getTotalTokenCount tc msgs ->
  last msgs = Some m ->
  maxTokens < countMessageTokens tc (summaryOf clock (summarizeOldMessages msgs))
              + countMessageTokens tc m ->
  exists h' t s,
    truncatesTo tc clock h a maxTokens bufferThreshold h' t [] s
    /\ arrs h' !! t = Some [s]
    /\ objs h' !! s = Some (summaryOf clock (summarizeOldMessages msgs)).
Proof.
  intros Hread Hover Hlast Hbig.
  destruct (holds_inv h a msgs Hread) as (rs & Harr & HF).
  pose proof (truncation_shape tc clock h a rs msgs maxTokens bufferThreshold
                Harr HF Hover) as Hshape.
  pose proof (Forall2_length _ _ _ HF) as Hlen.
  rewrite Hlen, (keptCount_none tc maxTokens msgs m _ Hlast Hbig), Nat.sub_0_r in Hshape.
  rewrite <- Hlen, drop_all in Hshape.
  eexists _, _, _. split; [exact Hshape|].
  split; [apply Hshape|]. apply lookup_insert_eq.
Qed.

Lemma truncate_summary_alone_witness :
  exists h' t s,
    truncatesTo fallback noon hiHeap 1 6 0 h' t [] s
    /\ arrs h' !! t = Some [s]
    /\ objs h' !! s = Some (summaryOf noon (summarizeOldMessages [hiMessage])).
Proof.
  apply (truncate_summary_alone fallback noon hiHeap 1 [hiMessage] hiMessage 6 0).
  - vm_compute. reflexivity.
  - vm_compute. reflexivity.
  - reflexivity.
  - vm_compute. reflexivity.
Defined.

(** X8. The walk is greedy from the newest message: when a message is
    kept, the summary and the kept messages together cost at most
    [maxTokens]; when a message is left out, the newest of those left
    out would have exceeded [maxTokens] on top of them. *)
Theorem truncate_greedy (tc : TokenCounter) (clock : Clock)
    (h : Heap) (a : loc) (msgs : list ChatMessage) (maxTokens bufferThreshold : Z) :
  holds h a msgs ->
  bufferThreshold < getTotalTokenCount tc msgs ->
  exists h' t kept s keptMsgs,
    truncatesTo tc clock h a maxTokens bufferThreshold h' t kept s
    /\ getObjects kept h' = Some (keptMsgs, h')
    /\ (kept <> [] ->
        countMessageTokens tc (summaryOf clock (summarizeOldMessages msgs))
          + getTotalTokenCount tc keptMsgs <= maxTokens)
    /\ ((length kept < length msgs)%nat ->
        exists m,
          msgs !! (length msgs - length kept - 1)%nat = Some m
          /\ maxTokens
             < countMessageTokens tc (summaryOf clock (summarizeOldMessages msgs))
               + getTotalTokenCount tc keptMsgs + countMessageTokens tc m).
Proof.
  intros Hread Hover.
  destruct (holds_inv h a msgs Hread) as (rs & Harr & HF).
  pose proof (truncation_shape tc clock h a rs msgs maxTokens bufferThreshold
                Harr HF Hover) as Hshape.
  pose proof (kept_messages tc clock h rs msgs maxTokens HF) as Hget.
  eexists _, _, _, _, _. split; [exact Hshape|]. split; [exact Hget|]. split.
  - intros Hne.
    eapply truncate_total_within_budget; eassumption.
  - intros Hless.
    eapply truncate_stops_at_first_overflow; eassumption.
Qed.

Lemma truncate_greedy_witness :
  exists h' t kept s keptMsgs,
    truncatesTo fallback noon threeHeap 7 60 0 h' t kept s
    /\ getObjects kept h' = Some (keptMsgs, h')
    /\ (kept <> [] ->
        countMessageTokens fallback
          (summaryOf noon (summarizeOldMessages
             [mkChatMessage (lit "m1") user (lit "first question") None (Some [4; 5]) 1;
              mkChatMessage (lit "m2") assistant
                (lit "# Title one" ++ [LF] ++ lit "body text") None None 2;
              mkChatMessage (lit "m3") user (lit "third") None None 3]))
          + getTotalTokenCount fallback keptMsgs <= 60)
    /\ ((length kept < 3)%nat ->
        exists m,
          [mkChatMessage (lit "m1") user (lit "first question") None (Some [4; 5]) 1;
           mkChatMessage (lit "m2") assistant
             (lit "# Title one" ++ [LF] ++ lit "body text") None None 2;
           mkChatMessage (lit "m3") user (lit "third") None None 3]
            !! (3 - length kept - 1)%nat = Some m
          /\ 60 < countMessageTokens fallback
                    (summaryOf noon (summarizeOldMessages
                       [mkChatMessage (lit "m1") user (lit "first question") None
                          (Some [4; 5]) 1;
                        mkChatMessage (lit "m2") assistant
                          (lit "# Title one" ++ [LF] ++ lit "body text") None None 2;
                        mkChatMessage (lit "m3") user (lit "third") None None 3]))
                  + getTotalTokenCount fallback keptMsgs + countMessageTokens fallback m).
Proof.
  apply (truncate_greedy fallback noon threeHeap 7
           [mkChatMessage (lit "m1") user (lit "first question") None (Some [4; 5]) 1;
            mkChatMessage (lit "m2") assistant
              (lit "# Title one" ++ [LF] ++ lit "body text") None None 2;
            mkChatMessage (lit "m3") user (lit "third") None None 3] 60 0).
  - vm_compute. reflexivity.
  - vm_compute. reflexivity.
Defined.

(** ** More on retries *)

(** X9. [shouldRetry] answers [true] exactly for a timeout or abort, a
    network failure named in the message, or a status of 500 or more;
    every status below 500, 429 included, and a missing status are not
    retried unless the name or the message says so. *)
Theorem shouldRetry_characterised (error : JsError) :
  shouldRetry error
  = (nameIs error "AbortError" || nameIs error "TimeoutError"
     || (messageIncludes error "fetch failed" || messageIncludes error "ECONNREFUSED")
     || statusSatisfies error (fun st => 500 <=? st)).
Proof.
  unfold shouldRetry, statusSatisfies.
  destruct (nameIs error "AbortError" || nameIs error "TimeoutError"); [reflexivity|].
  destruct (messageIncludes error "fetch failed" || messageIncludes error "ECONNREFUSED");
    [reflexivity|].
  cbn [orb]. destruct (status error) as [st|]; [|reflexivity].
  destruct (st =? 503) eqn:H503; [symmetry; apply Z.leb_le; lia|].
  destruct (400 <=? st) eqn:H400, (st <? 500) eqn:H500, (st =? 429) eqn:H429,
           (500 <=? st) eqn:Hge; cbn; try reflexivity; lia.
Qed.

Section RetryRunFacts.

Context {St T E : Type}.

Variables (fn : Operation St T E) (maxAttempts initialDelay maxDelay : Z)
          (onRetry : option (Hook St E)).

Lemma attempts_succeed (j : nat) :
  forall (fuel : nat) (attempt : Z) (lastError : option E) (s s' : St) (v : T),
    succeedsAfter fn onRetry j attempt s v s' ->
    attempt + Z.of_nat j <= maxAttempts ->
    (j < fuel)%nat ->
    let r := attempts fn maxAttempts initialDelay maxDelay onRetry
                      fuel attempt lastError s in
    fst (fst r) = Resolved v
    /\ snd (fst r) = s'
    /\ invocations (snd r) = Datatypes.S j
    /\ hookCalls (snd r) = match onRetry with
                           | Some _ => j
                           | None => 0%nat
                           end
    /\ delays (snd r) = map (fun i => backoff initialDelay maxDelay (attempt + Z.of_nat i))
                            (seq 0 j).
Proof.
  induction j as [|j IH]; intros fuel attempt lastError s s' v Hrun Hmax Hfuel;
    (destruct fuel as [|fuel]; [lia|]); cbn zeta; cbn [attempts];
    (destruct (attempt <=? maxAttempts) eqn:Hle; [|lia]).
  - cbn in Hrun. rewrite Hrun. cbn. destruct onRetry; repeat split; reflexivity.
  - destruct Hrun as (e & s1 & s2 & Hfn & Hhook & Hrest). rewrite Hfn.
    destruct (attempt =? maxAttempts) eqn:Heq; [lia|].
    assert (Hshift : map (fun i => backoff initialDelay maxDelay (attempt + Z.of_nat i))
                         (seq 0 (Datatypes.S j))
                     = backoff initialDelay maxDelay attempt
                       :: map (fun i => backoff initialDelay maxDelay
                                          (attempt + 1 + Z.of_nat i))
                              (seq 0 j)).
    { cbn [seq map]. f_equal; [f_equal; lia|].
      rewrite <- seq_shift, map_map. apply map_ext. intros i. f_equal. lia. }
    specialize (IH fuel (attempt + 1) (Some e) s2 s' v Hrest ltac:(lia) ltac:(lia)).
    cbv zeta in IH. destruct IH as (Hout & Hst & Hinv & Hcalls & Hdel).
    unfold hookStep in Hhook. destruct onRetry as [hook|].
    + rewrite Hhook, logged_eq. cbn [fst snd].
      rewrite invocations_app, hookCalls_app, delays_app, Hinv, Hcalls, Hdel, Hshift.
      repeat split; assumption.
    + injection Hhook as <-. rewrite logged_eq. cbn [fst snd].
      rewrite invocations_app, hookCalls_app, delays_app, Hinv, Hcalls, Hdel, Hshift.
      repeat split; assumption.
Qed.

(** What holds of every run of the loop. *)
Lemma attempts_invariants (fuel : nat) :
  forall (attempt : Z) (lastError : option E) (s : St),
    let r := attempts fn maxAttempts initialDelay maxDelay onRetry
                      fuel attempt lastError s in
    (invocations (snd r) <= fuel)%nat
    /\ (hookCalls (snd r) <= invocations (snd r))%nat
    /\ (length (delays (snd r)) <= invocations (snd r))%nat
    /\ Forall (fun d => d <= maxDelay) (delays (snd r))
    /\ match fst (fst r) with
       | Resolved v =>
           exists pre i, snd r = pre ++ [Attempt i (inl v)] /\ failuresOnly pre
       | _ => failuresOnly (snd r)
       end.
Proof.
  induction fuel as [|fuel IH]; intros attempt lastError s; cbn zeta; cbn [attempts].
  - destruct (attempt <=? maxAttempts); cbn; repeat split; try lia; constructor.
  - destruct (attempt <=? maxAttempts);
      [|cbn; repeat split; try lia; constructor].
    destruct (fn s) as [[v|e] s1].
    + cbn. repeat split; try lia; [constructor|].
      exists [], attempt. split; [reflexivity | constructor].
    + destruct (attempt =? maxAttempts).
      { cbn. repeat split; try lia; [constructor|].
        constructor; [exact I | constructor]. }
      assert (Hstep : forall evs s2,
                 (invocations evs = 1)%nat -> (hookCalls evs <= 1)%nat ->
                 delays evs = [backoff initialDelay maxDelay attempt] ->
                 failuresOnly evs ->
                 let r := logged evs
                            (attempts fn maxAttempts initialDelay maxDelay onRetry
                                      fuel (attempt + 1) (Some e) s2) in
                 (invocations (snd r) <= Datatypes.S fuel)%nat
                 /\ (hookCalls (snd r) <= invocations (snd r))%nat
                 /\ (length (delays (snd r)) <= invocations (snd r))%nat
                 /\ Forall (fun d => d <= maxDelay) (delays (snd r))
                 /\ match fst (fst r) with
                    | Resolved v =>
                        exists pre i, snd r = pre ++ [Attempt i (inl v)]
                                      /\ failuresOnly pre
                    | _ => failuresOnly (snd r)
                    end).
      { intros evs s2 Hi Hh Hd Hf. cbv zeta. rewrite logged_eq. cbn [fst snd].
        specialize (IH (attempt + 1) (Some e) s2). cbv zeta in IH.
        destruct IH as (Hinv & Hcalls & Hlen & Hdel & Hstruct).
        rewrite invocations_app, hookCalls_app, delays_app, length_app, Hi, Hd.
        repeat split; try (cbn; lia).
        - constructor; [unfold backoff; lia | exact Hdel].
        - destruct (fst (fst (attempts fn maxAttempts initialDelay maxDelay onRetry
                                       fuel (attempt + 1) (Some e) s2))) as [v| |].
          + destruct Hstruct as (pre & i & Htr & Hpre).
            exists (evs ++ pre), i. rewrite Htr, app_assoc.
            split; [reflexivity | apply Forall_app; split; assumption].
          + apply Forall_app; split; assumption.
          + apply Forall_app; split; assumption. }
      destruct onRetry as [hook|].
      * destruct (hook attempt e s1) as [[thrown|] s2].
        { cbn. repeat split; try lia; [constructor|].
          repeat constructor. }
        apply Hstep; first [reflexivity | cbn; lia | repeat constructor].
      * apply Hstep; first [reflexivity | cbn; lia | repeat constructor].
Qed.

End RetryRunFacts.

(** X10. An operation that fails [j] times and then succeeds, with
    [j < maxAttempts] and a hook that returns each time: [withRetry]
    resolves with that result after [j + 1] calls, [j] calls of the
    hook and the first [j] backoff waits, and makes no further call. *)
Theorem withRetry_succeeds_after {St T E : Type} (fn : Operation St T E)
    (options : RetryOptions St E) (j : nat) (s s' : St) (v : T) :
  succeedsAfter fn (onRetry options) j 1 s v s' ->
  Z.of_nat j < default 3 (maxAttempts options) ->
  let r := withRetry fn options s in
  fst (fst r) = Resolved v
  /\ snd (fst r) = s'
  /\ invocations (snd r) = Datatypes.S j
  /\ hookCalls (snd r) = match onRetry options with
                         | Some _ => j
                         | None => 0%nat
                         end
  /\ delays (snd r)
     = map (fun i => Z.min (default 1000 (initialDelay options) * 2 ^ (Z.of_nat i - 1))
                           (default 10000 (maxDelay options)))
           (seq 1 j).
Proof.
  intros Hrun Hmax. cbv zeta. unfold withRetry.
  destruct (attempts_succeed fn (default 3 (maxAttempts options))
              (default 1000 (initialDelay options))
              (default 10000 (maxDelay options)) (onRetry options) j
              (Z.to_nat (default 3 (maxAttempts options))) 1 None s s' v
              Hrun ltac:(lia) ltac:(lia))
    as (Hout & Hst & Hinv & Hcalls & Hdel).
  repeat split; try assumption.
  rewrite Hdel, <- seq_shift, map_map. apply map_ext. intros i.
  unfold backoff. do 3 f_equal. lia.
Qed.

Lemma withRetry_succeeds_after_witness :
  let r := withRetry thirdTimeLucky
             (mkRetryOptions (Some 3) (Some 500) (Some 800) (Some counting)) 0%nat in
  fst (fst r) = Resolved 2%nat
  /\ snd (fst r) = 3%nat
  /\ invocations (snd r) = 3%nat
  /\ hookCalls (snd r) = 2%nat
  /\ delays (snd r)
     = map (fun i => Z.min (500 * 2 ^ (Z.of_nat i - 1)) 800) (seq 1 2).
Proof.
  apply (withRetry_succeeds_after thirdTimeLucky
           (mkRetryOptions (Some 3) (Some 500) (Some 800) (Some counting))
           2 0%nat 3%nat 2%nat).
  - cbn. eexists _, _, _. split; [reflexivity|]. split; [reflexivity|].
    eexists _, _, _. split; [reflexivity|]. split; reflexivity.
  - reflexivity.
Defined.

(** X11. With [maxAttempts] of zero or less the operation is never
    called: [withRetry] rejects at once with [undefined] (the initial
    [lastError]), without a hook call or a wait, and leaves the world
    as it was. *)
Theorem withRetry_no_attempts {St T E : Type} (fn : Operation St T E)
    (options : RetryOptions St E) (s : St) :
  default 3 (maxAttempts options) <= 0 ->
  withRetry fn options s = (Rejected None, s, []).
Proof.
  intros Hmax. unfold withRetry.
  replace (Z.to_nat (default 3 (maxAttempts options))) with 0%nat by lia.
  cbn [attempts].
  destruct (1 <=? default 3 (maxAttempts options)) eqn:Hle; [lia | reflexivity].
Qed.

Lemma withRetry_no_attempts_witness :
  withRetry failing (mkRetryOptions (Some 0) None None (Some observing)) tt
  = (Rejected None, tt, []).
Proof.
  apply (withRetry_no_attempts failing
           (mkRetryOptions (Some 0) None None (Some observing)) tt).
  cbn. lia.
Defined.

(** X12. Whatever the operation and the hook do, [withRetry] calls the
    operation at most [maxAttempts] times, calls the hook and waits at
    most once per call, never waits longer than [maxDelay], and ends by
    resolving or rejecting. *)
Theorem withRetry_bounds {St T E : Type} (fn : Operation St T E)
    (options : RetryOptions St E) (s : St) :
  let r := withRetry fn options s in
  (invocations (snd r) <= Z.to_nat (default 3%Z (maxAttempts options)))%nat
  /\ (hookCalls (snd r) <= invocations (snd r))%nat
  /\ (length (delays (snd r)) <= invocations (snd r))%nat
  /\ Forall (fun d => d <= default 10000 (maxDelay options)) (delays (snd r))
  /\ fst (fst r) <> OutOfFuel.
Proof.
  cbv zeta.
  pose proof (attempts_invariants fn (default 3 (maxAttempts options))
                (default 1000 (initialDelay options))
                (default 10000 (maxDelay options)) (onRetry options)
                (Z.to_nat (default 3 (maxAttempts options))) 1 None s) as Hinv.
  cbv zeta in Hinv. destruct Hinv as (H1 & H2 & H3 & H4 & _).
  unfold withRetry. repeat split; try assumption.
  apply attempts_fuel. lia.
Qed.

(** X13. A success ends the run: when [withRetry] resolves with [v], the
    last thing it did was a call of the operation that returned [v],
    and every earlier call had failed; when it rejects, no call has
    succeeded. *)
Theorem withRetry_stops_at_success {St T E : Type} (fn : Operation St T E)
    (options : RetryOptions St E) (s : St) :
  let r := withRetry fn options s in
  match fst (fst r) with
  | Resolved v =>
      exists pre i, snd r = pre ++ [Attempt i (inl v)] /\ failuresOnly pre
  | _ => failuresOnly (snd r)
  end.
Proof.
  cbv zeta.
  pose proof (attempts_invariants fn (default 3 (maxAttempts options))
                (default 1000 (initialDelay options))
                (default 10000 (maxDelay options)) (onRetry options)
                (Z.to_nat (default 3 (maxAttempts options))) 1 None s) as Hinv.
  cbv zeta in Hinv. destruct Hinv as (_ & _ & _ & _ & Hstruct).
  exact Hstruct.
Qed.

(** ** Error texts *)

(** X14. [getOllamaErrorMessage] never returns an empty text.  An error
    it classifies as a timeout by its name, or as a connection failure
    by [fetch failed] or [ECONNREFUSED] in its message, is answered with
    one of the two fixed texts and is an error [shouldRetry] accepts.
    The converse fails: an error whose own message is the connection
    text is answered with that text and is not retried. *)
Theorem getOllamaErrorMessage_nonempty (cfg : OllamaConfig) (error : JsError) :
  truthy (getOllamaErrorMessage cfg error) = true
  /\ (nameIs error "AbortError" || nameIs error "TimeoutError"
      || (messageIncludes error "fetch failed" || messageIncludes error "ECONNREFUSED")
      = true ->
      shouldRetry error = true
      /\ (getOllamaErrorMessage cfg error
          = lit "Request to Ollama timed out. The model might be loading. Please try again in a moment."
          \/ getOllamaErrorMessage cfg error
             = lit "Cannot connect to Ollama. Please ensure Ollama is running with: ollama serve"))
  /\ (exists other,
        getOllamaErrorMessage cfg other
        = lit "Cannot connect to Ollama. Please ensure Ollama is running with: ollama serve"
        /\ shouldRetry other = false).
Proof.
  split; [|split].
  - unfold getOllamaErrorMessage, orElse.
    destruct (nameIs error "AbortError" || nameIs error "TimeoutError"); [reflexivity|].
    destruct (messageIncludes error "fetch failed" || messageIncludes error "ECONNREFUSED");
      [reflexivity|].
    destruct (messageIncludes error "model not found"); [reflexivity|].
    destruct (message error) as [m|]; [|reflexivity].
    destruct (truthy m) eqn:Hm; [exact Hm | reflexivity].
  - intros Hclass. split.
    + unfold shouldRetry.
      destruct (nameIs error "AbortError" || nameIs error "TimeoutError"); [reflexivity|].
      cbn [orb] in Hclass. rewrite Hclass. reflexivity.
    + unfold getOllamaErrorMessage.
      destruct (nameIs error "AbortError" || nameIs error "TimeoutError"); [left; reflexivity|].
      cbn [orb] in Hclass. rewrite Hclass. right. reflexivity.
  - exists (newError (lit "Cannot connect to Ollama. Please ensure Ollama is running with: ollama serve")).
    split; vm_compute; reflexivity.
Qed.

(** ** [truncateMessages] *)

Section TruncateMessagesFacts.

Variables (tc : TokenCounter) (msgs : list ChatMessage) (maxTokens : Z).

Let nonSystem (m : ChatMessage) : bool := negb (isSystem m).

Lemma truncateMessagesLoop_run (n : nat) :
  forall (totalTokens : Z) (acc : list ChatMessage),
    (n <= length msgs)%nat ->
    exists kept,
      truncateMessagesLoop tc msgs maxTokens n totalTokens acc = kept ++ acc
      /\ kept `suffix_of` List.filter nonSystem (take n msgs)
      /\ totalTokens + sumZ (map (messageTokensOf tc) kept)
         <= Z.max totalTokens maxTokens
      /\ (maxTokens < totalTokens -> kept = []).
Proof.
  assert (Hcost : forall m, 0 <= messageTokensOf tc m).
  { intros m. unfold messageTokensOf.
    pose proof (countTokens_nonneg tc (content m)). destruct (images m); lia. }
  induction n as [|i IH]; intros totalTokens acc Hn.
  - exists []. cbn. rewrite take_0. split; [reflexivity|]. split; [done|].
    split; [lia | reflexivity].
  - assert (Hi : (i < length msgs)%nat) by lia.
    destruct (lookup_lt_is_Some_2 msgs i Hi) as [m Hm].
    cbn [truncateMessagesLoop]. rewrite Hm.
    rewrite (take_S_r msgs i m Hm), List.filter_app. cbn [List.filter].
    unfold nonSystem at 2. destruct (isSystem m) eqn:Hsys; cbn [negb].
    + rewrite app_nil_r. apply IH. lia.
    + destruct (totalTokens + messageTokensOf tc m >? maxTokens) eqn:Hcmp.
      * exists []. split; [reflexivity|]. split; [apply suffix_nil|].
        split; [cbn; lia | reflexivity].
      * destruct (IH (totalTokens + messageTokensOf tc m) (m :: acc) ltac:(lia))
          as (kept & Hrun & Hsuf & Hsum & _).
        exists (kept ++ [m]). rewrite Hrun, <- app_assoc.
        split; [reflexivity|]. split; [apply suffix_app, Hsuf|].
        split; [|pose proof (Hcost m); lia].
        rewrite map_app. unfold sumZ in *. rewrite fold_right_app. cbn [map fold_right].
        assert (Hshift : forall l z, fold_right Z.add z l = fold_right Z.add 0 l + z).
        { clear. induction l as [|x l IHl]; intros z; cbn; [lia|]. rewrite IHl. lia. }
        rewrite Hshift. lia.
Qed.

End TruncateMessagesFacts.

(** X15. [truncateMessages] returns a run of the newest messages that
    are not system messages, in their order, followed by the first
    system message of the input when there is one: the system message
    comes last, and no other system message is kept. *)
Theorem truncateMessages_shape (tc : TokenCounter) (msgs : list ChatMessage)
    (maxTokens : Z) :
  exists kept,
    truncateMessages tc msgs maxTokens
    = kept ++ match List.find isSystem msgs with
              | Some sm => [sm]
              | None => []
              end
    /\ kept `suffix_of` List.filter (fun m => negb (isSystem m)) msgs
    /\ Forall (fun m => isSystem m = false) kept.
Proof.
  unfold truncateMessages.
  destruct (List.find isSystem msgs) as [sm|].
  - destruct (truncateMessagesLoop_run tc msgs maxTokens (length msgs)
                (0 + countTokens tc (content sm)) [sm] ltac:(lia))
      as (kept & Hrun & Hsuf & _).
    rewrite take_ge in Hsuf by lia.
    exists kept. split; [exact Hrun|]. split; [exact Hsuf|].
    apply List.Forall_forall. intros m Hin.
    destruct Hsuf as [pre Hpre].
    assert (Hin' : In m (List.filter (fun m => negb (isSystem m)) msgs)).
    { rewrite Hpre. apply in_or_app. right. exact Hin. }
    apply filter_In in Hin' as [_ Hns]. destruct (isSystem m); [discriminate | reflexivity].
  - destruct (truncateMessagesLoop_run tc msgs maxTokens (length msgs) 0 [] ltac:(lia))
      as (kept & Hrun & Hsuf & _).
    rewrite take_ge in Hsuf by lia.
    exists kept. split; [exact Hrun|]. split; [exact Hsuf|].
    apply List.Forall_forall. intros m Hin.
    destruct Hsuf as [pre Hpre].
    assert (Hin' : In m (List.filter (fun m => negb (isSystem m)) msgs)).
    { rewrite Hpre. apply in_or_app. right. exact Hin. }
    apply filter_In in Hin' as [_ Hns]. destruct (isSystem m); [discriminate | reflexivity].
Qed.

(** X16. What [truncateMessages] returns costs, as the function counts
    it (the text of the system message, and for every other message its
    text plus a flat 1000 when it has images), at most the larger of
    [maxTokens] and the cost of the system message, which is 0 when
    there is none.  When that cost is above [maxTokens], as it is for
    every negative [maxTokens], no other message is returned: the
    result is the system message alone, or empty. *)
Theorem truncateMessages_budget (tc : TokenCounter) (msgs : list ChatMessage)
    (maxTokens : Z) :
  let systemTokens := match List.find isSystem msgs with
                      | Some sm => countTokens tc (content sm)
                      | None => 0
                      end in
  let systemMessage := match List.find isSystem msgs with
                       | Some sm => [sm]
                       | None => []
                       end in
  exists kept,
    truncateMessages tc msgs maxTokens = kept ++ systemMessage
    /\ systemTokens + sumZ (map (messageTokensOf tc) kept)
       <= Z.max systemTokens maxTokens
    /\ 0 <= systemTokens
    /\ (maxTokens < systemTokens ->
        kept = [] /\ truncateMessages tc msgs maxTokens = systemMessage).
Proof.
  cbv zeta. unfold truncateMessages.
  destruct (List.find isSystem msgs) as [sm|];
    [pose proof (countTokens_nonneg tc (content sm)) as Hnn|].
  - destruct (truncateMessagesLoop_run tc msgs maxTokens (length msgs)
                (0 + countTokens tc (content sm)) [sm] ltac:(lia))
      as (kept & Hrun & _ & Hsum & Hover).
    exists kept. split; [exact Hrun|]. split; [lia|]. split; [lia|].
    intros Hlt. assert (Hnil : kept = []) by (apply Hover; lia).
    split; [exact Hnil|]. rewrite Hrun, Hnil. reflexivity.
  - destruct (truncateMessagesLoop_run tc msgs maxTokens (length msgs) 0 [] ltac:(lia))
      as (kept & Hrun & _ & Hsum & Hover).
    exists kept. split; [exact Hrun|]. split; [lia|]. split; [lia|].
    intros Hlt. assert (Hnil : kept = []) by (apply Hover; lia).
    split; [exact Hnil|]. rewrite Hrun, Hnil. reflexivity.
Qed.

(** ** More on the chat route *)

Section RequestCounts.

Variables (cfg : OllamaConfig) (backend : Backend).

(** A retried [fetch] records one copy of its request per call. *)
Lemma fetch_attempts_calls (request : FetchRequest)
    (maxAttempts initialDelay maxDelay : Z)
    (hook : Hook (list FetchRequest) JsError) :
  (forall attempt error log, snd (hook attempt error log) = log) ->
  forall (fuel : nat) (attempt : Z) (lastError : option JsError)
         (log : list FetchRequest),
    let r := attempts (fetch backend request) maxAttempts initialDelay maxDelay
                      (Some hook) fuel attempt lastError log in
    snd (fst r) = log ++ repeat request (invocations (snd r))
    /\ (attempt <= maxAttempts -> (1 <= fuel)%nat -> (1 <= invocations (snd r))%nat).
Proof.
  intros Hhook.
  assert (Hop : forall log, fetch backend request log
                            = (backend log request, log ++ [request]))
    by reflexivity.
  generalize dependent (fetch backend request). intros op Hop.
  induction fuel as [|fuel IH]; intros attempt lastError log;
    cbv zeta; cbn [attempts].
  - destruct (attempt <=? maxAttempts); cbn; rewrite app_nil_r; split; auto; lia.
  - destruct (attempt <=? maxAttempts) eqn:Hle;
      [|cbn; rewrite app_nil_r; split; [reflexivity | lia]].
    rewrite Hop.
    destruct (backend log request) as [response|error];
      [cbn; split; [reflexivity | lia]|].
    destruct (attempt =? maxAttempts); [cbn; split; [reflexivity | lia]|].
    pose proof (Hhook attempt error (log ++ [request])) as Hsame.
    destruct (hook attempt error (log ++ [request])) as [[thrown|] log2];
      cbn in Hsame; subst log2; [cbn; split; [reflexivity | lia]|].
    rewrite logged_eq. cbn [fst snd].
    destruct (IH (attempt + 1) (Some error) (log ++ [request])) as [Hlog _].
    rewrite Hlog, invocations_app, <- app_assoc. cbn. split; [reflexivity | lia].
Qed.

Variable ollamaMessages : list OllamaMessage.

(** The requests of the backend phase, counted. *)
Lemma backendPhase_counts (log : list FetchRequest) :
  exists r n1 n2,
    backendPhase cfg backend ollamaMessages log
    = Some (r, log ++ repeat (tagsRequest cfg) n1
                   ++ repeat (chatRequest cfg ollamaMessages) n2)
    /\ (1 <= n1 <= 2)%nat
    /\ (n2 <= Z.to_nat (retryMaxAttempts (retry cfg)))%nat
    /\ ((exists content, r = inl content) -> (1 <= n2)%nat).
Proof.
  unfold backendPhase. rewrite withRetry_route.
  pose proof (attempts_fuel (fetch backend (tagsRequest cfg)) 2 500 10000
                (Some probeHook) (Z.to_nat 2) 1 None log ltac:(lia)) as Hend1.
  pose proof (fetch_attempts_calls (tagsRequest cfg) 2 500 10000 probeHook
                probeHook_log (Z.to_nat 2) 1 None log) as Hlog1.
  pose proof (attempts_invariants (fetch backend (tagsRequest cfg)) 2 500 10000
                (Some probeHook) (Z.to_nat 2) 1 None log) as Hinv1.
  cbv zeta in Hlog1, Hinv1.
  destruct (attempts (fetch backend (tagsRequest cfg)) 2 500 10000 (Some probeHook)
                     (Z.to_nat 2) 1 None log) as [[o1 log1] tr1].
  cbn [fst snd] in Hend1, Hlog1, Hinv1.
  destruct Hlog1 as [Hlog1 Hone]. destruct Hinv1 as (Hle1 & _).
  specialize (Hone ltac:(lia) ltac:(cbn; lia)).
  assert (Hn1 : (1 <= invocations tr1 <= 2)%nat) by (split; [exact Hone | exact Hle1]).
  subst log1. set (n1 := invocations tr1) in *.
  destruct (rethrown_total cfg o1 Hend1) as [r1 Hr1]. rewrite Hr1.
  assert (Hstop : forall e : JsError, exists r' n1' n2,
             Some (inr e : jsstring + JsError, log ++ repeat (tagsRequest cfg) n1)
             = Some (r', log ++ repeat (tagsRequest cfg) n1'
                             ++ repeat (chatRequest cfg ollamaMessages) n2)
             /\ (1 <= n1' <= 2)%nat
             /\ (n2 <= Z.to_nat (retryMaxAttempts (retry cfg)))%nat
             /\ ((exists content, r' = inl content) -> (1 <= n2)%nat)).
  { intros e. exists (inr e), n1, 0%nat. cbn. rewrite app_nil_r.
    split; [reflexivity|]. split; [exact Hn1|]. split; [lia|].
    intros [content [=]]. }
  destruct r1 as [testResponse|e]; [|apply Hstop].
  destruct (negb (rOk testResponse)); [apply Hstop|].
  destruct (rJson testResponse) as [models|e]; [|apply Hstop].
  destruct (negb _); [apply Hstop|].
  rewrite withRetry_route.
  set (log1 := log ++ repeat (tagsRequest cfg) n1).
  pose proof (attempts_fuel (fetch backend (chatRequest cfg ollamaMessages))
                (retryMaxAttempts (retry cfg)) (retryInitialDelay (retry cfg)) 10000
                (Some chatHook) (Z.to_nat (retryMaxAttempts (retry cfg))) 1 None log1
                ltac:(lia)) as Hend2.
  pose proof (fetch_attempts_calls (chatRequest cfg ollamaMessages)
                (retryMaxAttempts (retry cfg)) (retryInitialDelay (retry cfg)) 10000
                chatHook chatHook_log
                (Z.to_nat (retryMaxAttempts (retry cfg))) 1 None log1) as Hlog2.
  pose proof (attempts_invariants (fetch backend (chatRequest cfg ollamaMessages))
                (retryMaxAttempts (retry cfg)) (retryInitialDelay (retry cfg)) 10000
                (Some chatHook) (Z.to_nat (retryMaxAttempts (retry cfg))) 1 None log1)
    as Hinv2.
  cbv zeta in Hlog2, Hinv2.
  destruct (attempts (fetch backend (chatRequest cfg ollamaMessages))
                     (retryMaxAttempts (retry cfg)) (retryInitialDelay (retry cfg)) 10000
                     (Some chatHook) (Z.to_nat (retryMaxAttempts (retry cfg))) 1 None log1)
    as [[o2 log2] tr2].
  cbn [fst snd] in Hend2, Hlog2, Hinv2.
  destruct Hlog2 as [Hlog2 _]. destruct Hinv2 as (Hle2 & _ & _ & _ & Hlast2).
  subst log2 log1.
  rewrite <- app_assoc.
  assert (Hdone : forall r : jsstring + JsError,
             ((exists content, r = inl content) -> (1 <= invocations tr2)%nat) ->
             exists r' n1' n2,
               Some (r, log ++ repeat (tagsRequest cfg) n1
                            ++ repeat (chatRequest cfg ollamaMessages) (invocations tr2))
               = Some (r', log ++ repeat (tagsRequest cfg) n1'
                               ++ repeat (chatRequest cfg ollamaMessages) n2)
               /\ (1 <= n1' <= 2)%nat
               /\ (n2 <= Z.to_nat (retryMaxAttempts (retry cfg)))%nat
               /\ ((exists content, r' = inl content) -> (1 <= n2)%nat)).
  { intros r Hr. exists r, n1, (invocations tr2). split; [reflexivity|].
    split; [exact Hn1|]. split; [exact Hle2 | exact Hr]. }
  assert (Hfail : forall e : JsError,
             (exists content, (inr e : jsstring + JsError) = inl content) ->
             (1 <= invocations tr2)%nat) by (intros e [content [=]]).
  destruct o2 as [response|[e|]|]; cbn [rethrown]; [| | |contradiction];
    [|apply Hdone, Hfail | apply Hdone, Hfail].
  assert (Hcalled : (1 <= invocations tr2)%nat).
  { destruct Hlast2 as (pre & i & -> & _). rewrite invocations_app. cbn. lia. }
  destruct (negb (rOk response)); [apply Hdone; intros _; exact Hcalled|].
  destruct (rJson response) as [responseData|e];
    [|apply Hdone; intros _; exact Hcalled].
  destruct (bjError responseData) as [err|]; [destruct (truthy err)|];
    apply Hdone; intros _; exact Hcalled.
Qed.

End RequestCounts.

Section TurnOutcomes.

Variables (st : Settings) (backend : Backend) (clock : TurnClock)
          (tc : TokenCounter) (req : TurnRequest) (w : World).

Hypothesis Hvalid : sessionsValid w.

Let cfg := OLLAMA_CONFIG st.

(** The turn, from the result of its backend phase. *)
Lemma POST_of_phase (r : jsstring + JsError) (log : list FetchRequest) :
  backendPhase cfg backend (ollamaMessagesOf req) (requests w) = Some (r, log) ->
  exists w',
    POST st backend clock tc req w = Some (streamOf cfg r, w')
    /\ requests w' = log
    /\ (forall e, r = inr e -> chatSessions w' = chatSessions w).
Proof.
  intros Hphase.
  destruct (prepare_run st clock tc req (chatSessions w) (heap w))
    as (messages & h & Hprep & [ms Hms] & _).
  { intros a Ha. eapply Hvalid, Ha. }
  destruct (holds_inv h messages ms Hms) as (xs & Hxs & _).
  unfold POST, start. rewrite Hprep. cbn [heap chatSessions requests].
  fold cfg. rewrite Hphase.
  destruct r as [text|error].
  - unfold mbind, M_bind, newObject, push. cbn [objs arrs]. rewrite Hxs.
    eexists. split; [reflexivity|]. split; [reflexivity|]. intros e [=].
  - eexists. split; [reflexivity|]. split; [reflexivity|]. reflexivity.
Qed.

(** The backend phase when the connection test finds the model
    missing. *)
Lemma backendPhase_model_missing (log : list FetchRequest)
    (resp : Response) (models : BackendJson) :
  backend log (tagsRequest cfg) = inl resp ->
  rOk resp = true ->
  rJson resp = inl models ->
  modelListed cfg models = false ->
  backendPhase cfg backend (ollamaMessagesOf req) log
  = Some (inr (newError (lit "Model " ++ model cfg
                           ++ lit " not found. Please pull it with: ollama pull "
                           ++ model cfg)),
          log ++ [tagsRequest cfg]).
Proof.
  intros Hresp Hok Hjson Hlisted.
  unfold backendPhase. rewrite withRetry_route.
  change (Z.to_nat 2) with 2%nat. cbn [attempts]. unfold fetch at 1.
  rewrite Hresp. change (1 <=? 2) with true. cbv beta iota zeta.
  cbn [rethrown]. rewrite Hok, Hjson. unfold modelListed in Hlisted.
  cbn [negb]. cbv zeta. rewrite Hlisted. reflexivity.
Qed.

(** The backend phase when the first generation request fails with an
    error that is not retryable. *)
Lemma backendPhase_not_retryable (log : list FetchRequest)
    (resp : Response) (models : BackendJson) (e : JsError) :
  backend log (tagsRequest cfg) = inl resp ->
  rOk resp = true ->
  rJson resp = inl models ->
  modelListed cfg models = true ->
  1 <= retryMaxAttempts (retry cfg) ->
  backend (log ++ [tagsRequest cfg]) (chatRequest cfg (ollamaMessagesOf req)) = inr e ->
  shouldRetry e = false ->
  backendPhase cfg backend (ollamaMessagesOf req) log
  = Some (inr (newError (getOllamaErrorMessage cfg e)),
          log ++ [tagsRequest cfg] ++ [chatRequest cfg (ollamaMessagesOf req)]).
Proof.
  intros Hresp Hok Hjson Hlisted Hmax Hrej Hno.
  unfold backendPhase. rewrite withRetry_route.
  change (Z.to_nat 2) with 2%nat. cbn [attempts]. unfold fetch at 1.
  rewrite Hresp. change (1 <=? 2) with true. cbv beta iota zeta.
  cbn [rethrown]. rewrite Hok, Hjson. unfold modelListed in Hlisted.
  cbn [negb]. cbv zeta. rewrite Hlisted. cbn [negb].
  destruct (Z.to_nat (retryMaxAttempts (retry cfg))) as [|fuel] eqn:Hfuel; [lia|].
  rewrite withRetry_route, Hfuel. cbn [attempts].
  destruct (1 <=? retryMaxAttempts (retry cfg)) eqn:Hle; [|lia].
  unfold fetch at 1. rewrite Hrej. cbv beta iota zeta.
  rewrite <- app_assoc.
  destruct (1 =? retryMaxAttempts (retry cfg)); [reflexivity|].
  unfold chatHook. rewrite Hno. reflexivity.
Qed.

(** The backend phase when the configuration allows no attempt. *)
Lemma backendPhase_no_attempts (log : list FetchRequest) :
  retryMaxAttempts (retry cfg) <= 0 ->
  exists e n,
    backendPhase cfg backend (ollamaMessagesOf req) log
    = Some (inr e, log ++ repeat (tagsRequest cfg) n).
Proof.
  intros Hmax.
  unfold backendPhase. rewrite withRetry_route.
  pose proof (attempts_fuel (fetch backend (tagsRequest cfg)) 2 500 10000
                (Some probeHook) (Z.to_nat 2) 1 None log ltac:(lia)) as Hend1.
  destruct (fetch_attempts_log backend (tagsRequest cfg) 2 500 10000 probeHook
              probeHook_log (Z.to_nat 2) 1 None log) as [n Hlog1].
  destruct (attempts (fetch backend (tagsRequest cfg)) 2 500 10000 (Some probeHook)
                     (Z.to_nat 2) 1 None log) as [[o1 log1] tr1].
  cbn [fst snd] in Hend1, Hlog1. subst log1.
  destruct (rethrown_total cfg o1 Hend1) as [r1 Hr1]. rewrite Hr1.
  destruct r1 as [testResponse|e]; [|eexists _, n; reflexivity].
  destruct (negb (rOk testResponse)); [eexists _, n; reflexivity|].
  destruct (rJson testResponse) as [models|e]; [|eexists _, n; reflexivity].
  destruct (negb _); [eexists _, n; reflexivity|].
  rewrite withRetry_route.
  replace (Z.to_nat (retryMaxAttempts (retry cfg))) with 0%nat by lia.
  cbn [attempts].
  destruct (1 <=? retryMaxAttempts (retry cfg)) eqn:Hle; [lia|].
  cbn [rethrown]. eexists _, n. reflexivity.
Qed.

(** The backend phase when the first connection test passes and the
    model is listed: one connection test, then at least one generation
    request. *)
Lemma backendPhase_up (log : list FetchRequest)
    (resp : Response) (models : BackendJson) :
  backend log (tagsRequest cfg) = inl resp ->
  rOk resp = true ->
  rJson resp = inl models ->
  modelListed cfg models = true ->
  1 <= retryMaxAttempts (retry cfg) ->
  exists r n2,
    backendPhase cfg backend (ollamaMessagesOf req) log
    = Some (r, log ++ [tagsRequest cfg]
                   ++ repeat (chatRequest cfg (ollamaMessagesOf req)) n2)
    /\ (1 <= n2)%nat.
Proof.
  intros Hresp Hok Hjson Hlisted Hmax.
  unfold backendPhase. rewrite withRetry_route.
  change (Z.to_nat 2) with 2%nat. cbn [attempts]. unfold fetch at 1.
  rewrite Hresp. change (1 <=? 2) with true. cbv beta iota zeta.
  cbn [rethrown]. rewrite Hok, Hjson. unfold modelListed in Hlisted.
  cbn [negb]. cbv zeta. rewrite Hlisted. cbn [negb].
  rewrite withRetry_route.
  set (log1 := log ++ [tagsRequest cfg]).
  pose proof (attempts_fuel (fetch backend (chatRequest cfg (ollamaMessagesOf req)))
                (retryMaxAttempts (retry cfg)) (retryInitialDelay (retry cfg)) 10000
                (Some chatHook) (Z.to_nat (retryMaxAttempts (retry cfg))) 1 None log1
                ltac:(lia)) as Hend2.
  pose proof (fetch_attempts_calls backend (chatRequest cfg (ollamaMessagesOf req))
                (retryMaxAttempts (retry cfg)) (retryInitialDelay (retry cfg)) 10000
                chatHook chatHook_log
                (Z.to_nat (retryMaxAttempts (retry cfg))) 1 None log1) as Hlog2.
  cbv zeta in Hlog2.
  destruct (attempts (fetch backend (chatRequest cfg (ollamaMessagesOf req)))
                     (retryMaxAttempts (retry cfg)) (retryInitialDelay (retry cfg)) 10000
                     (Some chatHook) (Z.to_nat (retryMaxAttempts (retry cfg))) 1 None log1)
    as [[o2 log2] tr2].
  cbn [fst snd] in Hend2, Hlog2.
  destruct Hlog2 as [Hlog2 Hone]. specialize (Hone Hmax ltac:(lia)).
  subst log2 log1. rewrite <- app_assoc.
  destruct (rethrown_total cfg o2 Hend2) as [r2 Hr2]. rewrite Hr2.
  destruct r2 as [response|e]; [|eexists _, _; split; [reflexivity | exact Hone]].
  destruct (negb (rOk response)); [eexists _, _; split; [reflexivity | exact Hone]|].
  destruct (rJson response) as [responseData|e];
    [|eexists _, _; split; [reflexivity | exact Hone]].
  destruct (bjError responseData) as [err|]; [destruct (truthy err)|];
    eexists _, _; (split; [reflexivity | exact Hone]).
Qed.

End TurnOutcomes.

(** *** The handler from the request on *)

Lemma wellFormed_dec (body : RawBody + JsError) : wellFormed body \/ ~ wellFormed body.
Proof.
  destruct body as [b|e].
  - destruct (rawUserMessage b) as [userText|] eqn:Hmsg.
    + left. exists b, userText. split; [reflexivity | exact Hmsg].
    + right. intros (b' & userText & [= <-] & Hsome). congruence.
  - right. intros (b & userText & [=] & _).
Qed.

Lemma handlePOST_malformed (st : Settings) (backend : Backend) (clock : TurnClock)
    (tc : TokenCounter) (body : RawBody + JsError) (w : World) :
  ~ wellFormed body ->
  handlePOST st backend clock tc body w = Some (InternalServerError, w).
Proof.
  intros Hbad. destruct body as [b|e]; [|reflexivity]. cbn.
  destruct (rawUserMessage b) as [userText|] eqn:Hmsg; [|reflexivity].
  destruct Hbad. exists b, userText. split; [reflexivity | exact Hmsg].
Qed.

(** A body that is well formed is handled as the turn it asks for. *)
Lemma handlePOST_wellFormed (st : Settings) (backend : Backend) (clock : TurnClock)
    (tc : TokenCounter) (body : RawBody + JsError) (w : World) :
  wellFormed body ->
  exists req,
    handlePOST st backend clock tc body w
    = match POST st backend clock tc req w with
      | Some (chunks, w') => Some (Streamed chunks, w')
      | None => None
      end
    /\ forall b, body = inl b ->
                 rawUserMessage b = Some (userMessage req)
                 /\ reqImages req = rawImages b
                 /\ chatId req = rawChatId b.
Proof.
  intros (b & userText & -> & Hmsg).
  exists (mkTurnRequest (rawChatId b) (rawImages b) userText (rawPageNumbers b)).
  cbn [handlePOST]. rewrite Hmsg. split; [reflexivity|].
  intros b' [= <-]. cbn. split; [exact Hmsg|]. split; reflexivity.
Qed.


Lemma streamOf_content (cfg : OllamaConfig) (r : jsstring + JsError)
    (content : jsstring) (done : bool) :
  ContentChunk content done ∈ streamOf cfg r -> r = inl content.
Proof.
  destruct r as [text|e]; cbn; intros Hin.
  - apply elem_of_cons in Hin as [[= -> _] | Hin]; [reflexivity|].
    apply list_elem_of_singleton in Hin. discriminate.
  - apply elem_of_cons in Hin as [[=] | Hin].
    apply list_elem_of_singleton in Hin. discriminate.
Qed.

(** [img.split(',')[1]] is the payload of the image. *)
Lemma payloadOf_unique (image : jsstring) (sent : option jsstring) :
  payloadOf image sent -> sent = stripPrefix image.
Proof.
  unfold stripPrefix, splitOn.
  intros [[Hno ->] | (prefix & payload & Hprefix & Hpayload & -> & [-> | [rest ->]])].
  - rewrite (splitOnFrom_line COMMA) by exact Hno. reflexivity.
  - rewrite (splitOnFrom_break COMMA) by exact Hprefix.
    rewrite (splitOnFrom_line COMMA) by exact Hpayload. reflexivity.
  - rewrite (splitOnFrom_break COMMA) by exact Hprefix.
    rewrite (splitOnFrom_break COMMA) by exact Hpayload. reflexivity.
Qed.

(** The generation request, written out. *)
Lemma chatRequest_written_out (cfg : OllamaConfig) (req : TurnRequest)
    (images : option (list (option jsstring))) :
  imagesSent (reqImages req) images ->
  chatRequest cfg (ollamaMessagesOf req)
  = mkFetchRequest (baseUrl cfg ++ chars "/api/chat") POST_
      (Some (mkChatBody (model cfg)
               [ mkOllamaMessage system SYSTEM_PROMPT None;
                 mkOllamaMessage user (userMessage req) images ]
               false (numContext cfg) (numPredict cfg))).
Proof.
  intros Himages.
  assert (Heq : images = match reqImages req with
                         | Some imgs => Some (map stripPrefix imgs)
                         | None => None
                         end).
  { unfold imagesSent in Himages.
    destruct (reqImages req) as [imgs|], images as [ps|]; try contradiction;
      [|reflexivity].
    f_equal. induction Himages as [|img p imgs ps Hp _ IH]; [reflexivity|].
    cbn [map]. rewrite (payloadOf_unique img p Hp), IH. reflexivity. }
  subst images. unfold chatRequest, ollamaMessagesOf. rewrite lit_chars. reflexivity.
Qed.




(** X18. When the connection test answers with a list that does not
    name the configured model, the turn sends no generation request:
    the only request is the connection test, the stream is the error
    chunk naming the model and the completion marker, and the table of
    sessions is unchanged. *)
Theorem model_missing_stops_turn (st : Settings) (backend : Backend)
    (clock : TurnClock) (tc : TokenCounter) (req : TurnRequest) (w : World)
    (resp : Response) (models : BackendJson) :
  sessionsValid w ->
  backend (requests w) (tagsRequest (OLLAMA_CONFIG st)) = inl resp ->
  rOk resp = true ->
  rJson resp = inl models ->
  modelListed (OLLAMA_CONFIG st) models = false ->
  exists w',
    POST st backend clock tc req w
    = Some ([ErrorChunk
               (Some (lit "Model " ++ model (OLLAMA_CONFIG st)
                        ++ lit " not found. Please pull it with: ollama pull "
                        ++ model (OLLAMA_CONFIG st)))
               (lit "ollama_error")
               (baseUrl (OLLAMA_CONFIG st)) (model (OLLAMA_CONFIG st));
             DoneMarker], w')
    /\ requests w' = requests w ++ [tagsRequest (OLLAMA_CONFIG st)]
    /\ chatSessions w' = chatSessions w.
Proof.
  intros Hvalid Hresp Hok Hjson Hlisted.
  pose proof (backendPhase_model_missing st backend req (requests w) resp models
                Hresp Hok Hjson Hlisted) as Hphase.
  destruct (POST_of_phase st backend clock tc req w Hvalid _ _ Hphase)
    as (w' & Hpost & Hreq & Hsess).
  exists w'. split; [exact Hpost|]. split; [exact Hreq|].
  eapply Hsess. reflexivity.
Qed.

Lemma model_missing_stops_turn_witness :
  exists w',
    POST exampleSettings otherModelBackend exampleClock fallback firstTurn storedWorld
    = Some ([ErrorChunk
               (Some (lit "Model " ++ model (OLLAMA_CONFIG exampleSettings)
                        ++ lit " not found. Please pull it with: ollama pull "
                        ++ model (OLLAMA_CONFIG exampleSettings)))
               (lit "ollama_error")
               (baseUrl (OLLAMA_CONFIG exampleSettings))
               (model (OLLAMA_CONFIG exampleSettings));
             DoneMarker], w')
    /\ requests w' = requests storedWorld ++ [tagsRequest (OLLAMA_CONFIG exampleSettings)]
    /\ chatSessions w' = chatSessions storedWorld.
Proof.
  apply (model_missing_stops_turn exampleSettings otherModelBackend exampleClock
           fallback firstTurn storedWorld (listing [lit "llama3:8b"])
           (mkBackendJson (Some [lit "llama3:8b"]) None None) storedWorld_valid);
    reflexivity.
Defined.

(** X19. When the backend is up and lists the model, and the first
    generation request fails with an error that [shouldRetry] rejects,
    the request is not repeated, however many attempts are configured:
    the turn sends one connection test and one generation request, and
    the stream carries the text [getOllamaErrorMessage] gives for that
    error. *)
Theorem not_retryable_single_request (st : Settings) (backend : Backend)
    (clock : TurnClock) (tc : TokenCounter) (req : TurnRequest) (w : World)
    (resp : Response) (models : BackendJson) (e : JsError) :
  sessionsValid w ->
  backend (requests w) (tagsRequest (OLLAMA_CONFIG st)) = inl resp ->
  rOk resp = true ->
  rJson resp = inl models ->
  modelListed (OLLAMA_CONFIG st) models = true ->
  1 <= retryMaxAttempts (retry (OLLAMA_CONFIG st)) ->
  backend (requests w ++ [tagsRequest (OLLAMA_CONFIG st)])
          (chatRequest (OLLAMA_CONFIG st) (ollamaMessagesOf req)) = inr e ->
  shouldRetry e = false ->
  exists w',
    POST st backend clock tc req w
    = Some ([ErrorChunk (Some (getOllamaErrorMessage (OLLAMA_CONFIG st) e))
               (lit "ollama_error")
               (baseUrl (OLLAMA_CONFIG st)) (model (OLLAMA_CONFIG st));
             DoneMarker], w')
    /\ requests w'
       = requests w ++ [tagsRequest (OLLAMA_CONFIG st);
                        chatRequest (OLLAMA_CONFIG st) (ollamaMessagesOf req)].
Proof.
  intros Hvalid Hresp Hok Hjson Hlisted Hmax Hrej Hno.
  pose proof (backendPhase_not_retryable st backend req (requests w) resp models e
                Hresp Hok Hjson Hlisted Hmax Hrej Hno) as Hphase.
  destruct (POST_of_phase st backend clock tc req w Hvalid _ _ Hphase)
    as (w' & Hpost & Hreq & _).
  exists w'. split; [exact Hpost | exact Hreq].
Qed.

Lemma not_retryable_single_request_witness :
  exists w',
    POST patientSettings rejectingBackend exampleClock fallback firstTurn storedWorld
    = Some ([ErrorChunk
               (Some (getOllamaErrorMessage (OLLAMA_CONFIG patientSettings) badRequest))
               (lit "ollama_error")
               (baseUrl (OLLAMA_CONFIG patientSettings))
               (model (OLLAMA_CONFIG patientSettings));
             DoneMarker], w')
    /\ requests w'
       = requests storedWorld
           ++ [tagsRequest (OLLAMA_CONFIG patientSettings);
               chatRequest (OLLAMA_CONFIG patientSettings) (ollamaMessagesOf firstTurn)].
Proof.
  apply (not_retryable_single_request patientSettings rejectingBackend exampleClock
           fallback firstTurn storedWorld (listing [lit "qwen2.5vl:3b"])
           (mkBackendJson (Some [lit "qwen2.5vl:3b"]) None None) badRequest
           storedWorld_valid);
    first [reflexivity | cbn; lia].
Defined.

(** X20. With [OLLAMA_CONFIG.retry.maxAttempts] at 0 or below the route
    never sends a generation request, whatever the backend does: a
    request with a string as [userMessage] is answered with a stream of
    one error chunk and the completion marker after connection tests
    only, any other request with status 500 after no request at all;
    the table of sessions is unchanged in both cases.  Bodies are as
    [RawBody] has them. *)
Theorem no_attempts_no_generation (st : Settings) (backend : Backend)
    (clock : TurnClock) (tc : TokenCounter) (body : RawBody + JsError) (w : World) :
  sessionsValid w ->
  retryMaxAttempts (retry (OLLAMA_CONFIG st)) <= 0 ->
  exists answer w' n,
    handlePOST st backend clock tc body w = Some (answer, w')
    /\ requests w' = requests w ++ repeat (tagsRequest (OLLAMA_CONFIG st)) n
    /\ chatSessions w' = chatSessions w
    /\ (~ wellFormed body -> answer = InternalServerError /\ n = 0%nat)
    /\ (wellFormed body ->
        exists msg,
          answer = Streamed [ErrorChunk msg (lit "ollama_error")
                               (baseUrl (OLLAMA_CONFIG st)) (model (OLLAMA_CONFIG st));
                             DoneMarker]).
Proof.
  intros Hvalid Hmax. destruct (wellFormed_dec body) as [Hwf | Hbad].
  - destruct (handlePOST_wellFormed st backend clock tc body w Hwf) as (req & Hrun & _).
    destruct (backendPhase_no_attempts st backend req (requests w) Hmax)
      as (e & n & Hphase).
    destruct (POST_of_phase st backend clock tc req w Hvalid _ _ Hphase)
      as (w' & Hpost & Hreq & Hsess).
    rewrite Hpost in Hrun.
    eexists _, w', n. split; [exact Hrun|]. split; [exact Hreq|].
    split; [eapply Hsess; reflexivity|].
    split; [intros Hbad; contradiction|]. intros _.
    exists (message e). reflexivity.
  - exists InternalServerError, w, 0%nat.
    split; [apply handlePOST_malformed, Hbad|].
    split; [cbn; rewrite app_nil_r; reflexivity|]. split; [reflexivity|].
    split; [intros _; split; reflexivity | intros Hwf; contradiction].
Qed.

Lemma no_attempts_no_generation_witness :
  exists answer w' n,
    handlePOST noAttemptSettings upBackend exampleClock fallback (inl pictureBody)
               storedWorld = Some (answer, w')
    /\ requests w'
       = requests storedWorld ++ repeat (tagsRequest (OLLAMA_CONFIG noAttemptSettings)) n
    /\ chatSessions w' = chatSessions storedWorld
    /\ (~ wellFormed (inl pictureBody) -> answer = InternalServerError /\ n = 0%nat)
    /\ (wellFormed (inl pictureBody) ->
        exists msg,
          answer = Streamed [ErrorChunk msg (lit "ollama_error")
                               (baseUrl (OLLAMA_CONFIG noAttemptSettings))
                               (model (OLLAMA_CONFIG noAttemptSettings));
                             DoneMarker]).
Proof.
  apply (no_attempts_no_generation noAttemptSettings upBackend exampleClock fallback
           (inl pictureBody) storedWorld storedWorld_valid).
  cbn. lia.
Defined.



(** C7. Whatever the store and the table of sessions hold, a turn sends
    to the backend, after its connection tests, copies of one generation
    request and nothing else; that request carries exactly two
    messages: the fixed system instruction and the current user turn,
    its text and, when the request has images, the payload of each
    image.  No earlier message and no summary is in it.  The request is
    sent at least once whenever the turn delivers content, and whenever
    the first connection test passes with the model listed and at least
    one attempt is configured. *)
Theorem outbound_request_single_turn (st : Settings) (backend : Backend)
    (clock : TurnClock) (tc : TokenCounter) (body : RawBody) (w : World)
    (userText : jsstring) (images : option (list (option jsstring))) :
  sessionsValid w ->
  rawUserMessage body = Some userText ->
  imagesSent (rawImages body) images ->
  exists chunks w' n1 n2,
    handlePOST st backend clock tc (inl body) w = Some (Streamed chunks, w')
    /\ requests w'
       = requests w
           ++ repeat (tagsRequest (OLLAMA_CONFIG st)) n1
           ++ repeat (mkFetchRequest
                        (baseUrl (OLLAMA_CONFIG st) ++ chars "/api/chat") POST_
                        (Some (mkChatBody (model (OLLAMA_CONFIG st))
                                 [ mkOllamaMessage system SYSTEM_PROMPT None;
                                   mkOllamaMessage user userText images ]
                                 false
                                 (numContext (OLLAMA_CONFIG st))
                                 (numPredict (OLLAMA_CONFIG st))))) n2
    /\ (1 <= n1)%nat
    /\ (forall content done, ContentChunk content done ∈ chunks -> (1 <= n2)%nat)
    /\ (forall resp models,
          backend (requests w) (tagsRequest (OLLAMA_CONFIG st)) = inl resp ->
          rOk resp = true ->
          rJson resp = inl models ->
          modelListed (OLLAMA_CONFIG st) models = true ->
          1 <= retryMaxAttempts (retry (OLLAMA_CONFIG st)) ->
          (1 <= n2)%nat).
Proof.
  intros Hvalid Hmsg Himages.
  set (req := mkTurnRequest (rawChatId body) (rawImages body) userText
                            (rawPageNumbers body)).
  pose proof (chatRequest_written_out (OLLAMA_CONFIG st) req images Himages) as Hgen.
  cbn [userMessage req] in Hgen.
  destruct (backendPhase_counts (OLLAMA_CONFIG st) backend (ollamaMessagesOf req)
              (requests w)) as (r & n1 & n2 & Hphase & Hn1 & _ & Hcontent).
  destruct (POST_of_phase st backend clock tc req w Hvalid r _ Hphase)
    as (w' & Hpost & Hreq & _).
  exists (streamOf (OLLAMA_CONFIG st) r), w', n1, n2.
  split; [cbn [handlePOST]; rewrite Hmsg; fold req; rewrite Hpost; reflexivity|].
  split; [rewrite Hreq, Hgen; reflexivity|]. split; [lia|].
  split.
  { intros content done Hin. apply Hcontent. exists content.
    eapply streamOf_content, Hin. }
  intros resp models Hresp Hok Hjson Hlisted Hmax.
  destruct (backendPhase_up st backend req (requests w) resp models
              Hresp Hok Hjson Hlisted Hmax) as (r' & n2' & Hup & Hn2').
  rewrite Hphase in Hup. injection Hup as _ Heq. apply app_inv_head in Heq.
  destruct n2 as [|n2]; [|lia]. exfalso.
  destruct n2' as [|m]; [lia|].
  apply (f_equal (fun l => frMethod <$> l !! 1%nat)) in Heq.
  destruct n1 as [|[|n1]]; cbn in Heq; discriminate.
Qed.

(** A turn with two images on a stored session, the backend being up:
    one connection test and one generation request, which carries the
    two payloads and nothing of the session. *)
Lemma outbound_request_single_turn_witness :
  exists w',
    handlePOST exampleSettings upBackend exampleClock fallback (inl pictureBody)
               storedWorld
    = Some (Streamed [ContentChunk (lit "# Summary") true; DoneMarker], w')
    /\ requests w'
       = [ tagsRequest (OLLAMA_CONFIG exampleSettings);
           mkFetchRequest (chars "http://localhost:11434/api/chat") POST_
             (Some (mkChatBody (chars "qwen2.5vl:3b")
                      [ mkOllamaMessage system SYSTEM_PROMPT None;
                        mkOllamaMessage user (chars "Explain this page")
                          (Some [Some (chars "AAAA"); Some (chars "BBBB")]) ]
                      false 32768 2000)) ].
Proof.
  assert (Hno : forall l : jsstring, bool_decide (44%N ∉ l) = true -> 44%N ∉ l)
    by (intros l Hl; apply bool_decide_eq_true in Hl; exact Hl).
  destruct (outbound_request_single_turn exampleSettings upBackend exampleClock
              fallback pictureBody storedWorld (lit "Explain this page")
              (Some [Some (chars "AAAA"); Some (chars "BBBB")]) storedWorld_valid)
    as (chunks & w' & n1 & n2 & Hrun & Hreq & Hn1 & Hcontent & _).
  - reflexivity.
  - cbn [imagesSent pictureBody rawImages].
    constructor; [|constructor; [|constructor]].
    + right. exists (chars "data:image/png;base64"), (chars "AAAA").
      split; [apply Hno; vm_compute; reflexivity|].
      split; [apply Hno; vm_compute; reflexivity|].
      split; [reflexivity | left; reflexivity].
    + right. exists (chars "data:image/jpeg;base64"), (chars "BBBB").
      split; [apply Hno; vm_compute; reflexivity|].
      split; [apply Hno; vm_compute; reflexivity|].
      split; [reflexivity | left; reflexivity].
  - assert (Hchunks : chunks = [ContentChunk (lit "# Summary") true; DoneMarker]).
    { vm_compute in Hrun. injection Hrun as <- _. reflexivity. }
    subst chunks.
    assert (Hn2 : (1 <= n2)%nat)
      by (apply (Hcontent (lit "# Summary") true); constructor).
    assert (Hlen : length (requests w') = 2%nat).
    { vm_compute in Hrun. injection Hrun as <-. reflexivity. }
    rewrite Hreq, !length_app, !repeat_length in Hlen. cbn in Hlen.
    assert (n1 = 1%nat) by lia. assert (n2 = 1%nat) by lia. subst n1 n2.
    exists w'. split; [exact Hrun|]. rewrite Hreq. reflexivity.
Defined.

Section StoredSession.

Variables (st : Settings) (clock : TurnClock) (tc : TokenCounter)
          (req : TurnRequest).

Let um := newUserMessageOf clock req.

(** The array the handler holds after the push and the truncation. *)
Lemma pushTurn_held (h : Heap) (a : loc) (rs : list loc) (msgs : list ChatMessage) :
  arrs h !! a = Some rs ->
  Forall2 (fun l m => objs h !! l = Some m) rs msgs ->
  exists messages h',
    pushTurn st clock tc req a h = Some (messages, h')
    /\ holds h' messages (heldAfter st clock tc (msgs ++ [um])).
Proof.
  intros Harr HF. destruct h as [os ars]. cbn [objs arrs] in *.
  unfold pushTurn, mbind, M_bind, newObject, push. cbn [objs arrs]. rewrite Harr.
  fold um.
  set (u := fresh (dom os)).
  set (h2 := mkHeap (<[u := um]> os) (<[a := rs ++ [u]]> ars)).
  assert (Hold : forall l m, os !! l = Some m -> <[u := um]> os !! l = Some m).
  { intros l m Hl. rewrite lookup_insert_ne; [assumption|].
    intros Heq. eapply fresh_object; [exact Hl|]. symmetry. exact Heq. }
  assert (Harr2 : arrs h2 !! a = Some (rs ++ [u])) by apply lookup_insert_eq.
  assert (HF2 : Forall2 (fun l m => objs h2 !! l = Some m) (rs ++ [u]) (msgs ++ [um])).
  { apply Forall2_app.
    - eapply Forall2_impl; [exact HF | exact Hold].
    - constructor; [apply lookup_insert_eq | constructor]. }
  rewrite (truncateConversation_run tc (summaryClock clock) h2 a
             (rs ++ [u]) (msgs ++ [um]) _ _ Harr2 HF2).
  unfold heldAfter.
  destruct (getTotalTokenCount tc (msgs ++ [um]) <=? TOKEN_BUFFER_THRESHOLD st).
  - exists a, h2. cbn [fst snd]. split; [reflexivity|].
    eapply holds_intro; eassumption.
  - cbv zeta. cbn [fst snd].
    rewrite (Forall2_length _ _ _ HF2).
    set (s := fresh (dom (objs h2))).
    set (sm := summaryOf (summaryClock clock) (summarizeOldMessages (msgs ++ [um]))).
    set (k := keptCount tc (MAX_TOKEN_MEMORY st) (msgs ++ [um]) (length (msgs ++ [um]))
                (countMessageTokens tc sm)).
    assert (Hold2 : forall l m, objs h2 !! l = Some m -> <[s := sm]> (objs h2) !! l = Some m).
    { intros l m Hl. rewrite lookup_insert_ne; [assumption|].
      intros Heq. eapply fresh_object; [exact Hl|]. symmetry. exact Heq. }
    eexists _, _. split; [reflexivity|].
    eapply holds_intro; [cbn; apply lookup_insert_eq|].
    rewrite <- (Forall2_length _ _ _ HF2).
    apply Forall2_app.
    + apply Forall2_drop. eapply Forall2_impl; [exact HF2 | exact Hold2].
    + constructor; [apply lookup_insert_eq | constructor].
Qed.

Variables (backend : Backend) (w : World).

Hypothesis Hvalid : sessionsValid w.

Let cfg := OLLAMA_CONFIG st.

Lemma priorMessages_held (a : loc) :
  chatSessions w !! chatId req = Some a ->
  holds (heap w) a (priorMessages w (chatId req)).
Proof.
  intros Ha. destruct (Hvalid _ a Ha) as [msgs Hmsgs].
  unfold priorMessages, sessionMessages. rewrite Ha.
  unfold holds in Hmsgs. rewrite Hmsgs. exact Hmsgs.
Qed.

Lemma priorMessages_none :
  chatSessions w !! chatId req = None -> priorMessages w (chatId req) = [].
Proof.
  intros Hnone. unfold priorMessages, sessionMessages. rewrite Hnone. reflexivity.
Qed.

(** The array the handler holds when the stream starts. *)
Lemma prepare_held :
  exists messages h,
    prepare st clock tc req (chatSessions w) (heap w) = Some (messages, h)
    /\ holds h messages (heldAfter st clock tc (priorMessages w (chatId req) ++ [um])).
Proof.
  unfold prepare, sessionArray, mbind, M_bind.
  destruct (chatSessions w !! chatId req) as [a|] eqn:Hsess.
  - pose proof (priorMessages_held a Hsess) as Hread.
    destruct (holds_inv _ a _ Hread) as (rs & Harr & HF).
    destruct (pushTurn_held (heap w) a rs _ Harr HF) as (messages & h' & Hrun & Hheld).
    exists messages, h'. cbn. rewrite Hrun. split; [reflexivity | exact Hheld].
  - rewrite (priorMessages_none Hsess).
    destruct (heap w) as [os ars]. unfold newArray. cbn [objs arrs].
    set (a := fresh (dom ars)).
    destruct (pushTurn_held (mkHeap os (<[a := []]> ars)) a [] []
                (lookup_insert_eq _ _ _) ltac:(constructor))
      as (messages & h' & Hrun & Hheld).
    exists messages, h'. rewrite Hrun. split; [reflexivity | exact Hheld].
Qed.

(** The session stored by a turn whose backend phase gives the
    assistant's text. *)
Lemma POST_stored (text : jsstring) (log : list FetchRequest) :
  backendPhase cfg backend (ollamaMessagesOf req) (requests w) = Some (inl text, log) ->
  exists w',
    POST st backend clock tc req w = Some ([ContentChunk text true; DoneMarker], w')
    /\ sessionMessages w' (chatId req)
       = Some (heldAfter st clock tc (priorMessages w (chatId req) ++ [um])
                 ++ [assistantMessageOf clock req text]).
Proof.
  intros Hphase.
  destruct prepare_held as (messages & h & Hprep & Hms).
  destruct (holds_inv h messages _ Hms) as (xs & Hxs & HF).
  unfold POST, start. rewrite Hprep. cbn [heap chatSessions requests].
  fold cfg. rewrite Hphase.
  unfold mbind, M_bind, newObject, push. cbn [objs arrs]. rewrite Hxs.
  eexists. split; [reflexivity|].
  unfold sessionMessages. cbn [chatSessions heap]. rewrite lookup_insert_eq.
  set (l := fresh (dom (objs h))).
  match goal with
  | |- context [readMessages messages ?h'] =>
      assert (Hread : holds h' messages
                (heldAfter st clock tc (priorMessages w (chatId req) ++ [um])
                   ++ [assistantMessageOf clock req text]))
  end.
  { eapply holds_intro; [cbn; apply lookup_insert_eq|].
    apply Forall2_app.
    - eapply Forall2_impl; [exact HF|]. intros r m Hr. cbn.
      rewrite lookup_insert_ne; [exact Hr|].
      intros Heq. eapply fresh_object; [exact Hr|]. symmetry. exact Heq.
    - constructor; [cbn; apply lookup_insert_eq | constructor]. }
  unfold holds in Hread. rewrite Hread. reflexivity.
Qed.

(** A turn whose stream starts with a content chunk: the session
    stored. *)
Lemma POST_content (text : jsstring) (done : bool) (rest : list Chunk) (w' : World) :
  POST st backend clock tc req w = Some (ContentChunk text done :: rest, w') ->
  done = true /\ rest = [DoneMarker]
  /\ sessionMessages w' (chatId req)
     = Some (heldAfter st clock tc (priorMessages w (chatId req) ++ [um])
               ++ [assistantMessageOf clock req text]).
Proof.
  intros Hpost.
  destruct (backendPhase_run cfg backend (ollamaMessagesOf req) (requests w))
    as (r & n1 & n2 & Hphase).
  destruct r as [text'|error].
  - destruct (POST_stored text' _ Hphase) as (w'' & Hpost' & Hstored).
    rewrite Hpost' in Hpost. injection Hpost as <- <- <- <-.
    split; [reflexivity|]. split; [reflexivity | exact Hstored].
  - destruct (POST_failure st backend clock tc req w Hvalid error _ Hphase)
      as (w'' & Hpost' & _).
    rewrite Hpost' in Hpost. discriminate.
Qed.

(** A turn whose stream starts with an error chunk. *)
Lemma POST_error (msg : option jsstring) (type url mdl : jsstring)
    (rest : list Chunk) (w' : World) :
  POST st backend clock tc req w = Some (ErrorChunk msg type url mdl :: rest, w') ->
  rest = [DoneMarker]
  /\ chatSessions w' = chatSessions w
  /\ (forall a msgs, chatSessions w !! chatId req = Some a ->
                     holds (heap w) a msgs ->
                     sessionMessages w' (chatId req) = Some (msgs ++ [um]))
  /\ (forall l m, objs (heap w') !! l = Some m -> role m = assistant ->
                  objs (heap w) !! l = Some m).
Proof.
  intros Hpost.
  destruct (backendPhase_run cfg backend (ollamaMessagesOf req) (requests w))
    as (r & n1 & n2 & Hphase).
  destruct r as [text'|error].
  - destruct (POST_stored text' _ Hphase) as (w'' & Hpost' & _).
    rewrite Hpost' in Hpost. discriminate.
  - destruct (POST_failure st backend clock tc req w Hvalid error _ Hphase)
      as (w'' & Hpost' & Hsess & Hheld & _ & Hnew).
    rewrite Hpost' in Hpost. injection Hpost as <- <- <- <- <- <-.
    split; [reflexivity|]. split; [exact Hsess|]. split; [exact Hheld | exact Hnew].
Qed.

End StoredSession.

(** X22. After a turn that ends with an error chunk, a session that was
    stored holds its earlier messages followed by the new user message,
    untruncated whatever the thresholds are; the table of sessions is
    unchanged and the turn has created no assistant message. *)
Theorem failed_turn_keeps_user_message (st : Settings) (backend : Backend)
    (clock : TurnClock) (tc : TokenCounter) (req : TurnRequest) (w w' : World)
    (a : loc) (msgs : list ChatMessage)
    (msg : option jsstring) (type url mdl : jsstring) (rest : list Chunk) :
  sessionsValid w ->
  chatSessions w !! chatId req = Some a ->
  holds (heap w) a msgs ->
  POST st backend clock tc req w = Some (ErrorChunk msg type url mdl :: rest, w') ->
  sessionMessages w' (chatId req) = Some (msgs ++ [newUserMessageOf clock req])
  /\ chatSessions w' = chatSessions w
  /\ (forall l m, objs (heap w') !! l = Some m -> role m = assistant ->
                  objs (heap w) !! l = Some m).
Proof.
  intros Hvalid Ha Hmsgs Hpost.
  destruct (POST_error st clock tc req backend w Hvalid _ _ _ _ _ _ Hpost)
    as (_ & Hsess & Hheld & Hnew).
  split; [eapply Hheld; eassumption|]. split; [exact Hsess | exact Hnew].
Qed.

Lemma failed_turn_keeps_user_message_witness :
  exists w',
    POST tightSettings downBackend exampleClock fallback firstTurn storedWorld
    = Some ([ErrorChunk
               (Some (lit "Cannot connect to Ollama. Please ensure Ollama is running with: ollama serve"))
               (lit "ollama_error") (lit "http://localhost:11434") (lit "qwen2.5vl:3b");
             DoneMarker], w')
    /\ sessionMessages w' (chatId firstTurn)
       = Some ([hiMessage] ++ [newUserMessageOf exampleClock firstTurn])
    /\ chatSessions w' = chatSessions storedWorld
    /\ (forall l m, objs (heap w') !! l = Some m -> role m = assistant ->
                    objs (heap storedWorld) !! l = Some m).
Proof.
  eexists. split; [vm_compute; reflexivity|].
  apply (failed_turn_keeps_user_message tightSettings downBackend exampleClock fallback
           firstTurn storedWorld _ 1%positive [hiMessage]
           (Some (lit "Cannot connect to Ollama. Please ensure Ollama is running with: ollama serve"))
           (lit "ollama_error") (lit "http://localhost:11434") (lit "qwen2.5vl:3b")
           [DoneMarker] storedWorld_valid);
    vm_compute; reflexivity.
Defined.

(** X23. After a turn that ends with a content chunk, when the earlier
    messages of the session and the new user message together cost no
    more than [TOKEN_BUFFER_THRESHOLD], the stored session is the
    earlier messages (none for a new session), the user message and the
    assistant message carrying the text of the chunk, in that order. *)
Theorem successful_turn_appends (st : Settings) (backend : Backend)
    (clock : TurnClock) (tc : TokenCounter) (req : TurnRequest) (w w' : World)
    (text : jsstring) (done : bool) (rest : list Chunk) :
  sessionsValid w ->
  getTotalTokenCount tc (priorMessages w (chatId req) ++ [newUserMessageOf clock req])
  <= TOKEN_BUFFER_THRESHOLD st ->
  POST st backend clock tc req w = Some (ContentChunk text done :: rest, w') ->
  sessionMessages w' (chatId req)
  = Some (priorMessages w (chatId req)
            ++ [newUserMessageOf clock req; assistantMessageOf clock req text])
  /\ done = true /\ rest = [DoneMarker].
Proof.
  intros Hvalid Hfits Hpost.
  destruct (POST_content st clock tc req backend w Hvalid _ _ _ _ Hpost)
    as (Hdone & Hrest & Hstored).
  split; [|split; assumption].
  rewrite Hstored. unfold heldAfter.
  destruct (_ <=? _) eqn:Hcmp; [|lia].
  rewrite <- app_assoc. reflexivity.
Qed.

Lemma successful_turn_appends_witness :
  exists w',
    POST exampleSettings upBackend exampleClock fallback firstTurn storedWorld
    = Some ([ContentChunk (lit "# Summary") true; DoneMarker], w')
    /\ sessionMessages w' (chatId firstTurn)
       = Some (priorMessages storedWorld (chatId firstTurn)
                 ++ [newUserMessageOf exampleClock firstTurn;
                     assistantMessageOf exampleClock firstTurn (lit "# Summary")])
    /\ true = true /\ [DoneMarker] = [DoneMarker].
Proof.
  eexists. split; [vm_compute; reflexivity|].
  apply (successful_turn_appends exampleSettings upBackend exampleClock fallback
           firstTurn storedWorld _ (lit "# Summary") true [DoneMarker]
           storedWorld_valid);
    [vm_compute; discriminate | vm_compute; reflexivity].
Defined.

(** X24. After a turn that ends with a content chunk, when the earlier
    messages and the new user message together cost more than
    [TOKEN_BUFFER_THRESHOLD], the stored session is a suffix of those
    messages, then the summary message, a system message summarizing
    all of them, then the assistant message: the summary is stored in
    the session, between the messages kept and the reply. *)
Theorem truncating_turn_stores_summary (st : Settings) (backend : Backend)
    (clock : TurnClock) (tc : TokenCounter) (req : TurnRequest) (w w' : World)
    (text : jsstring) (done : bool) (rest : list Chunk) :
  sessionsValid w ->
  TOKEN_BUFFER_THRESHOLD st
  < getTotalTokenCount tc (priorMessages w (chatId req) ++ [newUserMessageOf clock req]) ->
  POST st backend clock tc req w = Some (ContentChunk text done :: rest, w') ->
  exists kept,
    sessionMessages w' (chatId req)
    = Some (kept
              ++ [summaryOf (summaryClock clock)
                    (summarizeOldMessages
                       (priorMessages w (chatId req) ++ [newUserMessageOf clock req]));
                  assistantMessageOf clock req text])
    /\ kept `suffix_of` (priorMessages w (chatId req) ++ [newUserMessageOf clock req])
    /\ role (summaryOf (summaryClock clock)
               (summarizeOldMessages
                  (priorMessages w (chatId req) ++ [newUserMessageOf clock req])))
       = system.
Proof.
  intros Hvalid Hover Hpost.
  destruct (POST_content st clock tc req backend w Hvalid _ _ _ _ Hpost)
    as (_ & _ & Hstored).
  unfold heldAfter in Hstored.
  destruct (_ <=? _) eqn:Hcmp in Hstored; [lia|].
  cbv zeta in Hstored. rewrite <- app_assoc in Hstored.
  eexists. split; [exact Hstored|]. split; [apply suffix_drop | reflexivity].
Qed.

Lemma truncating_turn_stores_summary_witness :
  exists w' kept,
    POST tightSettings upBackend exampleClock fallback firstTurn storedWorld
    = Some ([ContentChunk (lit "# Summary") true; DoneMarker], w')
    /\ sessionMessages w' (chatId firstTurn)
       = Some (kept
                 ++ [summaryOf (summaryClock exampleClock)
                       (summarizeOldMessages
                          (priorMessages storedWorld (chatId firstTurn)
                             ++ [newUserMessageOf exampleClock firstTurn]));
                     assistantMessageOf exampleClock firstTurn (lit "# Summary")])
    /\ kept `suffix_of` (priorMessages storedWorld (chatId firstTurn)
                           ++ [newUserMessageOf exampleClock firstTurn])
    /\ role (summaryOf (summaryClock exampleClock)
               (summarizeOldMessages
                  (priorMessages storedWorld (chatId firstTurn)
                     ++ [newUserMessageOf exampleClock firstTurn])))
       = system.
Proof.
  eexists. 
  assert (Hpost : POST tightSettings upBackend exampleClock fallback firstTurn storedWorld
                  = Some ([ContentChunk (lit "# Summary") true; DoneMarker],
                          match POST tightSettings upBackend exampleClock fallback
                                     firstTurn storedWorld with
                          | Some (_, w') => w'
                          | None => storedWorld
                          end))
    by (vm_compute; reflexivity).
  destruct (truncating_turn_stores_summary tightSettings upBackend exampleClock fallback
              firstTurn storedWorld _ (lit "# Summary") true [DoneMarker]
              storedWorld_valid ltac:(vm_compute; reflexivity) Hpost)
    as (kept & Hkept).
  exists kept. split; [exact Hpost | exact Hkept].
Defined.

(** ** The two token counters *)

Lemma robust_message (m : ChatMessage) :
  countMessageTokens fallback m
  = countMessageTokensRobust m
    + 875 * Z.of_nat (match images m with
                      | Some imgs => length imgs
                      | None => 0%nat
                      end).
Proof.
  unfold countMessageTokens, countMessageTokensRobust, countTokensSync,
    estimateTokensByCharacters.
  change (countTokens fallback (content m)) with (estimateTokens (content m)).
  unfold estimateTokens, wordBasedEstimate, charBasedEstimate.
  set (t := Qceiling _).
  destruct (images m) as [imgs|]; cbn zeta; lia.
Qed.

Lemma robust_total_from (msgs : list ChatMessage) :
  forall acc1 acc2 : Z,
    fold_left (fun total msg => total + countMessageTokens fallback msg) msgs acc1
    = fold_left (fun total msg => total + countMessageTokensRobust msg) msgs acc2
      + 875 * imageCount msgs + (acc1 - acc2).
Proof.
  induction msgs as [|m msgs IH]; intros acc1 acc2.
  - cbn. lia.
  - cbn [fold_left]. rewrite (IH _ (acc2 + countMessageTokensRobust m)).
    change (imageCount (m :: msgs))
      with (Z.of_nat (match images m with
                      | Some imgs => length imgs
                      | None => 0%nat
                      end) + imageCount msgs).
    rewrite (robust_message m).
    generalize (fold_left (fun total msg => total + countMessageTokensRobust msg) msgs
                          (acc2 + countMessageTokensRobust m)).
    intros z. lia.
Qed.

(** X25. The estimator of [src/lib/tokenCounter.ts] gives every text the
    count [countTokens] of [src/lib/memory.ts] gives it when no
    tokenizer is loaded, but it charges 125 for an image where the
    other charges 1000: the two totals of a conversation differ by 875
    per image, and the total of [tokenCounter.ts] is never the larger
    one. *)
Theorem counters_differ_on_images (msgs : list ChatMessage) :
  (forall text, countTokensSync text = countTokens fallback text)
  /\ getTotalTokenCount fallback msgs
     = getTotalTokenCountRobust msgs + 875 * imageCount msgs
  /\ getTotalTokenCountRobust msgs <= getTotalTokenCount fallback msgs.
Proof.
  assert (Himg : 0 <= imageCount msgs).
  { induction msgs as [|m msgs IH]; [cbn; lia|].
    change (imageCount (m :: msgs))
      with (Z.of_nat (match images m with
                      | Some imgs => length imgs
                      | None => 0%nat
                      end) + imageCount msgs).
    lia. }
  assert (Htotal : getTotalTokenCount fallback msgs
                   = getTotalTokenCountRobust msgs + 875 * imageCount msgs).
  { unfold getTotalTokenCount, getTotalTokenCountRobust.
    rewrite (robust_total_from msgs 0 0). lia. }
  split; [reflexivity|]. split; [exact Htotal | lia].
Qed.

(** ** The health route *)

Section HealthFacts.

Variables (cfg : OllamaConfig) (backend : Health.Backend).

Lemma testGenerationOf_total (log : list Health.Request) :
  exists passed log', Health.testGenerationOf cfg backend log = Some (passed, log').
Proof.
  unfold Health.testGenerationOf.
  pose proof (withRetry_terminates (Health.fetch backend (Health.generateRequest cfg))
                (mkRetryOptions (Some (retryMaxAttempts (retry cfg)))
                                (Some (retryInitialDelay (retry cfg)))
                                None (Some Health.logHook)) log) as Hend.
  destruct (withRetry _ _ log) as [[o log'] tr]. cbn [fst] in Hend.
  destruct o as [testResponse|e|]; [| |contradiction]; [|eexists _, _; reflexivity].
  destruct (Health.hOk testResponse); [|eexists _, _; reflexivity].
  destruct (Health.hJson testResponse); eexists _, _; reflexivity.
Qed.

Lemma caught_consistent (now : jsstring) (error : JsError) :
  let r := Health.respond (Health.caught cfg (Health.initialResults cfg now) error) in
  healthConsistent cfg (fst r) (snd r).
Proof.
  cbn. unfold healthConsistent. cbn.
  repeat split; try (intros; discriminate); try (intros [? ?]; discriminate);
    try (right; reflexivity); intros; try discriminate; try lia.
Qed.

Lemma afterTags_consistent (now : jsstring) (tagsResponse : Health.Response)
    (log : list Health.Request) :
  exists res http log',
    Health.afterTags cfg backend (Health.initialResults cfg now) tagsResponse log
    = Some ((res, http), log')
    /\ healthConsistent cfg res http.
Proof.
  unfold Health.afterTags.
  destruct (negb (Health.hOk tagsResponse)).
  { eexists _, _, _. split; [reflexivity|]. cbn. unfold healthConsistent. cbn.
    repeat split; try (intros; discriminate); try (intros [? ?]; discriminate);
      try (right; reflexivity); intros; try discriminate; try lia. }
  destruct (Health.hJson tagsResponse) as [modelsData|error].
  2:{ eexists _, _, _. split; [reflexivity|]. cbn. unfold healthConsistent. cbn.
      repeat split; try (intros; discriminate); try (intros [? ?]; discriminate);
        try (right; reflexivity); intros; try discriminate; try lia. }
  cbv zeta. cbn [Health.checks Health.ollama Health.connection Health.modelAvailable
                 Health.testGeneration Health.oUrl Health.oModel Health.oStatus
                 Health.oError Health.oModels Health.oContextSize Health.rTimestamp
                 Health.initialResults].
  set (models := match Health.jModels modelsData with Some names => names | None => [] end).
  destruct (existsb (fun n => eqb n (model cfg)) models) eqn:Havailable.
  - destruct (testGenerationOf_total log) as (passed & log' & Htest). rewrite Htest.
    eexists _, _, _. split; [reflexivity|]. cbn. unfold healthConsistent. cbn.
    rewrite Havailable.
    repeat split; try reflexivity; try (left; reflexivity); intros; try discriminate;
      try lia.
  - eexists _, _, _. split; [reflexivity|]. cbn. unfold healthConsistent. cbn.
    repeat split; try (intros; discriminate); try (intros [? ?]; discriminate);
      try (right; reflexivity); intros; try discriminate; try lia.
Qed.

End HealthFacts.

(** The handler always answers, and its answer is consistent. *)
Lemma GET_consistent (cfg : OllamaConfig) (backend : Health.Backend)
    (now : jsstring) (log : list Health.Request) :
  exists res http log',
    Health.GET cfg backend now log = Some (inl (res, http), log')
    /\ healthConsistent cfg res http.
Proof.
  unfold Health.GET. rewrite withRetry_route.
  change (Z.to_nat 2) with 2%nat. cbn [attempts].
  change (1 <=? 2) with true. cbv iota.
  unfold Health.fetch at 1.
  destruct (backend log (Health.tagsRequest cfg)) as [tagsResponse|error1].
  - cbv beta iota zeta.
    destruct (afterTags_consistent cfg backend now tagsResponse
                (log ++ [Health.tagsRequest cfg])) as (res & http & log' & Hrun & Hok).
    rewrite Hrun. eexists _, _, _. split; [reflexivity | exact Hok].
  - change (1 =? 2) with false. cbv beta iota zeta.
    unfold Health.logHook at 1. cbv beta iota zeta.
    change (1 + 1 <=? 2) with true. cbv iota.
    unfold Health.fetch at 1.
    destruct (backend (log ++ [Health.tagsRequest cfg]) (Health.tagsRequest cfg))
      as [tagsResponse|error2].
    + cbn [logged]. cbv beta iota zeta.
      destruct (afterTags_consistent cfg backend now tagsResponse
                  ((log ++ [Health.tagsRequest cfg]) ++ [Health.tagsRequest cfg]))
        as (res & http & log' & Hrun & Hok).
      rewrite Hrun. eexists _, _, _. split; [reflexivity | exact Hok].
    + change (1 + 1 =? 2) with true. cbn [logged]. cbv beta iota zeta.
      eexists _, _, _. split; [reflexivity|].
      apply (caught_consistent cfg now error2).
Qed.

(** X26. The health route always answers, with status 200 or 503: 200
    exactly when the connection and the model check have passed, and
    exactly when the answer carries no error text.  A passed test
    generation implies status 200; the model check passes only after
    the connection check, with the configured model among the names
    listed. *)
Theorem health_route_consistent (cfg : OllamaConfig) (backend : Health.Backend)
    (now : jsstring) (log : list Health.Request) :
  exists res http log',
    Health.GET cfg backend now log = Some (inl (res, http), log')
    /\ healthConsistent cfg res http.
Proof. apply GET_consistent. Qed.

(** X27. On an answer of the health route the client's
    [formatOllamaError] never shows the error text of the answer: with
    status 503 it gives the text on the connection, naming the
    configured address, or the text on the missing model, naming the
    configured model, and with status 200 the text on the
    configuration; [isOllamaReady] is true exactly for status 200. *)
Theorem formatOllamaError_of_answer (cfg : OllamaConfig) (backend : Health.Backend)
    (now : jsstring) (log log' : list Health.Request)
    (res : Health.Results) (http : Z) :
  Health.GET cfg backend now log = Some (inl (res, http), log') ->
  (http = 200 ->
   Health.formatOllamaError res = lit "Ollama is not properly configured")
  /\ (http = 503 ->
      Health.formatOllamaError res
      = lit "Cannot connect to Ollama at " ++ baseUrl cfg
          ++ lit ". Please ensure Ollama is running with: ollama serve"
      \/ Health.formatOllamaError res
         = lit "Model " ++ model cfg
             ++ lit " not found. Please pull it with: ollama pull " ++ model cfg)
  /\ Health.isOllamaReady (inl res) = (http =? 200).
Proof.
  intros Hget.
  destruct (GET_consistent cfg backend now log) as (res0 & http0 & log0 & Hget0 & Hok).
  rewrite Hget in Hget0. injection Hget0 as <- <- <-.
  destruct Hok as (Hhttp & Hhealthy & Herror & _ & _ & _ & Hurl & Hmodel).
  unfold Health.formatOllamaError, Health.isOllamaReady.
  rewrite Hurl, Hmodel.
  destruct (Health.connection (Health.checks res)),
           (Health.modelAvailable (Health.checks res)); cbn [negb andb].
  - assert (H200 : http = 200) by (apply Hhealthy; split; reflexivity).
    apply Herror in H200 as Hnone. rewrite Hnone. subst http.
    split; [reflexivity|]. split; [discriminate | reflexivity].
  - assert (H503 : http = 503).
    { destruct Hhttp as [H200 | H503]; [|exact H503].
      apply Hhealthy in H200 as [_ Hf]. discriminate. }
    subst http. split; [discriminate|]. split; [right; reflexivity | reflexivity].
  - assert (H503 : http = 503).
    { destruct Hhttp as [H200 | H503]; [|exact H503].
      apply Hhealthy in H200 as [Hf _]. discriminate. }
    subst http. split; [discriminate|]. split; [left; reflexivity | reflexivity].
  - assert (H503 : http = 503).
    { destruct Hhttp as [H200 | H503]; [|exact H503].
      apply Hhealthy in H200 as [Hf _]. discriminate. }
    subst http. split; [discriminate|]. split; [left; reflexivity | reflexivity].
Qed.

Lemma formatOllamaError_of_answer_witness :
  exists res http log',
    Health.GET (OLLAMA_CONFIG exampleSettings) otherModelHealth (lit "now") []
    = Some (inl (res, http), log')
    /\ (http = 200 ->
        Health.formatOllamaError res = lit "Ollama is not properly configured")
    /\ (http = 503 ->
        Health.formatOllamaError res
        = lit "Cannot connect to Ollama at " ++ baseUrl (OLLAMA_CONFIG exampleSettings)
            ++ lit ". Please ensure Ollama is running with: ollama serve"
        \/ Health.formatOllamaError res
           = lit "Model " ++ model (OLLAMA_CONFIG exampleSettings)
               ++ lit " not found. Please pull it with: ollama pull "
               ++ model (OLLAMA_CONFIG exampleSettings))
    /\ Health.isOllamaReady (inl res) = (http =? 200).
Proof.
  eexists _, _, _. split; [vm_compute; reflexivity|].
  apply (formatOllamaError_of_answer (OLLAMA_CONFIG exampleSettings) otherModelHealth
           (lit "now") [] [Health.tagsRequest (OLLAMA_CONFIG exampleSettings)]).
  vm_compute. reflexivity.
Defined.

(** ** GPU settings *)

Lemma Qfloor_three_quarters (n : Z) : Qfloor (inject_Z n * (75 # 100)) = (3 * n) / 4.
Proof.
  unfold Qfloor, Qmult, inject_Z. cbn [Qnum Qden].
  change (Z.pos (1 * 100)) with 100.
  replace (n * 75) with ((3 * n) * 25) by lia.
  change 100 with (4 * 25).
  rewrite Z.div_mul_cancel_r by lia. reflexivity.
Qed.

Lemma Qfloor_half (n : Z) : Qfloor (inject_Z n * (5 # 10)) = n / 2.
Proof.
  unfold Qfloor, Qmult, inject_Z. cbn [Qnum Qden].
  change (Z.pos (1 * 10)) with 10.
  change 10 with (2 * 5).
  rewrite Z.div_mul_cancel_r by lia. reflexivity.
Qed.

Lemma adjustConfigForOOM_eq (c : GPU.CurrentConfig) :
  GPU.adjustConfigForOOM c
  = GPU.mkAdjustedConfig (Z.max 0 ((3 * GPU.currentNumGpu c) / 4))
                         (Z.max 4096 (GPU.currentNumContext c / 2)) true.
Proof.
  unfold GPU.adjustConfigForOOM. rewrite Qfloor_three_quarters, Qfloor_half.
  reflexivity.
Qed.

Lemma adjustTimes_S (n : nat) (c : GPU.CurrentConfig) :
  adjustTimes (S n) c
  = GPU.mkCurrentConfig
      (Z.max 0 ((3 * GPU.currentNumGpu (adjustTimes n c)) / 4))
      (Z.max 4096 (GPU.currentNumContext (adjustTimes n c) / 2)).
Proof.
  change (adjustTimes (S n) c)
    with (GPU.mkCurrentConfig
            (GPU.newNumGpu (GPU.adjustConfigForOOM (adjustTimes n c)))
            (GPU.newNumContext (GPU.adjustConfigForOOM (adjustTimes n c)))).
  rewrite adjustConfigForOOM_eq. reflexivity.
Qed.

Lemma adjustTimes_bound (n : nat) (c : GPU.CurrentConfig) :
  (0 < n)%nat ->
  0 <= GPU.currentNumGpu (adjustTimes n c)
       <= Z.max 0 (GPU.currentNumGpu c - Z.of_nat n)
  /\ 4096 <= GPU.currentNumContext (adjustTimes n c)
          <= Z.max 4096 (GPU.currentNumContext c - Z.of_nat n).
Proof.
  induction n as [|n IH]; [lia|]. intros _.
  rewrite adjustTimes_S. cbn [GPU.currentNumGpu GPU.currentNumContext].
  destruct n as [|n].
  - change (adjustTimes 0 c) with c.
    pose proof (Z.div_mod (3 * GPU.currentNumGpu c) 4 ltac:(lia)).
    pose proof (Z.mod_pos_bound (3 * GPU.currentNumGpu c) 4 ltac:(lia)).
    pose proof (Z.div_mod (GPU.currentNumContext c) 2 ltac:(lia)).
    pose proof (Z.mod_pos_bound (GPU.currentNumContext c) 2 ltac:(lia)).
    lia.
  - specialize (IH ltac:(lia)).
    set (g := GPU.currentNumGpu (adjustTimes (S n) c)) in *.
    set (x := GPU.currentNumContext (adjustTimes (S n) c)) in *.
    pose proof (Z.div_mod (3 * g) 4 ltac:(lia)).
    pose proof (Z.mod_pos_bound (3 * g) 4 ltac:(lia)).
    pose proof (Z.div_mod x 2 ltac:(lia)).
    pose proof (Z.mod_pos_bound x 2 ltac:(lia)).
    lia.
Qed.

(** X29. [adjustConfigForOOM] never gives a negative number of layers
    or a context below 4096; it lowers a positive number of layers and a
    context above 4096, and raises a context below 4096 to 4096.
    Applied again and again it reaches 0 layers and a context of 4096
    and stays there, still reporting [adjusted: true]. *)
Theorem adjustConfigForOOM_descends (c : GPU.CurrentConfig) :
  let r := GPU.adjustConfigForOOM c in
  GPU.adjusted r = true
  /\ 0 <= GPU.newNumGpu r
  /\ 4096 <= GPU.newNumContext r
  /\ (0 < GPU.currentNumGpu c -> GPU.newNumGpu r < GPU.currentNumGpu c)
  /\ (4096 < GPU.currentNumContext c -> GPU.newNumContext r < GPU.currentNumContext c)
  /\ (GPU.currentNumContext c < 4096 -> GPU.newNumContext r = 4096)
  /\ (exists n, forall m, (n <= m)%nat -> adjustTimes m c = GPU.mkCurrentConfig 0 4096)
  /\ GPU.adjustConfigForOOM (GPU.mkCurrentConfig 0 4096)
     = GPU.mkAdjustedConfig 0 4096 true.
Proof.
  cbv zeta. rewrite adjustConfigForOOM_eq.
  cbn [GPU.adjusted GPU.newNumGpu GPU.newNumContext].
  pose proof (Z.div_mod (3 * GPU.currentNumGpu c) 4 ltac:(lia)).
  pose proof (Z.mod_pos_bound (3 * GPU.currentNumGpu c) 4 ltac:(lia)).
  pose proof (Z.div_mod (GPU.currentNumContext c) 2 ltac:(lia)).
  pose proof (Z.mod_pos_bound (GPU.currentNumContext c) 2 ltac:(lia)).
  split; [reflexivity|]. split; [lia|]. split; [lia|]. split; [lia|].
  split; [lia|]. split; [lia|]. split; [|reflexivity].
  exists (S (Z.to_nat (Z.max (GPU.currentNumGpu c) (GPU.currentNumContext c)))).
  intros m Hm.
  destruct (adjustTimes_bound m c ltac:(lia)) as [Hg Hx].
  destruct (adjustTimes m c) as [g x]. cbn [GPU.currentNumGpu GPU.currentNumContext] in *.
  f_equal; lia.
Qed.

Section ProfileFacts.

Variables (vramGB : Z) (modelName : jsstring).

Let matching (p : GPU.GPUProfile) : bool :=
  eqb (GPU.model p) modelName && (GPU.vram p <=? vramGB).

(** The profile chosen, by cases on which profiles match. *)
Lemma getOptimalGPUConfig_cases :
  let c := GPU.getOptimalGPUConfig vramGB modelName in
  (0 <= GPU.numGpu c /\ 4096 <= GPU.numContext c <= 125000)
  /\ (vramGB < 6 -> GPU.numGpu c = 0 /\ GPU.numContext c = 16384)
  /\ (6 <= vramGB -> 16 <= GPU.numGpu c)
  /\ ((forall q, q ∈ GPU.GPU_PROFILES -> matching q = false) ->
      6 <= vramGB ->
      GPU.numGpu c = vramGB * 3 /\ GPU.numContext c = Z.min 125000 (vramGB * 8192))
  /\ (forall q, q ∈ GPU.GPU_PROFILES -> matching q = true ->
        exists p, p ∈ GPU.GPU_PROFILES /\ matching p = true
                  /\ GPU.vram q <= GPU.vram p
                  /\ c = profileConfig p).
Proof.
  cbv zeta. unfold GPU.getOptimalGPUConfig, GPU.GPU_PROFILES, matching.
  cbn [List.filter GPU.model GPU.vram].
  assert (Hall : forall (P : GPU.GPUProfile -> Prop) a b c d,
             (forall q, q ∈ [a; b; c; d] -> P q) <-> P a /\ P b /\ P c /\ P d).
  { intros P a b c d. split.
    - intros Hq. repeat split; apply Hq; repeat constructor.
    - intros (Ha & Hb & Hc & Hd) q Hq.
      repeat (apply elem_of_cons in Hq as [-> | Hq]; [assumption|]).
      apply elem_of_nil in Hq. contradiction. }
  rewrite !Hall. cbn [GPU.model GPU.vram].
  remember (eqb (lit "qwen2.5vl:3b") modelName) as qwen eqn:Hqwen.
  remember (eqb (lit "llava:7b") modelName) as llava eqn:Hllava.
  destruct qwen, llava, (8 <=? vramGB) eqn:H8, (6 <=? vramGB) eqn:H6,
           (12 <=? vramGB) eqn:H12; try lia;
    cbn [andb GPU.sortByVram fold_right GPU.insertByVram GPU.vram head
         Z.ltb Z.compare Pos.compare Pos.compare_cont];
    destruct (vramGB <? 6) eqn:Hlt; try lia;
    cbn [GPU.numGpu GPU.numContext GPU.recommendedLayers GPU.maxContext GPU.notes];
    (split; [lia|]); (split; [intros; lia|]); (split; [intros; lia|]);
    (split; [intros (? & ? & ? & ?) ?; first [discriminate | split; lia]|]);
    repeat split; intros; try discriminate;
    first
      [ exists (GPU.mkGPUProfile 12 (lit "qwen2.5vl:3b") 999 125000
                  (lit "Full GPU acceleration with 12GB+ VRAM"));
        split; [repeat constructor|]; cbn [GPU.model GPU.vram];
        rewrite <- ?Hqwen, <- ?Hllava, ?H8, ?H6, ?H12;
        split; [reflexivity|]; split; [lia | reflexivity]
      | exists (GPU.mkGPUProfile 8 (lit "qwen2.5vl:3b") 22 65536
                  (lit "Balanced performance with 8GB VRAM, leaves ~1.5GB for system"));
        split; [repeat constructor|]; cbn [GPU.model GPU.vram];
        rewrite <- ?Hqwen, <- ?Hllava, ?H8, ?H6, ?H12;
        split; [reflexivity|]; split; [lia | reflexivity]
      | exists (GPU.mkGPUProfile 8 (lit "llava:7b") 24 4096
                  (lit "Llava uses less memory, can use more layers"));
        split; [repeat constructor|]; cbn [GPU.model GPU.vram];
        rewrite <- ?Hqwen, <- ?Hllava, ?H8, ?H6, ?H12;
        split; [reflexivity|]; split; [lia | reflexivity]
      | exists (GPU.mkGPUProfile 6 (lit "qwen2.5vl:3b") 16 32768
                  (lit "Conservative settings for 6GB VRAM"));
        split; [repeat constructor|]; cbn [GPU.model GPU.vram];
        rewrite <- ?Hqwen, <- ?Hllava, ?H8, ?H6, ?H12;
        split; [reflexivity|]; split; [lia | reflexivity] ].
Qed.

End ProfileFacts.

(** X28. [getOptimalGPUConfig] never gives a negative number of layers
    and its context is between 4096 and 125000.  Below 6 GB it answers
    CPU only for every model, from 6 GB on it puts at least 16 layers
    on the GPU; and when a profile of the model fits the memory, the
    answer is a fitting profile of that model with the most memory. *)
Theorem getOptimalGPUConfig_selects (vramGB : Z) (modelName : jsstring) :
  let c := GPU.getOptimalGPUConfig vramGB modelName in
  (0 <= GPU.numGpu c /\ 4096 <= GPU.numContext c <= 125000)
  /\ (vramGB < 6 -> GPU.numGpu c = 0 /\ GPU.numContext c = 16384)
  /\ (6 <= vramGB -> 16 <= GPU.numGpu c)
  /\ (forall q, q ∈ GPU.GPU_PROFILES ->
        eqb (GPU.model q) modelName = true -> GPU.vram q <= vramGB ->
        exists p, p ∈ GPU.GPU_PROFILES
                  /\ eqb (GPU.model p) modelName = true
                  /\ GPU.vram q <= GPU.vram p <= vramGB
                  /\ c = profileConfig p).
Proof.
  pose proof (getOptimalGPUConfig_cases vramGB modelName) as Hcases.
  cbv zeta in *. destruct Hcases as (Hbounds & Hlow & Hhigh & _ & Hbest).
  split; [exact Hbounds|]. split; [exact Hlow|]. split; [exact Hhigh|].
  intros q Hq Hmodel Hvram.
  destruct (Hbest q Hq) as (p & Hp & Hmatch & Hle & Hc).
  { rewrite Hmodel. cbn [andb]. apply Z.leb_le, Hvram. }
  apply andb_prop in Hmatch as [Hpm Hpv]. apply Z.leb_le in Hpv.
  exists p. split; [exact Hp|]. split; [exact Hpm|]. split; [lia | exact Hc].
Qed.

(** ** Embeddings *)

Section BatchFacts.

Variable backend : Embeddings.Backend.







End BatchFacts.

